(** * Time-Rights Chain (CPC): a shallow embedding of the consensus core

    The development follows the Python sources file by file:
    - [utxo.py]: [UTXO], [CopyrightPayload], [TimeLockScript],
      [BlockchainUTXOManager];
    - [transaction.py]: [TransactionInput], [TransactionOutput],
      [Transaction], [TransactionValidator];
    - [cpc_miner.py]: [CPCBlock], [proof_of_work], [mine_block].

    Conventions of the embedding.
    - A Python [str] is the [string] of its UTF-8 bytes.  Splitting on an
      ASCII separator, prefix tests, equality and code-point ordering agree
      on both readings.
    - A Python [float] is a decimal [Float.t] (mantissa and decimal scale)
      with exact arithmetic: comparisons and [int()] are those of the value,
      rounding of sums is not modelled, and there is no NaN or infinity.
      No general statement below depends on the value of a sum or of a
      difference of amounts; the examples use amounts on which decimal and
      binary arithmetic agree.
    - A Python [dict] is an association list in insertion order.
    - [hashlib.sha256] and [json.dumps(..., sort_keys=True)] are implemented,
      so transaction ids and block hashes compute.
    - [time.time()] is an explicit argument; ECDSA verification is a
      parameter of the validator.
    - The [from_dict] class methods read typed records out of JSON values;
      where a value has a JSON type that the record cannot hold, the reading
      stops with [Untyped] (module [Read]).
    - An uncaught Python exception is the [Raise] branch of [exc]. *)

From Stdlib Require Import ZArith QArith String Ascii List Bool Lia.
From Stdlib Require Import DecimalString DecimalZ DecimalPos.
Import ListNotations.

Set Warnings "-register-all".

Local Open Scope string_scope.
Local Open Scope list_scope.
Local Open Scope Z_scope.

(* ================================================================== *)
(** ** Python primitives *)

Module Py.

(** Exceptions that the modelled code can let escape. *)
Inductive exn := KeyError | IndexError | ValueError | TypeError.

Inductive exc (A : Type) : Type :=
| Return (a : A)
| Raise (e : exn).
Arguments Return {A} a.
Arguments Raise {A} e.

Definition bind {A B : Type} (m : exc A) (k : A -> exc B) : exc B :=
  match m with
  | Return a => k a
  | Raise e => Raise e
  end.

(** [str.split(sep)] for a one-character separator: never empty. *)
Fixpoint split (sep : ascii) (s : string) : list string :=
  match s with
  | EmptyString => [EmptyString]
  | String c r =>
      if Ascii.eqb c sep then EmptyString :: split sep r
      else match split sep r with
           | h :: t => String c h :: t
           | [] => [String c EmptyString]
           end
  end.

(** [sep.join(parts)]. *)
Definition join (sep : string) (parts : list string) : string :=
  String.concat sep parts.

(** [s.startswith(p)]. *)
Definition startswith (p s : string) : bool := String.prefix p s.

(** [c * n] for a one-character string [c]. *)
Fixpoint repeat_char (c : ascii) (n : nat) : string :=
  match n with
  | O => EmptyString
  | S k => String c (repeat_char c k)
  end.

Fixpoint string_all (p : ascii -> bool) (s : string) : bool :=
  match s with
  | EmptyString => true
  | String c r => p c && string_all p r
  end.

(** No character of [s] is [sep]. *)
Definition lacks (sep : ascii) (s : string) : bool :=
  string_all (fun c => negb (Ascii.eqb c sep)) s.

(** [x in xs] for strings. *)
Definition mem (x : string) (xs : list string) : bool :=
  existsb (String.eqb x) xs.

(** Truthiness of an [Optional[str]]: [None] and the empty string are false. *)
Definition truthy_str (o : option string) : bool :=
  match o with
  | Some (String _ _) => true
  | _ => false
  end.

(** Truthiness of an [Optional[int]]: [None] and [0] are false. *)
Definition truthy_int (o : option Z) : bool :=
  match o with
  | Some z => negb (z =? 0)
  | None => false
  end.

(** [str(n)] for an [int]. *)
Definition str_of_Z (z : Z) : string := NilZero.string_of_int (Z.to_int z).

(** Whitespace that [int()] skips, on the ASCII range: tab to carriage
    return, and the space.  (Whitespace and digits outside ASCII, which
    [int()] also takes, are not modelled: such a string is a [ValueError]
    here.) *)
Definition is_space (c : ascii) : bool :=
  let n := nat_of_ascii c in
  (((9 <=? n) && (n <=? 13)) || (n =? 32))%nat.

Fixpoint lstrip (s : string) : string :=
  match s with
  | String c r => if is_space c then lstrip r else s
  | EmptyString => EmptyString
  end.

Fixpoint rstrip (s : string) : string :=
  match s with
  | EmptyString => EmptyString
  | String c r =>
      match rstrip r with
      | EmptyString => if is_space c then EmptyString else String c EmptyString
      | r' => String c r'
      end
  end.

Definition strip (s : string) : string := rstrip (lstrip s).

Definition is_digit (c : ascii) : bool :=
  let n := nat_of_ascii c in ((48 <=? n) && (n <=? 57))%nat.

(** Digit groups of an integer literal: single underscores between digits
    are dropped, any other underscore is an error. *)
Fixpoint drop_underscores (s : string) (prev_digit : bool) : option string :=
  match s with
  | EmptyString => Some EmptyString
  | String c r =>
      if Ascii.eqb c "_" then
        if prev_digit then
          match r with
          | String d _ => if is_digit d then drop_underscores r false else None
          | EmptyString => None
          end
        else None
      else option_map (String c) (drop_underscores r (is_digit c))
  end.

(** [int(s)] for a [str], base 10: surrounding whitespace, an optional sign,
    then digits.  [None] is [ValueError]. *)
Definition int_of_str (s : string) : option Z :=
  let s := strip s in
  let '(neg, body) :=
    match s with
    | String c r =>
        if Ascii.eqb c "-" then (true, r)
        else if Ascii.eqb c "+" then (false, r)
        else (false, s)
    | EmptyString => (false, s)
    end in
  match drop_underscores body false with
  | None => None
  | Some ds =>
      match NilEmpty.uint_of_string ds with
      | None => None
      | Some Decimal.Nil => None
      | Some d => Some (if neg then - Z.of_uint d else Z.of_uint d)
      end
  end.

(** *** [dict] with [str] keys, in insertion order *)

Definition dict (V : Type) := list (string * V).

(** [d.get(k)]. *)
Fixpoint lookup {V : Type} (k : string) (d : dict V) : option V :=
  match d with
  | [] => None
  | (k', v) :: r => if String.eqb k k' then Some v else lookup k r
  end.

(** [k in d]. *)
Definition contains {V : Type} (k : string) (d : dict V) : bool :=
  match lookup k d with Some _ => true | None => false end.

(** [d[k] = v]: an existing key keeps its place, a new one goes last. *)
Fixpoint set_item {V : Type} (k : string) (v : V) (d : dict V) : dict V :=
  match d with
  | [] => [(k, v)]
  | (k', v') :: r =>
      if String.eqb k k' then (k', v) :: r else (k', v') :: set_item k v r
  end.

(** [del d[k]]: [KeyError] when the key is absent. *)
Fixpoint del_item {V : Type} (k : string) (d : dict V) : exc (dict V) :=
  match d with
  | [] => Raise KeyError
  | (k', v') :: r =>
      if String.eqb k k' then Return r
      else match del_item k r with
           | Return r' => Return ((k', v') :: r')
           | Raise e => Raise e
           end
  end.

(** [d.pop(k, None)], for the dict that remains: removal that never raises. *)
Fixpoint discard {V : Type} (k : string) (d : dict V) : dict V :=
  match d with
  | [] => []
  | (k', v') :: r => if String.eqb k k' then r else (k', v') :: discard k r
  end.

(** [d.values()]. *)
Definition values {V : Type} (d : dict V) : list V := map snd d.

(** *** Characters of a [str] *)

Definition byte (c : ascii) : Z := Z.of_nat (nat_of_ascii c).

(** The characters of a string, each as the string of its UTF-8 bytes.  A
    byte that starts no complete sequence is a character of its own. *)
Fixpoint chars (s : string) : list string :=
  match s with
  | EmptyString => []
  | String c r =>
      let b := byte c in
      let one := String c EmptyString :: chars r in
      if b <? 192 then one
      else
        match r with
        | String c1 r1 =>
            if b <? 224 then String c (String c1 EmptyString) :: chars r1
            else
              match r1 with
              | String c2 r2 =>
                  if b <? 240 then
                    String c (String c1 (String c2 EmptyString)) :: chars r2
                  else
                    match r2 with
                    | String c3 r3 =>
                        if b <? 248 then
                          String c (String c1 (String c2 (String c3 EmptyString)))
                          :: chars r3
                        else one
                    | EmptyString => one
                    end
              | EmptyString => one
              end
        | EmptyString => one
        end
  end.

(** The code point of one character. *)
Definition code_point (ch : string) : Z :=
  let cont := fun c => Z.land (byte c) 63 in
  match ch with
  | String c EmptyString => byte c
  | String c (String c1 EmptyString) =>
      Z.lor (Z.shiftl (Z.land (byte c) 31) 6) (cont c1)
  | String c (String c1 (String c2 EmptyString)) =>
      Z.lor (Z.shiftl (Z.land (byte c) 15) 12)
        (Z.lor (Z.shiftl (cont c1) 6) (cont c2))
  | String c (String c1 (String c2 (String c3 EmptyString))) =>
      Z.lor (Z.shiftl (Z.land (byte c) 7) 18)
        (Z.lor (Z.shiftl (cont c1) 12) (Z.lor (Z.shiftl (cont c2) 6) (cont c3)))
  | _ => 0
  end.

End Py.

Notation "x <- m ;; k" := (Py.bind m (fun x => k))
  (at level 61, m at next level, right associativity).

(* ================================================================== *)
(** ** Floats as decimals *)

Module Float.

(** The value of [mk m s] is [m / 10^s]. *)
Record t := mk { mant : Z; scale : nat }.

Definition pow10 (n : nat) : Z := 10 ^ Z.of_nat n.

Definition of_Z (z : Z) : t := mk z 0.

Definition to_Q (a : t) : Q := mant a # Z.to_pos (pow10 (scale a)).

Definition add (a b : t) : t :=
  mk (mant a * pow10 (scale b) + mant b * pow10 (scale a)) (scale a + scale b).

Definition sub (a b : t) : t :=
  mk (mant a * pow10 (scale b) - mant b * pow10 (scale a)) (scale a + scale b).

Definition leb (a b : t) : bool :=
  mant a * pow10 (scale b) <=? mant b * pow10 (scale a).

Definition ltb (a b : t) : bool :=
  mant a * pow10 (scale b) <? mant b * pow10 (scale a).

Definition eqb (a b : t) : bool :=
  mant a * pow10 (scale b) =? mant b * pow10 (scale a).

(** [a > b]. *)
Definition gtb (a b : t) : bool := ltb b a.

(** [int(a)]: truncation towards zero. *)
Definition trunc (a : t) : Z := Z.quot (mant a) (pow10 (scale a)).

(** [sum(xs)], from the left, starting at [0]. *)
Definition sum (xs : list t) : t := fold_left add xs (of_Z 0).

(** The fractional digits of [r / 10^n] for [0 <= r < 10^n], most
    significant first, without trailing zeros. *)
Fixpoint frac_digits (n : nat) (r : Z) : string :=
  match n with
  | O => EmptyString
  | S k =>
      if r =? 0 then EmptyString
      else
        let d := r / pow10 k in
        String (ascii_of_nat (48 + Z.to_nat d)) (frac_digits k (r mod pow10 k))
  end.

(** [repr(a)] in positional notation, as [json.dumps] prints a float whose
    magnitude lies in [1e-4, 1e16); outside it Python switches to exponent
    notation, which is not modelled. *)
Definition repr (a : t) : string :=
  let m := Z.abs (mant a) in
  let p := pow10 (scale a) in
  let frac := frac_digits (scale a) (m mod p) in
  let sign := if mant a <? 0 then "-" else "" in
  let whole := Py.str_of_Z (m / p) in
  (sign ++ whole ++ "." ++ (match frac with EmptyString => "0" | _ => frac end))%string.

End Float.

(* ================================================================== *)
(** ** JSON values and [json.dumps(..., sort_keys=True)] *)

Module Json.

(** What [json.loads] produces; [JNull] is Python's [None]. *)
Inductive jval :=
| JNull
| JBool (b : bool)
| JInt (n : Z)
| JFloat (f : Float.t)
| JStr (s : string)
| JList (l : list jval)
| JDict (d : list (string * jval)).

(** A [dict] with [str] keys and JSON values. *)
Definition dict := Py.dict jval.

(** [d.get(k)]: [None] when the key is absent. *)
Definition get (k : string) (d : dict) : jval :=
  match Py.lookup k d with
  | Some v => v
  | None => JNull
  end.

(** [d.get(k, default)]. *)
Definition get_default (k : string) (default : jval) (d : dict) : jval :=
  match Py.lookup k d with
  | Some v => v
  | None => default
  end.

(** Truthiness of a JSON value. *)
Definition truthy (v : jval) : bool :=
  match v with
  | JNull => false
  | JBool b => b
  | JInt n => negb (n =? 0)
  | JFloat f => negb (Float.mant f =? 0)
  | JStr s => match s with EmptyString => false | _ => true end
  | JList l => match l with [] => false | _ => true end
  | JDict d => match d with [] => false | _ => true end
  end.

(** The number a [bool], [int] or [float] stands for. *)
Definition number (v : jval) : option Float.t :=
  match v with
  | JBool b => Some (Float.of_Z (if b then 1 else 0))
  | JInt n => Some (Float.of_Z n)
  | JFloat f => Some f
  | _ => None
  end.

(** [a == b]: numbers by value across [bool], [int] and [float], strings by
    content, lists element by element, dicts key by key. *)
Fixpoint py_eqb (a b : jval) : bool :=
  match a, b with
  | JNull, JNull => true
  | JStr s, JStr t => String.eqb s t
  | JList l, JList m =>
      (fix go (l m : list jval) : bool :=
         match l, m with
         | [], [] => true
         | x :: l', y :: m' => py_eqb x y && go l' m'
         | _, _ => false
         end) l m
  | JDict d, JDict e =>
      Nat.eqb (length d) (length e)
      && forallb (fun kv =>
                    match kv with
                    | (k, x) =>
                        match Py.lookup k e with
                        | Some y => py_eqb x y
                        | None => false
                        end
                    end) d
  | _, _ =>
      match number a, number b with
      | Some x, Some y => Float.eqb x y
      | _, _ => false
      end
  end.

(** [d.get(k) == s] for a string literal [s]. *)
Definition get_is_str (k : string) (d : dict) (s : string) : bool :=
  py_eqb (get k d) (JStr s).

(** Lists and dicts are unhashable: they are neither set elements nor keys. *)
Definition hashable (v : jval) : bool :=
  match v with
  | JList _ | JDict _ => false
  | _ => true
  end.

(** [int(v)]. *)
Definition py_int (v : jval) : Py.exc Z :=
  match v with
  | JInt n => Py.Return n
  | JBool b => Py.Return (if b then 1 else 0)
  | JFloat f => Py.Return (Float.trunc f)
  | JStr s =>
      match Py.int_of_str s with
      | Some n => Py.Return n
      | None => Py.Raise Py.ValueError
      end
  | _ => Py.Raise Py.TypeError
  end.

(** [x in xs] under [==]. *)
Definition elem (x : jval) (xs : list jval) : bool := existsb (py_eqb x) xs.

(** [set(v)], as the list of its elements: the items of a list, the
    characters of a string, the keys of a dict. *)
Definition py_set (v : jval) : Py.exc (list jval) :=
  match v with
  | JList l => if forallb hashable l then Py.Return l else Py.Raise Py.TypeError
  | JStr s => Py.Return (map JStr (Py.chars s))
  | JDict d => Py.Return (map (fun kv => JStr (fst kv)) d)
  | _ => Py.Raise Py.TypeError
  end.

(** [xs.issubset(ys)]. *)
Definition issubset (xs ys : list jval) : bool :=
  forallb (fun x => elem x ys) xs.

Definition hexdigit (n : Z) : ascii :=
  match String.get (Z.to_nat n) "0123456789abcdef" with
  | Some c => c
  | None => "0"%char
  end.

(** [\uXXXX]. *)
Definition u_escape (cp : Z) : string :=
  String "\" (String "u"
    (String (hexdigit (Z.shiftr cp 12 mod 16))
      (String (hexdigit (Z.shiftr cp 8 mod 16))
        (String (hexdigit (Z.shiftr cp 4 mod 16))
          (String (hexdigit (cp mod 16)) EmptyString))))).

Definition quote_char : ascii := "034"%char.

(** One code point as [json.dumps] writes it with [ensure_ascii=True]. *)
Definition escape_cp (cp : Z) : string :=
  if cp =? 34 then String "\" (String quote_char EmptyString)
  else if cp =? 92 then "\\"
  else if cp =? 10 then "\n"
  else if cp =? 13 then "\r"
  else if cp =? 9 then "\t"
  else if cp =? 8 then "\b"
  else if cp =? 12 then "\f"
  else if (32 <=? cp) && (cp <=? 126) then String (ascii_of_nat (Z.to_nat cp)) EmptyString
  else if cp <? 65536 then u_escape cp
  else
    let v := cp - 65536 in
    (u_escape (Z.lor 55296 (Z.shiftr v 10)) ++ u_escape (Z.lor 56320 (Z.land v 1023)))%string.

(** The body of a JSON string. *)
Definition escape (s : string) : string :=
  String.concat "" (map (fun ch => escape_cp (Py.code_point ch)) (Py.chars s)).

Definition quote (s : string) : string :=
  String quote_char (escape s ++ String quote_char EmptyString).

(** Items ordered by key, for [sort_keys=True]. *)
Fixpoint insert_item (kv : string * string) (l : list (string * string))
  : list (string * string) :=
  match l with
  | [] => [kv]
  | kv' :: r =>
      if String.leb (fst kv) (fst kv') then kv :: l else kv' :: insert_item kv r
  end.

Definition sort_items (l : list (string * string)) : list (string * string) :=
  fold_right insert_item [] l.

(** [json.dumps(v, sort_keys=True)] with the default separators. *)
Fixpoint dumps (v : jval) : string :=
  match v with
  | JNull => "null"
  | JBool true => "true"
  | JBool false => "false"
  | JInt n => Py.str_of_Z n
  | JFloat f => Float.repr f
  | JStr s => quote s
  | JList l => ("[" ++ Py.join ", " (map dumps l) ++ "]")%string
  | JDict d =>
      let items := map (fun kv => match kv with (k, x) => (k, dumps x) end) d in
      ("{" ++ Py.join ", "
         (map (fun kv => (quote (fst kv) ++ ": " ++ snd kv)%string) (sort_items items))
       ++ "}")%string
  end.

End Json.

(* ================================================================== *)
(** ** [hashlib.sha256(...).hexdigest()] (FIPS 180-4) *)

Module Sha256.

Definition w32 (x : Z) : Z := Z.land x (2 ^ 32 - 1).

Definition add32 (x y : Z) : Z := w32 (x + y).

Definition rotr (n x : Z) : Z :=
  w32 (Z.lor (Z.shiftr x n) (Z.shiftl x (32 - n))).

Definition Ch (x y z : Z) : Z := Z.lxor (Z.land x y) (Z.land (Z.lnot x) z).

Definition Maj (x y z : Z) : Z :=
  Z.lxor (Z.lxor (Z.land x y) (Z.land x z)) (Z.land y z).

Definition Sigma0 (x : Z) : Z := Z.lxor (Z.lxor (rotr 2 x) (rotr 13 x)) (rotr 22 x).

Definition Sigma1 (x : Z) : Z := Z.lxor (Z.lxor (rotr 6 x) (rotr 11 x)) (rotr 25 x).

Definition sigma0 (x : Z) : Z := Z.lxor (Z.lxor (rotr 7 x) (rotr 18 x)) (Z.shiftr x 3).

Definition sigma1 (x : Z) : Z := Z.lxor (Z.lxor (rotr 17 x) (rotr 19 x)) (Z.shiftr x 10).

(** The round constants: the first 32 bits of the fractional parts of the
    cube roots of the first 64 primes. *)
Definition K : list Z :=
  [
   1116352408; 1899447441; 3049323471; 3921009573; 961987163;
   1508970993; 2453635748; 2870763221; 3624381080; 310598401;
   607225278; 1426881987; 1925078388; 2162078206; 2614888103;
   3248222580; 3835390401; 4022224774; 264347078; 604807628;
   770255983; 1249150122; 1555081692; 1996064986; 2554220882;
   2821834349; 2952996808; 3210313671; 3336571891; 3584528711;
   113926993; 338241895; 666307205; 773529912; 1294757372;
   1396182291; 1695183700; 1986661051; 2177026350; 2456956037;
   2730485921; 2820302411; 3259730800; 3345764771; 3516065817;
   3600352804; 4094571909; 275423344; 430227734; 506948616;
   659060556; 883997877; 958139571; 1322822218; 1537002063;
   1747873779; 1955562222; 2024104815; 2227730452; 2361852424;
   2428436474; 2756734187; 3204031479; 3329325298
  ].

(** The initial state: the same bits of the square roots of the first 8
    primes. *)
Definition H0 : list Z :=
  [
   1779033703; 3144134277; 1013904242; 2773480762;
   1359893119; 2600822924; 528734635; 1541459225
  ].

(** The message schedule: [n] more words after the ones in [w]. *)
Fixpoint extend (n : nat) (w : list Z) : list Z :=
  match n with
  | O => w
  | S k =>
      let t := length w in
      let x := fun i => nth (t - i) w 0 in
      extend k
        (w ++ [add32 (add32 (sigma1 (x 2%nat)) (x 7%nat))
                     (add32 (sigma0 (x 15%nat)) (x 16%nat))])
  end.

Definition round (s : list Z) (kw : Z * Z) : list Z :=
  match s with
  | [a; b; c; d; e; f; g; h] =>
      let t1 := h + Sigma1 e + Ch e f g + fst kw + snd kw in
      let t2 := Sigma0 a + Maj a b c in
      [add32 t1 t2; a; b; c; add32 d t1; e; f; g]
  | _ => s
  end.

Definition compress (hs block : list Z) : list Z :=
  map (fun p => add32 (fst p) (snd p))
      (combine hs (fold_left round (combine K (extend 48 block)) hs)).

(** Big-endian 32-bit words of a byte list. *)
Fixpoint words (bs : list Z) : list Z :=
  match bs with
  | b0 :: b1 :: b2 :: b3 :: r =>
      (Z.shiftl b0 24 + Z.shiftl b1 16 + Z.shiftl b2 8 + b3) :: words r
  | _ => []
  end.

Fixpoint blocks (fuel : nat) (ws : list Z) (hs : list Z) : list Z :=
  match fuel, ws with
  | S k, _ :: _ => blocks k (skipn 16 ws) (compress hs (firstn 16 ws))
  | _, _ => hs
  end.

Definition bytes_of (s : string) : list Z :=
  map (fun c => Z.of_nat (nat_of_ascii c)) (list_ascii_of_string s).

Definition be64 (n : Z) : list Z :=
  map (fun i => Z.land (Z.shiftr n (8 * i)) 255) [7; 6; 5; 4; 3; 2; 1; 0].

Definition pad (bs : list Z) : list Z :=
  let len := Z.of_nat (length bs) in
  bs ++ [128] ++ repeat 0 (Z.to_nat ((55 - len) mod 64)) ++ be64 (8 * len).

Definition hex8 (w : Z) : string :=
  string_of_list_ascii
    (map (fun i => Json.hexdigit (Z.land (Z.shiftr w (4 * i)) 15))
         [7; 6; 5; 4; 3; 2; 1; 0]).

Definition hexdigest (s : string) : string :=
  let ws := words (pad (bytes_of s)) in
  String.concat "" (map hex8 (blocks (length ws) ws H0)).

End Sha256.

Import Json.

(* ================================================================== *)
(** ** Reading typed records out of JSON values *)

(** Typed readings of a JSON value, for the [from_dict] class methods.  The
    records of the model are typed where Python's objects are not: a value
    of another JSON type than the one [to_dict] writes has no place in a
    record.  Python stores such a value as it is and goes on; the model stops
    with [Untyped], which says nothing about the program. *)
Module Read.

Inductive parsed (A : Type) : Type :=
| Parsed (a : A)
| Fails (e : Py.exn)
| Untyped.
Arguments Parsed {A} a.
Arguments Fails {A} e.
Arguments Untyped {A}.

Definition bind {A B : Type} (m : parsed A) (k : A -> parsed B) : parsed B :=
  match m with
  | Parsed a => k a
  | Fails e => Fails e
  | Untyped => Untyped
  end.

(** [data[k]]. *)
Definition item (k : string) (data : dict) : parsed jval :=
  match Py.lookup k data with
  | Some v => Parsed v
  | None => Fails Py.KeyError
  end.

Definition str (v : jval) : parsed string :=
  match v with
  | JStr s => Parsed s
  | _ => Untyped
  end.

Definition int (v : jval) : parsed Z :=
  match v with
  | JInt n => Parsed n
  | _ => Untyped
  end.

Definition float (v : jval) : parsed Float.t :=
  match v with
  | JFloat f => Parsed f
  | _ => Untyped
  end.

(** A string or [None]. *)
Definition opt_str (v : jval) : parsed (option string) :=
  match v with
  | JNull => Parsed None
  | JStr s => Parsed (Some s)
  | _ => Untyped
  end.

Fixpoint each {A B : Type} (f : A -> parsed B) (xs : list A) : parsed (list B) :=
  match xs with
  | [] => Parsed []
  | x :: r => bind (f x) (fun y => bind (each f r) (fun ys => Parsed (y :: ys)))
  end.

(** A list of strings or [None]. *)
Definition opt_str_list (v : jval) : parsed (option (list string)) :=
  match v with
  | JNull => Parsed None
  | JList l => bind (each str l) (fun l' => Parsed (Some l'))
  | _ => Untyped
  end.

(** A dict of strings. *)
Definition str_dict (v : jval) : parsed (Py.dict string) :=
  match v with
  | JDict d => each (fun kv => bind (str (snd kv)) (fun s => Parsed (fst kv, s))) d
  | _ => Untyped
  end.

(** [v or {}] for a dict-valued field. *)
Definition dict_or_empty (v : jval) : parsed dict :=
  if truthy v then
    match v with
    | JDict d => Parsed d
    | _ => Untyped
    end
  else Parsed [].

(** [[cls.from_dict(x) for x in v]], where [from_dict] begins by subscripting
    [x] with a string: the items of a list, each of which has to be a dict;
    nothing for an empty string or an empty dict; [TypeError] otherwise, from
    the iteration or from the subscript. *)
Definition dicts {A : Type} (f : dict -> parsed A) (v : jval) : parsed (list A) :=
  match v with
  | JList l =>
      each (fun x => match x with JDict d => f d | _ => Fails Py.TypeError end) l
  | JStr EmptyString => Parsed []
  | JDict [] => Parsed []
  | _ => Fails Py.TypeError
  end.

(** The items of the dict that a [to_dict] method returns. *)
Definition items (v : jval) : dict :=
  match v with
  | JDict d => d
  | _ => []
  end.

End Read.

Notation "x <~ m ;; k" := (Read.bind m (fun x => k))
  (at level 61, m at next level, right associativity).

(* ================================================================== *)
(** ** utxo.py *)

(** Ninety days, in seconds. *)
Definition AUTHORIZATION_DURATION_SECONDS : Z := 90 * 24 * 3600.

Module UTXO.

(** [created_time], the wall clock at construction, is read by no operation
    of the core and is left out. *)
Record t := mk {
  txid : string;
  vout : Z;
  amount : Float.t;
  address : string;
  script_pubkey : string;
  utxo_type : string;
  payload : dict
}.

(** The key ["txid:vout"] of the UTXO map. *)
Definition identifier (txid : string) (vout : Z) : string :=
  (txid ++ ":" ++ Py.str_of_Z vout)%string.

Definition get_identifier (u : t) : string := identifier (txid u) (vout u).

End UTXO.

Module CopyrightPayload.

Record t := mk {
  work_hash : jval;
  work_title : jval;
  author : jval;
  copyright_type : jval;
  rights_scope : jval;
  parent_utxo : jval;
  metadata : jval;
  created_at : jval
}.

Definition default_rights_scope : jval :=
  JList [JStr "复制权"; JStr "发行权"; JStr "改编权"; JStr "表演权"].

(** [data[k]]. *)
Definition item (k : string) (data : dict) : Py.exc jval :=
  match Py.lookup k data with
  | Some v => Py.Return v
  | None => Py.Raise Py.KeyError
  end.

(** [from_dict(data)] at clock reading [now]. *)
Definition from_dict (now : Z) (data : dict) : Py.exc t :=
  wh <- item "work_hash" data ;;
  wt <- item "work_title" data ;;
  au <- item "author" data ;;
  ct <- item "copyright_type" data ;;
  let rs := get "rights_scope" data in
  let md := get_default "metadata" (JDict []) data in
  Py.Return
    (mk wh wt au ct
        (if truthy rs then rs else default_rights_scope)
        (get "parent_utxo" data)
        (if truthy md then md else JDict [])
        (get_default "created_at" (JInt now) data)).

(** [to_dict()]. *)
Definition to_dict (p : t) : dict :=
  [("work_hash", work_hash p);
   ("work_title", work_title p);
   ("author", author p);
   ("copyright_type", copyright_type p);
   ("rights_scope", rights_scope p);
   ("parent_utxo", parent_utxo p);
   ("metadata", metadata p);
   ("created_at", created_at p)].

(** [get_end_time()]. *)
Definition get_end_time (p : t) : Py.exc Z :=
  c <- py_int (created_at p) ;;
  Py.Return (c + AUTHORIZATION_DURATION_SECONDS).

(** [is_expired(current_time)]. *)
Definition is_expired (p : t) (current_time : Z) : Py.exc bool :=
  e <- get_end_time p ;;
  Py.Return (current_time >=? e).

End CopyrightPayload.

Module TimeLockScript.

Definition SCRIPT_TYPE_P2PKH : string := "P2PKH".
Definition SCRIPT_TYPE_MULTISIG : string := "MULTISIG".
Definition SCRIPT_TYPE_TIME_LOCK : string := "TIMELOCK".

Record t := mk {
  script_type : string;
  addresses : list string;
  required_sig_num : Z;
  time_lock : option Z
}.

(** [s in self.addresses] for a signer that may be [None]. *)
Definition signer_in (s : option string) (addrs : list string) : bool :=
  match s with
  | Some a => Py.mem a addrs
  | None => false
  end.

Definition can_spend (self : t) (current_time : Z) (signers : list (option string))
    (end_time : option Z) : bool :=
  if Py.truthy_int end_time
     && (match end_time with Some e => current_time >=? e | None => false end)
  then false
  else if Py.truthy_int (time_lock self)
          && (match time_lock self with Some l => current_time <? l | None => false end)
  then false
  else
    let valid_signers := filter (fun s => signer_in s (addresses self)) signers in
    Z.of_nat (length valid_signers) >=? required_sig_num self.

(** [f"CHECKLOCKTIMEVERIFY:{time_lock}"]. *)
Definition cltv_part (l : Z) : string :=
  ("CHECKLOCKTIMEVERIFY:" ++ Py.str_of_Z l)%string.

(** [f"MULTISIG:{required_sig_num}:{len(addresses)}"]. *)
Definition multisig_part (r n : Z) : string :=
  ("MULTISIG:" ++ Py.str_of_Z r ++ ":" ++ Py.str_of_Z n)%string.

Definition to_string (self : t) : string :=
  let parts := [script_type self] in
  let parts :=
    match time_lock self with
    | Some l => if Py.truthy_int (Some l) then parts ++ [cltv_part l] else parts
    | None => parts
    end in
  let parts :=
    if required_sig_num self >? 1
    then parts ++ [multisig_part (required_sig_num self)
                     (Z.of_nat (length (addresses self)))]
    else parts in
  Py.join "|" (parts ++ addresses self).

(** One pass of the loop over [parts[1:]]; the state is
    [(time_lock, required_sig_num, addresses)]. *)
Definition parse_part (st : option Z * Z * list string) (part : string)
  : Py.exc (option Z * Z * list string) :=
  match st with
  | (tl, req, addrs) =>
      if Py.startswith "CHECKLOCKTIMEVERIFY:" part then
        match Py.int_of_str (nth 1 (Py.split ":" part) "") with
        | Some n => Py.Return (Some n, req, addrs)
        | None => Py.Raise Py.ValueError
        end
      else if Py.startswith "MULTISIG:" part then
        match Py.split ":" part with
        | [_; r; _] =>
            match Py.int_of_str r with
            | Some n => Py.Return (tl, n, addrs)
            | None => Py.Raise Py.ValueError
            end
        | _ => Py.Raise Py.ValueError
        end
      else Py.Return (tl, req, addrs ++ [part])
  end.

Fixpoint parse_parts (parts : list string) (st : option Z * Z * list string)
  : Py.exc (option Z * Z * list string) :=
  match parts with
  | [] => Py.Return st
  | part :: rest => st' <- parse_part st part ;; parse_parts rest st'
  end.

Definition from_string (script_str : string) : Py.exc t :=
  match Py.split "|" script_str with
  | [] => Py.Raise Py.ValueError
  | script_type :: rest =>
      st <- parse_parts rest (None, 1, []) ;;
      match st with
      | (tl, req, addrs) => Py.Return (mk script_type addrs req tl)
      end
  end.

(** The scripts the pipe-delimited form was made for: no [|] in the type or
    in an address, no address that reads as one of the two option parts, at
    least one required signature, and a time lock that is absent or not 0. *)
Definition no_pipe (s : string) : bool := Py.lacks "|" s.

Definition plain_address (a : string) : bool :=
  no_pipe a
  && negb (Py.startswith "CHECKLOCKTIMEVERIFY:" a)
  && negb (Py.startswith "MULTISIG:" a).

Definition encodable (self : t) : bool :=
  no_pipe (script_type self)
  && forallb plain_address (addresses self)
  && (1 <=? required_sig_num self)
  && negb (match time_lock self with Some l => l =? 0 | None => false end).

End TimeLockScript.

(* ================================================================== *)
(** ** transaction.py: the transaction model *)

Module TransactionInput.

Record t := mk {
  txid : string;
  vout : Z;
  signature : option string;
  public_key : option string;
  signatures : Py.dict string;
  required_signers : list string
}.

(** [TransactionInput(txid, vout, signature, public_key, required_signers)]. *)
Definition new (txid : string) (vout : Z) (signature public_key : option string)
    (required_signers : option (list string)) : t :=
  mk txid vout signature public_key
     (match signature, public_key with
      | Some (String _ _ as sg), Some (String _ _ as pk) => [(pk, sg)]
      | _, _ => []
      end)
     (match required_signers with
      | Some rs => rs
      | None =>
          match public_key with
          | Some (String _ _ as pk) => [pk]
          | _ => []
          end
      end).

Definition add_signature (self : t) (address signature' : string) : t :=
  mk (txid self) (vout self) (signature self) (public_key self)
     (Py.set_item address signature' (signatures self))
     (required_signers self).

Definition is_fully_signed (self : t) : bool :=
  forallb (fun signer => Py.contains signer (signatures self)) (required_signers self).

Definition get_unsigned_signers (self : t) : list string :=
  filter (fun signer => negb (Py.contains signer (signatures self)))
         (required_signers self).

Definition opt_str (o : option string) : jval :=
  match o with
  | Some s => JStr s
  | None => JNull
  end.

Definition to_dict (self : t) : jval :=
  JDict [("txid", JStr (txid self));
         ("vout", JInt (vout self));
         ("signature", opt_str (signature self));
         ("public_key", opt_str (public_key self));
         ("signatures", JDict (map (fun kv => (fst kv, JStr (snd kv))) (signatures self)));
         ("required_signers", JList (map JStr (required_signers self)))].

(** [from_dict(data)]: the constructor, then the signature table of the
    dict in place of the constructor's when the dict has one. *)
Definition from_dict (data : dict) : Read.parsed t :=
  txid' <~ Read.item "txid" data ;;
  vout' <~ Read.item "vout" data ;;
  txid' <~ Read.str txid' ;;
  vout' <~ Read.int vout' ;;
  signature' <~ Read.opt_str (get "signature" data) ;;
  public_key' <~ Read.opt_str (get "public_key" data) ;;
  required_signers' <~ Read.opt_str_list (get "required_signers" data) ;;
  let inp := new txid' vout' signature' public_key' required_signers' in
  if Py.contains "signatures" data then
    signatures' <~ Read.str_dict (get "signatures" data) ;;
    Read.Parsed
      (mk (txid inp) (vout inp) (signature inp) (public_key inp) signatures'
          (required_signers inp))
  else Read.Parsed inp.

End TransactionInput.

Module TransactionOutput.

Record t := mk {
  amount : Float.t;
  address : string;
  script_pubkey : string;
  utxo_type : string;
  payload : dict
}.

Definition to_dict (self : t) : jval :=
  JDict [("amount", JFloat (amount self));
         ("address", JStr (address self));
         ("script_pubkey", JStr (script_pubkey self));
         ("utxo_type", JStr (utxo_type self));
         ("payload", JDict (payload self))].

(** [from_dict(data)]; the constructor stores [payload or {}]. *)
Definition from_dict (data : dict) : Read.parsed t :=
  amount' <~ Read.item "amount" data ;;
  address' <~ Read.item "address" data ;;
  script_pubkey' <~ Read.item "script_pubkey" data ;;
  amount' <~ Read.float amount' ;;
  address' <~ Read.str address' ;;
  script_pubkey' <~ Read.str script_pubkey' ;;
  utxo_type' <~ Read.str (get_default "utxo_type" (JStr "fuel") data) ;;
  payload' <~ Read.dict_or_empty (get_default "payload" (JDict []) data) ;;
  Read.Parsed (mk amount' address' script_pubkey' utxo_type' payload').

End TransactionOutput.

Module Transaction.

Definition TYPE_FAUCET : string := "faucet".
Definition TYPE_COPYRIGHT_REG : string := "copyright_register".
Definition TYPE_AUTH_LOCK : string := "authorization_lock".
Definition TYPE_AUTH_ACTIVATE : string := "authorization_activate".
Definition TYPE_RENEWAL : string := "renewal".
Definition TYPE_REDEMPTION : string := "redemption".
Definition TYPE_SUB_LICENSE : string := "sub_license".

Record t := mk {
  inputs : list TransactionInput.t;
  outputs : list TransactionOutput.t;
  tx_type : string;
  metadata : dict;
  timestamp : Float.t;
  txid : string
}.

(** The string that [calculate_txid] hashes. *)
Definition tx_string (inputs : list TransactionInput.t)
    (outputs : list TransactionOutput.t) (tx_type : string) (metadata : dict)
    (timestamp : Float.t) : string :=
  dumps (JDict [("inputs", JList (map TransactionInput.to_dict inputs));
                ("outputs", JList (map TransactionOutput.to_dict outputs));
                ("tx_type", JStr tx_type);
                ("timestamp", JFloat timestamp);
                ("metadata", JDict metadata)]).

Definition calculate_txid (self : t) : string :=
  Sha256.hexdigest
    (tx_string (inputs self) (outputs self) (tx_type self) (metadata self)
       (timestamp self)).

(** [Transaction(inputs, outputs, tx_type, metadata)], built when
    [time.time()] reads [now]. *)
Definition new (inputs : list TransactionInput.t) (outputs : list TransactionOutput.t)
    (tx_type : string) (metadata : dict) (now : Float.t) : t :=
  mk inputs outputs tx_type metadata now
     (Sha256.hexdigest (tx_string inputs outputs tx_type metadata now)).

Definition to_dict (self : t) : jval :=
  JDict [("txid", JStr (txid self));
         ("inputs", JList (map TransactionInput.to_dict (inputs self)));
         ("outputs", JList (map TransactionOutput.to_dict (outputs self)));
         ("tx_type", JStr (tx_type self));
         ("timestamp", JFloat (timestamp self));
         ("metadata", JDict (metadata self))].

Definition needs_signers (inp : TransactionInput.t) : bool :=
  match TransactionInput.required_signers inp with
  | [] => false
  | _ => true
  end.

Definition is_fully_signed (self : t) : bool :=
  forallb TransactionInput.is_fully_signed (filter needs_signers (inputs self)).

(** [enumerate(xs)] from index [i]. *)
Fixpoint enumerate_from {A : Type} (i : Z) (xs : list A) : list (Z * A) :=
  match xs with
  | [] => []
  | x :: r => (i, x) :: enumerate_from (i + 1) r
  end.

Definition get_unsigned_signers (self : t) : list (Z * list string) :=
  flat_map
    (fun p =>
       match p with
       | (i, inp) =>
           if needs_signers inp then
             match TransactionInput.get_unsigned_signers inp with
             | [] => []
             | unsigned_addrs => [(i, unsigned_addrs)]
             end
           else []
       end)
    (enumerate_from 0 (inputs self)).

(** [xs[i]] with Python's indexing: a negative index counts from the end;
    [None] is [IndexError]. *)
Definition index {A : Type} (xs : list A) (i : Z) : option nat :=
  let n := Z.of_nat (length xs) in
  if (0 <=? i) && (i <? n) then Some (Z.to_nat i)
  else if (i <? 0) && (- n <=? i) then Some (Z.to_nat (n + i))
  else None.

Fixpoint update {A : Type} (xs : list A) (i : nat) (f : A -> A) : list A :=
  match xs, i with
  | [], _ => []
  | x :: r, O => f x :: r
  | x :: r, S k => x :: update r k f
  end.

(** [add_signature(input_index, signer_address, signature)].  The inputs of
    a transaction are distinct objects, so only the indexed one changes. *)
Definition add_signature (self : t) (input_index : Z) (signer_address signature : string)
  : Py.exc t :=
  if input_index <? Z.of_nat (length (inputs self)) then
    match index (inputs self) input_index with
    | None => Py.Raise Py.IndexError
    | Some i =>
        let inputs' :=
          update (inputs self) i
            (fun inp => TransactionInput.add_signature inp signer_address signature) in
        let self' :=
          mk inputs' (outputs self) (tx_type self) (metadata self) (timestamp self)
             (txid self) in
        Py.Return
          (mk inputs' (outputs self) (tx_type self) (metadata self) (timestamp self)
              (calculate_txid self'))
    end
  else Py.Return self.

(** [from_dict(data)]: the constructor on the parsed inputs and outputs,
    then [timestamp] and [txid] as the dict gives them; the txid is not
    computed again. *)
Definition from_dict (data : dict) : Read.parsed t :=
  inputs' <~ Read.item "inputs" data ;;
  inputs' <~ Read.dicts TransactionInput.from_dict inputs' ;;
  outputs' <~ Read.item "outputs" data ;;
  outputs' <~ Read.dicts TransactionOutput.from_dict outputs' ;;
  tx_type' <~ Read.str (get_default "tx_type" (JStr TYPE_FAUCET) data) ;;
  metadata' <~ Read.dict_or_empty (get_default "metadata" (JDict []) data) ;;
  timestamp' <~ Read.item "timestamp" data ;;
  txid' <~ Read.item "txid" data ;;
  timestamp' <~ Read.float timestamp' ;;
  txid' <~ Read.str txid' ;;
  Read.Parsed (mk inputs' outputs' tx_type' metadata' timestamp' txid').

End Transaction.

(* ================================================================== *)
(** ** cpc_miner.py: the block model *)

Module CPCBlock.

Record t := mk {
  index : Z;
  timestamp : Float.t;
  transactions : list Transaction.t;
  previous_hash : string;
  nonce : Z;
  hash : string
}.

(** The string that [calculate_hash] hashes. *)
Definition block_string (index : Z) (timestamp : Float.t)
    (transactions : list Transaction.t) (previous_hash : string) (nonce : Z) : string :=
  dumps (JDict [("index", JInt index);
                ("timestamp", JFloat timestamp);
                ("transactions", JList (map Transaction.to_dict transactions));
                ("previous_hash", JStr previous_hash);
                ("nonce", JInt nonce)]).

Definition calculate_hash (self : t) : string :=
  Sha256.hexdigest
    (block_string (index self) (timestamp self) (transactions self)
       (previous_hash self) (nonce self)).

(** [CPCBlock(index, timestamp, transactions, previous_hash, nonce)]. *)
Definition new (index : Z) (timestamp : Float.t) (transactions : list Transaction.t)
    (previous_hash : string) (nonce : Z) : t :=
  mk index timestamp transactions previous_hash nonce
     (Sha256.hexdigest (block_string index timestamp transactions previous_hash nonce)).

Definition to_dict (self : t) : jval :=
  JDict [("index", JInt (index self));
         ("timestamp", JFloat (timestamp self));
         ("transactions", JList (map Transaction.to_dict (transactions self)));
         ("previous_hash", JStr (previous_hash self));
         ("nonce", JInt (nonce self));
         ("hash", JStr (hash self))].

(** [from_dict(data)]: the hash is the one of the dict when it has one, and
    the computed one otherwise. *)
Definition from_dict (data : dict) : Read.parsed t :=
  transactions' <~ Read.item "transactions" data ;;
  transactions' <~ Read.dicts Transaction.from_dict transactions' ;;
  index' <~ Read.item "index" data ;;
  timestamp' <~ Read.item "timestamp" data ;;
  previous_hash' <~ Read.item "previous_hash" data ;;
  index' <~ Read.int index' ;;
  timestamp' <~ Read.float timestamp' ;;
  previous_hash' <~ Read.str previous_hash' ;;
  nonce' <~ Read.int (get_default "nonce" (JInt 0) data) ;;
  let block := new index' timestamp' transactions' previous_hash' nonce' in
  hash' <~ Read.str (get_default "hash" (JStr (calculate_hash block)) data) ;;
  Read.Parsed (mk index' timestamp' transactions' previous_hash' nonce' hash').

End CPCBlock.

(* ================================================================== *)
(** ** utxo.py: the state engine *)

Module BlockchainUTXOManager.

(** The UTXO map, keyed by ["txid:vout"]. *)
Definition utxo_map := Py.dict UTXO.t.

(** The body of [for inp in tx.inputs]. *)
Definition spend (utxos : utxo_map) (inp : TransactionInput.t) : Py.exc utxo_map :=
  let identifier :=
    UTXO.identifier (TransactionInput.txid inp) (TransactionInput.vout inp) in
  if Py.contains identifier utxos then Py.del_item identifier utxos
  else Py.Return utxos.

Fixpoint spend_all (inputs : list TransactionInput.t) (utxos : utxo_map)
  : Py.exc utxo_map :=
  match inputs with
  | [] => Py.Return utxos
  | inp :: rest => u <- spend utxos inp ;; spend_all rest u
  end.

(** The body of [for vout, output in enumerate(tx.outputs)]. *)
Definition create (tx_txid : string) (utxos : utxo_map) (p : Z * TransactionOutput.t)
  : utxo_map :=
  match p with
  | (vout, output) =>
      let utxo :=
        UTXO.mk tx_txid vout (TransactionOutput.amount output)
          (TransactionOutput.address output) (TransactionOutput.script_pubkey output)
          (TransactionOutput.utxo_type output) (TransactionOutput.payload output) in
      Py.set_item (UTXO.get_identifier utxo) utxo utxos
  end.

(** The UTXO that [create] builds for output [vout] of the transaction
    [tx_txid]. *)
Definition utxo_of_output (tx_txid : string) (vout : Z) (output : TransactionOutput.t)
  : UTXO.t :=
  UTXO.mk tx_txid vout (TransactionOutput.amount output)
    (TransactionOutput.address output) (TransactionOutput.script_pubkey output)
    (TransactionOutput.utxo_type output) (TransactionOutput.payload output).

Definition scan_tx (utxos : utxo_map) (tx : Transaction.t) : Py.exc utxo_map :=
  u <- spend_all (Transaction.inputs tx) utxos ;;
  Py.Return
    (fold_left (create (Transaction.txid tx))
       (Transaction.enumerate_from 0 (Transaction.outputs tx)) u).

Fixpoint scan_txs (txs : list Transaction.t) (utxos : utxo_map) : Py.exc utxo_map :=
  match txs with
  | [] => Py.Return utxos
  | tx :: rest => u <- scan_tx utxos tx ;; scan_txs rest u
  end.

(** [start_time and block.timestamp < start_time]. *)
Definition skipped (start_time : option Z) (block : CPCBlock.t) : bool :=
  match start_time with
  | Some st =>
      Py.truthy_int (Some st) && Float.ltb (CPCBlock.timestamp block) (Float.of_Z st)
  | None => false
  end.

Fixpoint scan_blocks (blocks : list CPCBlock.t) (start_time : option Z)
    (utxos : utxo_map) : Py.exc utxo_map :=
  match blocks with
  | [] => Py.Return utxos
  | block :: rest =>
      if skipped start_time block then scan_blocks rest start_time utxos
      else
        u <- scan_txs (CPCBlock.transactions block) utxos ;;
        scan_blocks rest start_time u
  end.

Definition scan_blockchain (blockchain : list CPCBlock.t) (start_time : option Z)
  : Py.exc utxo_map :=
  scan_blocks blockchain start_time [].

(** [u] was built from an output of a transaction in a block that the scan
    from [start_time] does not skip. *)
Definition output_of_chain (blocks : list CPCBlock.t) (start_time : option Z)
    (u : UTXO.t) : Prop :=
  exists block tx out,
    In block blocks
    /\ skipped start_time block = false
    /\ In tx (CPCBlock.transactions block)
    /\ 0 <= UTXO.vout u
    /\ nth_error (Transaction.outputs tx) (Z.to_nat (UTXO.vout u)) = Some out
    /\ u = utxo_of_output (Transaction.txid tx) (UTXO.vout u) out.

(** The start of the scan window: [int(time.time()) - scan_months * 30 * 24 * 3600]. *)
Definition window_start (now scan_months : Z) : Z :=
  now - scan_months * 30 * 24 * 3600.

Definition get_utxo (blockchain : list CPCBlock.t) (now : Z) (txid : string) (vout : Z)
    (scan_months : Z) : Py.exc (option UTXO.t) :=
  utxos <- scan_blockchain blockchain (Some (window_start now scan_months)) ;;
  Py.Return (Py.lookup (UTXO.identifier txid vout) utxos).

Definition get_utxos_by_address (blockchain : list CPCBlock.t) (now : Z)
    (address : string) (scan_months : Z) : Py.exc (list UTXO.t) :=
  utxos <- scan_blockchain blockchain (Some (window_start now scan_months)) ;;
  Py.Return (filter (fun utxo => String.eqb (UTXO.address utxo) address)
               (Py.values utxos)).

Definition get_balance (blockchain : list CPCBlock.t) (now : Z) (address : string)
    (scan_months : Z) : Py.exc Float.t :=
  utxos <- get_utxos_by_address blockchain now address scan_months ;;
  Py.Return (Float.sum (map UTXO.amount utxos)).

Definition get_copyright_utxos (blockchain : list CPCBlock.t) (now : Z)
    (address : string) (scan_months : Z) : Py.exc (list UTXO.t) :=
  utxos <- get_utxos_by_address blockchain now address scan_months ;;
  Py.Return (filter (fun utxo => String.eqb (UTXO.utxo_type utxo) "copyright") utxos).

Definition verify_copyright_proof (blockchain : list CPCBlock.t) (now : Z)
    (address : string) (work_hash : string) (scan_months : Z)
  : Py.exc (option UTXO.t) :=
  copyright_utxos <- get_copyright_utxos blockchain now address scan_months ;;
  Py.Return
    (find (fun utxo =>
             match UTXO.payload utxo with
             | [] => false
             | _ =>
                 get_is_str "copyright_type" (UTXO.payload utxo) "proof"
                 && get_is_str "work_hash" (UTXO.payload utxo) work_hash
             end)
          copyright_utxos).

(** The same three queries over a scan from genesis ([start_time=None]). *)
Definition get_utxo_full (blockchain : list CPCBlock.t) (txid : string) (vout : Z)
  : Py.exc (option UTXO.t) :=
  utxos <- scan_blockchain blockchain None ;;
  Py.Return (Py.lookup (UTXO.identifier txid vout) utxos).

Definition get_utxos_by_address_full (blockchain : list CPCBlock.t) (address : string)
  : Py.exc (list UTXO.t) :=
  utxos <- scan_blockchain blockchain None ;;
  Py.Return (filter (fun utxo => String.eqb (UTXO.address utxo) address)
               (Py.values utxos)).

Definition get_balance_full (blockchain : list CPCBlock.t) (address : string)
  : Py.exc Float.t :=
  utxos <- get_utxos_by_address_full blockchain address ;;
  Py.Return (Float.sum (map UTXO.amount utxos)).

End BlockchainUTXOManager.

(* ================================================================== *)
(** ** transaction.py: the validator *)

Module TransactionValidator.

(** The second component of the validator's result, one constructor for
    each message the source returns. *)
Inductive msg :=
| NotFullySigned (unsigned : list (Z * list string))
| FaucetHasInputs
| FaucetOverLimit
| FaucetOk
| RegisterNoInputs
| RegisterNoCopyrightOutput
| RegisterNoWorkHash
| RegisterNotSovereignty
| RegisterOk
| UtxoMissing (txid : string) (vout : Z)
| BadSignature (txid : string) (vout : Z)
| LockedOrExpired (txid : string) (vout : Z)
| OutputExceedsInput (output_amount input_amount : Float.t)
| CannotRemint (copyright_type : string)
| IllegalTransition (input_type output_type : string)
| RemintFailed (inner : msg)
| LockNoSovereigntyInput
| LockNoInstructionOutput
| LockOk
| ActivateExpired
| ActivateNoInstructionInput
| ActivateNoProofOutput
| ActivateWorkHashMismatch
| ActivateOk
| RenewalExpired
| RenewalNoProofInput
| RenewalNoProofOutput
| RenewalOk
| SubNoProofInput
| SubNoRebuiltProof
| SubNoSecondary
| SubRebuildFailed (inner : msg)
| SubSecondaryFailed (inner : msg)
| SubRightsNotSubset
| SubOk
| AddressChanged (tx_type copyright_type input_address output_address : string)
| NoMessage
| Success.

Definition result := (bool * msg)%type.

(** The legal transitions, other than re-minting. *)
Definition COPYRIGHT_STATE_MACHINE : Py.dict (list string) :=
  [("sovereignty", ["instruction"]);
   ("instruction", ["proof"]);
   ("proof", ["proof"; "secondary"]);
   ("secondary", [])].

Definition _validate_copyright_state_transition
    (input_copyright_type output_copyright_type : string) : result :=
  if String.eqb input_copyright_type output_copyright_type then
    if Py.mem input_copyright_type ["sovereignty"; "proof"] then (true, NoMessage)
    else (false, CannotRemint input_copyright_type)
  else
    let allowed_transitions :=
      match Py.lookup input_copyright_type COPYRIGHT_STATE_MACHINE with
      | Some l => l
      | None => []
      end in
    if negb (Py.mem output_copyright_type allowed_transitions) then
      (false, IllegalTransition input_copyright_type output_copyright_type)
    else (true, NoMessage).

(** The string held by a value that compared equal to a string literal. *)
Definition str_of (v : jval) : string :=
  match v with
  | JStr s => s
  | _ => EmptyString
  end.

(** [out.utxo_type == "copyright" and out.payload.get("copyright_type") == ty]. *)
Definition output_is (ty : string) (out : TransactionOutput.t) : bool :=
  String.eqb (TransactionOutput.utxo_type out) "copyright"
  && get_is_str "copyright_type" (TransactionOutput.payload out) ty.

(** [utxo.utxo_type == "copyright"] and
    [utxo.payload.get("copyright_type") == ty]. *)
Definition utxo_is (ty : string) (utxo : UTXO.t) : bool :=
  String.eqb (UTXO.utxo_type utxo) "copyright"
  && get_is_str "copyright_type" (UTXO.payload utxo) ty.

(** The first message of a loop that returns at the first check that fails. *)
Fixpoint first_failure {A : Type} (check : A -> result) (xs : list A) : option msg :=
  match xs with
  | [] => None
  | x :: rest =>
      match check x with
      | (true, _) => first_failure check rest
      | (false, m) => Some m
      end
  end.

(** A dict keyed by [work_hash] values. *)
Definition by_work_hash := list (jval * string).

Fixpoint wh_lookup (k : jval) (d : by_work_hash) : option string :=
  match d with
  | [] => None
  | (k', a) :: r => if py_eqb k k' then Some a else wh_lookup k r
  end.

Fixpoint wh_set (k : jval) (a : string) (d : by_work_hash) : by_work_hash :=
  match d with
  | [] => [(k, a)]
  | (k', a') :: r => if py_eqb k k' then (k', a) :: r else (k', a') :: wh_set k a r
  end.


(** The outcome of a loop body: go on with a value, or return. *)
Inductive step (A : Type) : Type :=
| Continue (a : A)
| Stop (r : result).
Arguments Continue {A} a.
Arguments Stop {A} r.

(** The transaction types that take the generic path of
    [validate_transaction]: neither [faucet] nor [copyright_register]. *)
Definition generic_type (ty : string) : bool :=
  negb (String.eqb ty Transaction.TYPE_FAUCET)
  && negb (String.eqb ty Transaction.TYPE_COPYRIGHT_REG).

(** The table of section 4.6 of the specification, step 5. *)
Inductive allowed_transition : string -> string -> Prop :=
| rebuild_sovereignty : allowed_transition "sovereignty" "sovereignty"
| lock_sovereignty : allowed_transition "sovereignty" "instruction"
| activate_instruction : allowed_transition "instruction" "proof"
| renew_proof : allowed_transition "proof" "proof"
| sub_license_proof : allowed_transition "proof" "secondary".

Section Validator.

(** ECDSA over secp256k1: [ecdsa_verify address signature message] is the
    outcome of [_verify_single_signature], [false] when decoding or
    verification raises. *)
Variable ecdsa_verify : string -> string -> string -> bool.

(** The chain the validator was built on, and the reading of
    [int(time.time())] during the validation. *)
Variable blockchain : list CPCBlock.t.
Variable now : Z.

(** [self.utxo_manager.get_utxo(inp.txid, inp.vout, scan_months=3)]. *)
Definition resolve (inp : TransactionInput.t) : Py.exc (option UTXO.t) :=
  BlockchainUTXOManager.get_utxo blockchain now
    (TransactionInput.txid inp) (TransactionInput.vout inp) 3.

Definition _public_key_to_address (public_key : option string) : option string :=
  public_key.

Definition _verify_single_signature (signer_address signature_str : string)
    (transaction : Transaction.t) : bool :=
  ecdsa_verify signer_address signature_str (Transaction.txid transaction).

(** The whole body runs under [try]: an exception yields [False]. *)
Definition _verify_signature (inp : TransactionInput.t) (transaction : Transaction.t)
  : bool :=
  match resolve inp with
  | Py.Raise _ => false
  | Py.Return None => false
  | Py.Return (Some utxo) =>
      match TransactionInput.signatures inp with
      | _ :: _ =>
          forallb (fun kv => _verify_single_signature (fst kv) (snd kv) transaction)
                  (TransactionInput.signatures inp)
          && TransactionInput.is_fully_signed inp
      | [] =>
          match TransactionInput.public_key inp, TransactionInput.signature inp with
          | Some (String _ _ as pk), Some (String _ _ as sg) =>
              match _public_key_to_address (Some pk) with
              | Some address =>
                  if negb (String.eqb address (UTXO.address utxo)) then false
                  else _verify_single_signature address sg transaction
              | None => false
              end
          | _, _ => false
          end
      end
  end.

(** The first input whose resolved UTXO satisfies [p], with that UTXO. *)
Fixpoint find_input (p : UTXO.t -> bool) (inputs : list TransactionInput.t)
  : Py.exc (option UTXO.t) :=
  match inputs with
  | [] => Py.Return None
  | inp :: rest =>
      r <- resolve inp ;;
      match r with
      | Some utxo => if p utxo then Py.Return (Some utxo) else find_input p rest
      | None => find_input p rest
      end
  end.

Definition _validate_faucet_transaction (transaction : Transaction.t) : result :=
  if negb (Nat.eqb (length (Transaction.inputs transaction)) 0) then
    (false, FaucetHasInputs)
  else
    let total_output :=
      Float.sum (map TransactionOutput.amount (Transaction.outputs transaction)) in
    if Float.gtb total_output (Float.of_Z 10) then (false, FaucetOverLimit)
    else (true, FaucetOk).

Definition register_output_check (out : TransactionOutput.t) : result :=
  if negb (Py.contains "work_hash" (TransactionOutput.payload out)) then
    (false, RegisterNoWorkHash)
  else if negb (Py.contains "copyright_type" (TransactionOutput.payload out))
          || negb (get_is_str "copyright_type" (TransactionOutput.payload out)
                     "sovereignty")
  then (false, RegisterNotSovereignty)
  else (true, NoMessage).

Definition _validate_copyright_register (transaction : Transaction.t) : result :=
  if Nat.eqb (length (Transaction.inputs transaction)) 0 then (false, RegisterNoInputs)
  else
    let copyright_outputs :=
      filter (fun out => String.eqb (TransactionOutput.utxo_type out) "copyright")
             (Transaction.outputs transaction) in
    if Nat.eqb (length copyright_outputs) 0 then (false, RegisterNoCopyrightOutput)
    else
      match first_failure register_output_check copyright_outputs with
      | Some m => (false, m)
      | None => (true, RegisterOk)
      end.

(** The state-machine check of one selected output against the type of the
    anchoring input. *)
Definition transition_check (input_type : string) (out : TransactionOutput.t) : result :=
  _validate_copyright_state_transition input_type
    (str_of (get "copyright_type" (TransactionOutput.payload out))).

Definition wrap (f : msg -> msg) (r : result) : result :=
  match r with
  | (ok, m) => (ok, f m)
  end.

Definition _validate_authorization_lock (transaction : Transaction.t)
  : Py.exc result :=
  found <- find_input (utxo_is "sovereignty") (Transaction.inputs transaction) ;;
  match found with
  | None => Py.Return (false, LockNoSovereigntyInput)
  | Some utxo =>
      let sovereignty_input := str_of (get "copyright_type" (UTXO.payload utxo)) in
      let instruction_outputs :=
        filter (output_is "instruction") (Transaction.outputs transaction) in
      if Nat.eqb (length instruction_outputs) 0 then
        Py.Return (false, LockNoInstructionOutput)
      else
        let sovereignty_outputs :=
          filter (output_is "sovereignty") (Transaction.outputs transaction) in
        match first_failure (transition_check sovereignty_input) instruction_outputs with
        | Some m => Py.Return (false, m)
        | None =>
            match first_failure
                    (fun out => wrap RemintFailed (transition_check sovereignty_input out))
                    sovereignty_outputs with
            | Some m => Py.Return (false, m)
            | None => Py.Return (true, LockOk)
            end
        end
  end.

Definition _validate_authorization_activate (transaction : Transaction.t)
  : Py.exc result :=
  found <- find_input (utxo_is "instruction") (Transaction.inputs transaction) ;;
  match found with
  | None => Py.Return (false, ActivateNoInstructionInput)
  | Some utxo =>
      let payload := UTXO.payload utxo in
      let instruction_input := str_of (get "copyright_type" payload) in
      let work_hash := get "work_hash" payload in
      instruction_payload <- CopyrightPayload.from_dict now payload ;;
      expired <- CopyrightPayload.is_expired instruction_payload now ;;
      if expired then Py.Return (false, ActivateExpired)
      else
        let proof_outputs :=
          filter (output_is "proof") (Transaction.outputs transaction) in
        if Nat.eqb (length proof_outputs) 0 then Py.Return (false, ActivateNoProofOutput)
        else
          match first_failure
                  (fun out =>
                     match transition_check instruction_input out with
                     | (false, m) => (false, m)
                     | (true, _) =>
                         if negb (py_eqb (get "work_hash" (TransactionOutput.payload out))
                                    work_hash)
                         then (false, ActivateWorkHashMismatch)
                         else (true, NoMessage)
                     end)
                  proof_outputs with
          | Some m => Py.Return (false, m)
          | None => Py.Return (true, ActivateOk)
          end
  end.

Definition _validate_renewal (transaction : Transaction.t) : Py.exc result :=
  found <- find_input (utxo_is "proof") (Transaction.inputs transaction) ;;
  match found with
  | None => Py.Return (false, RenewalNoProofInput)
  | Some utxo =>
      let payload := UTXO.payload utxo in
      let proof_input := str_of (get "copyright_type" payload) in
      copyright_payload <- CopyrightPayload.from_dict now payload ;;
      expired <- CopyrightPayload.is_expired copyright_payload now ;;
      if expired then Py.Return (false, RenewalExpired)
      else
        let new_proof_outputs :=
          filter (output_is "proof") (Transaction.outputs transaction) in
        if Nat.eqb (length new_proof_outputs) 0 then
          Py.Return (false, RenewalNoProofOutput)
        else
          match first_failure (transition_check proof_input) new_proof_outputs with
          | Some m => Py.Return (false, m)
          | None => Py.Return (true, RenewalOk)
          end
  end.

(** The rebuilt proof outputs of a sub-license: proof-typed, no [parent_utxo]. *)
Definition is_c1_output (out : TransactionOutput.t) : bool :=
  output_is "proof" out && negb (truthy (get "parent_utxo" (TransactionOutput.payload out))).

(** The secondary outputs of a sub-license.  The source tests them in the
    [elif] after the rebuilt-proof test, which a secondary output fails. *)
Definition is_c2_output (out : TransactionOutput.t) : bool :=
  negb (is_c1_output out) && output_is "secondary" out.

(** [set(payload.get("rights_scope", []))]. *)
Definition rights_of (payload : dict) : Py.exc (list jval) :=
  py_set (get_default "rights_scope" (JList []) payload).

(** The loop over the secondary outputs that compares the rights. *)
Fixpoint rights_check (c1_rights : list jval) (c2_outputs : list TransactionOutput.t)
  : Py.exc result :=
  match c2_outputs with
  | [] => Py.Return (true, SubOk)
  | c2_out :: rest =>
      c2_rights <- rights_of (TransactionOutput.payload c2_out) ;;
      if negb (issubset c2_rights c1_rights) then Py.Return (false, SubRightsNotSubset)
      else rights_check c1_rights rest
  end.

Definition _validate_sub_license (transaction : Transaction.t) : Py.exc result :=
  found <- find_input (utxo_is "proof") (Transaction.inputs transaction) ;;
  match found with
  | None => Py.Return (false, SubNoProofInput)
  | Some utxo =>
      let c1_proof_payload := UTXO.payload utxo in
      let c1_proof_input := str_of (get "copyright_type" c1_proof_payload) in
      let c1_outputs := filter is_c1_output (Transaction.outputs transaction) in
      let c2_outputs := filter is_c2_output (Transaction.outputs transaction) in
      if Nat.eqb (length c1_outputs) 0 then Py.Return (false, SubNoRebuiltProof)
      else if Nat.eqb (length c2_outputs) 0 then Py.Return (false, SubNoSecondary)
      else
        match first_failure
                (fun out => wrap SubRebuildFailed (transition_check c1_proof_input out))
                c1_outputs with
        | Some m => Py.Return (false, m)
        | None =>
            match first_failure
                    (fun out =>
                       wrap SubSecondaryFailed (transition_check c1_proof_input out))
                    c2_outputs with
            | Some m => Py.Return (false, m)
            | None =>
                c1_rights <- rights_of c1_proof_payload ;;
                rights_check c1_rights c2_outputs
            end
        end
  end.

(** The loop of [_validate_address_ownership] over the inputs: the address
    of each [ty]-typed copyright input, keyed by its [work_hash]. *)
Fixpoint collect (ty : string) (inputs : list TransactionInput.t) (table : by_work_hash)
  : Py.exc by_work_hash :=
  match inputs with
  | [] => Py.Return table
  | inp :: rest =>
      r <- resolve inp ;;
      match r with
      | Some utxo =>
          if utxo_is ty utxo then
            let work_hash := get "work_hash" (UTXO.payload utxo) in
            if hashable work_hash then
              collect ty rest (wh_set work_hash (UTXO.address utxo) table)
            else Py.Raise Py.TypeError
          else collect ty rest table
      | None => collect ty rest table
      end
  end.

(** The renewal variant fills two tables in one pass. *)
Fixpoint collect_renewal (inputs : list TransactionInput.t)
    (sovereignty_inputs proof_inputs : by_work_hash)
  : Py.exc (by_work_hash * by_work_hash) :=
  match inputs with
  | [] => Py.Return (sovereignty_inputs, proof_inputs)
  | inp :: rest =>
      r <- resolve inp ;;
      match r with
      | Some utxo =>
          if String.eqb (UTXO.utxo_type utxo) "copyright" then
            let work_hash := get "work_hash" (UTXO.payload utxo) in
            if get_is_str "copyright_type" (UTXO.payload utxo) "sovereignty" then
              if hashable work_hash then
                collect_renewal rest
                  (wh_set work_hash (UTXO.address utxo) sovereignty_inputs) proof_inputs
              else Py.Raise Py.TypeError
            else if get_is_str "copyright_type" (UTXO.payload utxo) "proof" then
              if hashable work_hash then
                collect_renewal rest sovereignty_inputs
                  (wh_set work_hash (UTXO.address utxo) proof_inputs)
              else Py.Raise Py.TypeError
            else collect_renewal rest sovereignty_inputs proof_inputs
          else collect_renewal rest sovereignty_inputs proof_inputs
      | None => collect_renewal rest sovereignty_inputs proof_inputs
      end
  end.

(** One output against one table: [None] when the loop goes on. *)
Definition address_check (tx_type ty : string) (table : by_work_hash)
    (out : TransactionOutput.t) : Py.exc (option msg) :=
  let work_hash := get "work_hash" (TransactionOutput.payload out) in
  if hashable work_hash then
    match wh_lookup work_hash table with
    | Some input_address =>
        if negb (String.eqb (TransactionOutput.address out) input_address) then
          Py.Return
            (Some (AddressChanged tx_type ty input_address (TransactionOutput.address out)))
        else Py.Return None
    | None => Py.Return None
    end
  else Py.Raise Py.TypeError.

(** The loop over the outputs: it returns at the first output whose address
    differs from the recorded one. *)
Fixpoint check_addresses (check : TransactionOutput.t -> Py.exc (option msg))
    (outputs : list TransactionOutput.t) : Py.exc result :=
  match outputs with
  | [] => Py.Return (true, NoMessage)
  | out :: rest =>
      r <- check out ;;
      match r with
      | Some m => Py.Return (false, m)
      | None => check_addresses check rest
      end
  end.

Definition _validate_address_ownership (tx_type : string)
    (inputs : list TransactionInput.t) (outputs : list TransactionOutput.t)
  : Py.exc result :=
  if String.eqb tx_type Transaction.TYPE_AUTH_LOCK then
    sovereignty_inputs <- collect "sovereignty" inputs [] ;;
    check_addresses
      (fun out =>
         if output_is "sovereignty" out
         then address_check tx_type "sovereignty" sovereignty_inputs out
         else Py.Return None)
      outputs
  else if String.eqb tx_type Transaction.TYPE_RENEWAL then
    tables <- collect_renewal inputs [] [] ;;
    check_addresses
      (fun out =>
         if output_is "sovereignty" out
         then address_check tx_type "sovereignty" (fst tables) out
         else if output_is "proof" out
         then address_check tx_type "proof" (snd tables) out
         else Py.Return None)
      outputs
  else if String.eqb tx_type Transaction.TYPE_SUB_LICENSE then
    proof_inputs <- collect "proof" inputs [] ;;
    check_addresses
      (fun out =>
         if is_c1_output out
         then address_check tx_type "proof" proof_inputs out
         else Py.Return None)
      outputs
  else if String.eqb tx_type Transaction.TYPE_AUTH_ACTIVATE then
    instruction_inputs <- collect "instruction" inputs [] ;;
    check_addresses
      (fun out =>
         if output_is "proof" out
         then address_check tx_type "proof" instruction_inputs out
         else Py.Return None)
      outputs
  else Py.Return (true, NoMessage).

(** [end_time] of a resolved input: set for a copyright UTXO whose payload is
    not empty. *)
Definition end_time_of (utxo : UTXO.t) : Py.exc (option Z) :=
  if String.eqb (UTXO.utxo_type utxo) "copyright"
     && (match UTXO.payload utxo with [] => false | _ => true end)
  then
    payload <- CopyrightPayload.from_dict now (UTXO.payload utxo) ;;
    end_time <- CopyrightPayload.get_end_time payload ;;
    Py.Return (Some end_time)
  else Py.Return None.

(** The body of [for inp in transaction.inputs]. *)
Definition check_input (transaction : Transaction.t) (input_amount : Float.t)
    (inp : TransactionInput.t) : Py.exc (step Float.t) :=
  let txid := TransactionInput.txid inp in
  let vout := TransactionInput.vout inp in
  r <- resolve inp ;;
  match r with
  | None => Py.Return (Stop (false, UtxoMissing txid vout))
  | Some utxo =>
      if negb (_verify_signature inp transaction) then
        Py.Return (Stop (false, BadSignature txid vout))
      else
        script <- TimeLockScript.from_string (UTXO.script_pubkey utxo) ;;
        let address := _public_key_to_address (TransactionInput.public_key inp) in
        end_time <- end_time_of utxo ;;
        if negb (TimeLockScript.can_spend script now [address] end_time) then
          Py.Return (Stop (false, LockedOrExpired txid vout))
        else Py.Return (Continue (Float.add input_amount (UTXO.amount utxo)))
  end.

Fixpoint check_inputs (transaction : Transaction.t) (inputs : list TransactionInput.t)
    (input_amount : Float.t) : Py.exc (step Float.t) :=
  match inputs with
  | [] => Py.Return (Continue input_amount)
  | inp :: rest =>
      s <- check_input transaction input_amount inp ;;
      match s with
      | Continue a => check_inputs transaction rest a
      | Stop r => Py.Return (Stop r)
      end
  end.

(** A type-specific check followed by the address-ownership check. *)
Definition typed_checks (check : Transaction.t -> Py.exc result)
    (transaction : Transaction.t) : Py.exc result :=
  r <- check transaction ;;
  match r with
  | (false, error_msg) => Py.Return (false, error_msg)
  | (true, _) =>
      r' <- _validate_address_ownership (Transaction.tx_type transaction)
              (Transaction.inputs transaction) (Transaction.outputs transaction) ;;
      match r' with
      | (false, error_msg) => Py.Return (false, error_msg)
      | (true, _) => Py.Return (true, Success)
      end
  end.

(** An input that went through the body of the loop without a return: it
    resolved to [utxo], its signatures verified, the script of [utxo] parsed
    and allowed the spend. *)
Definition input_passed (transaction : Transaction.t) (inp : TransactionInput.t)
    (utxo : UTXO.t) : Prop :=
  resolve inp = Py.Return (Some utxo)
  /\ _verify_signature inp transaction = true
  /\ exists script end_time,
       TimeLockScript.from_string (UTXO.script_pubkey utxo) = Py.Return script
       /\ end_time_of utxo = Py.Return end_time
       /\ TimeLockScript.can_spend script now
            [_public_key_to_address (TransactionInput.public_key inp)] end_time = true.

(** Step 5 of [validate_transaction]: the [if]/[elif] chain on the type. *)
Definition typed_part (transaction : Transaction.t) : Py.exc result :=
  let tx_type := Transaction.tx_type transaction in
  if String.eqb tx_type Transaction.TYPE_AUTH_LOCK then
    typed_checks _validate_authorization_lock transaction
  else if String.eqb tx_type Transaction.TYPE_AUTH_ACTIVATE then
    typed_checks _validate_authorization_activate transaction
  else if String.eqb tx_type Transaction.TYPE_RENEWAL then
    typed_checks _validate_renewal transaction
  else if String.eqb tx_type Transaction.TYPE_SUB_LICENSE then
    typed_checks _validate_sub_license transaction
  else Py.Return (true, Success).

Definition validate_transaction (transaction : Transaction.t) : Py.exc result :=
  let tx_type := Transaction.tx_type transaction in
  let unsigned_signers := Transaction.get_unsigned_signers transaction in
  if negb (Transaction.is_fully_signed transaction)
     && (match unsigned_signers with [] => false | _ => true end)
  then Py.Return (false, NotFullySigned unsigned_signers)
  else if String.eqb tx_type Transaction.TYPE_FAUCET then
    Py.Return (_validate_faucet_transaction transaction)
  else if String.eqb tx_type Transaction.TYPE_COPYRIGHT_REG then
    Py.Return (_validate_copyright_register transaction)
  else
    s <- check_inputs transaction (Transaction.inputs transaction) (Float.of_Z 0) ;;
    match s with
    | Stop r => Py.Return r
    | Continue input_amount =>
        let output_amount :=
          Float.sum (map TransactionOutput.amount (Transaction.outputs transaction)) in
        if Float.gtb output_amount input_amount then
          Py.Return (false, OutputExceedsInput output_amount input_amount)
        else typed_part transaction
    end.

End Validator.

(** The messages with which a failed [_validate_copyright_state_transition]
    leaves the validator. *)
Definition state_machine_failure (m : msg) : bool :=
  match m with
  | CannotRemint _ | IllegalTransition _ _ | RemintFailed _
  | SubRebuildFailed _ | SubSecondaryFailed _ => true
  | _ => false
  end.


End TransactionValidator.

(* ================================================================== *)
(** ** cpc_miner.py: proof of work and block assembly *)

Module Miner.

(** [MINER_ADDRESS] of [cpc_config.py]. *)
Definition MINER_ADDRESS : string := "your-miner-wallet-address-here".

Definition miner_script : string :=
  TimeLockScript.to_string
    (TimeLockScript.mk TimeLockScript.SCRIPT_TYPE_P2PKH [MINER_ADDRESS] 1 None).

(** [create_genesis_block()]; the two arguments are the readings of
    [time.time()] for the transaction and for the block. *)
Definition create_genesis_block (tx_time block_time : Float.t) : CPCBlock.t :=
  let faucet_output :=
    TransactionOutput.mk (Float.of_Z 100) MINER_ADDRESS miner_script "fuel" [] in
  let genesis_tx :=
    Transaction.new [] [faucet_output] Transaction.TYPE_FAUCET
      [("note", JStr "创世区块水龙头")] tx_time in
  CPCBlock.new 0 block_time [genesis_tx] "0" 0.

(** The transaction that the [/faucet] route queues for [address], built
    when [time.time()] reads [now]. *)
Definition faucet_transaction (address : string) (now : Float.t) : Transaction.t :=
  let faucet_output :=
    TransactionOutput.mk (Float.of_Z 5) address
      (TimeLockScript.to_string
         (TimeLockScript.mk TimeLockScript.SCRIPT_TYPE_P2PKH [address] 1 None))
      "fuel" [] in
  Transaction.new [] [faucet_output] Transaction.TYPE_FAUCET
    [("note", JStr "水龙头领取")] now.

(** The candidate block of the pass that tries [nonce]; [clock n] is the
    reading of [time.time()] in the pass for nonce [n]. *)
Definition candidate_block (clock : Z -> Float.t) (last_block : CPCBlock.t)
    (transactions : list Transaction.t) (nonce : Z) : CPCBlock.t :=
  CPCBlock.new (CPCBlock.index last_block + 1) (clock nonce) transactions
    (CPCBlock.hash last_block) nonce.

(** The [while True] loop of [proof_of_work], from [nonce] on; [None] when
    [fuel] passes found no nonce. *)
Fixpoint proof_of_work_from (fuel : nat) (clock : Z -> Float.t) (last_block : CPCBlock.t)
    (transactions : list Transaction.t) (target : string) (nonce : Z) : option Z :=
  match fuel with
  | O => None
  | S k =>
      if Py.startswith target
           (CPCBlock.hash (candidate_block clock last_block transactions nonce))
      then Some nonce
      else proof_of_work_from k clock last_block transactions target (nonce + 1)
  end.

Definition proof_of_work (fuel : nat) (clock : Z -> Float.t) (last_block : CPCBlock.t)
    (transactions : list Transaction.t) (difficulty : Z) : option Z :=
  proof_of_work_from fuel clock last_block transactions
    (Py.repeat_char "0" (Z.to_nat difficulty)) 0.

(** The readings of the clock during one call of [mine_block]. *)
Record clock := mk_clock {
  validation_time : Z;
  reward_time : Float.t;
  pow_time : Z -> Float.t;
  block_time : Float.t
}.

Section MineBlock.

Variable ecdsa_verify : string -> string -> string -> bool.

(** [input_amount] of the fee computation: unresolved inputs count for
    nothing. *)
Fixpoint fee_inputs (blockchain : list CPCBlock.t) (now : Z)
    (inputs : list TransactionInput.t) (input_amount : Float.t) : Py.exc Float.t :=
  match inputs with
  | [] => Py.Return input_amount
  | inp :: rest =>
      r <- TransactionValidator.resolve blockchain now inp ;;
      match r with
      | Some utxo => fee_inputs blockchain now rest (Float.add input_amount (UTXO.amount utxo))
      | None => fee_inputs blockchain now rest input_amount
      end
  end.

(** The loop over the pending transactions: the valid ones, in order, and
    the fees.  An exception drops out of the [try] for that transaction. *)
Fixpoint select (blockchain : list CPCBlock.t) (now : Z) (pending : list Transaction.t)
    (valid_transactions : list Transaction.t) (total_fees : Float.t)
  : list Transaction.t * Float.t :=
  match pending with
  | [] => (valid_transactions, total_fees)
  | tx :: rest =>
      match TransactionValidator.validate_transaction ecdsa_verify blockchain now tx with
      | Py.Return (true, _) =>
          let valid_transactions := valid_transactions ++ [tx] in
          match Transaction.inputs tx with
          | [] => select blockchain now rest valid_transactions total_fees
          | _ :: _ =>
              match fee_inputs blockchain now (Transaction.inputs tx) (Float.of_Z 0) with
              | Py.Return input_amount =>
                  let output_amount :=
                    Float.sum (map TransactionOutput.amount (Transaction.outputs tx)) in
                  let fee := Float.sub input_amount output_amount in
                  select blockchain now rest valid_transactions (Float.add total_fees fee)
              | Py.Raise _ => select blockchain now rest valid_transactions total_fees
              end
          end
      | _ => select blockchain now rest valid_transactions total_fees
      end
  end.

(** [is_valid] in the loop of [mine_block]; an exception counts as not
    valid, the [try] drops the transaction. *)
Definition is_valid (blockchain : list CPCBlock.t) (now : Z) (tx : Transaction.t) : bool :=
  match TransactionValidator.validate_transaction ecdsa_verify blockchain now tx with
  | Py.Return (ok, _) => ok
  | Py.Raise _ => false
  end.

Definition reward_transaction (total_fees : Float.t) (now : Float.t) : Transaction.t :=
  let block_reward := Float.of_Z 1 in
  let total_reward := Float.add block_reward total_fees in
  let mining_reward_output :=
    TransactionOutput.mk total_reward MINER_ADDRESS miner_script "fuel" [] in
  Transaction.new [] [mining_reward_output] Transaction.TYPE_FAUCET
    [("note", JStr "挖矿奖励");
     ("block_reward", JFloat block_reward);
     ("fees", JFloat total_fees);
     ("total", JFloat total_reward)]
    now.

(** [mine_block(blockchain, pending_transactions)]: the chain after the
    append and the block returned.  [None] when [proof_of_work] found no
    nonce within [fuel] passes; [IndexError] on an empty chain.  The pending
    transactions are given as parsed by [Transaction.from_dict]. *)
Definition mine_block (fuel : nat) (c : clock) (blockchain : list CPCBlock.t)
    (pending_transactions : list Transaction.t)
  : Py.exc (option (list CPCBlock.t * CPCBlock.t)) :=
  match select blockchain (validation_time c) pending_transactions [] (Float.of_Z 0) with
  | (valid_transactions, total_fees) =>
      let reward_tx := reward_transaction total_fees (reward_time c) in
      let valid_transactions := valid_transactions ++ [reward_tx] in
      match rev blockchain with
      | [] => Py.Raise Py.IndexError
      | last_block :: _ =>
          match proof_of_work fuel (pow_time c) last_block valid_transactions 4 with
          | None => Py.Return None
          | Some nonce =>
              let new_block :=
                CPCBlock.new (CPCBlock.index last_block + 1) (block_time c)
                  valid_transactions (CPCBlock.hash last_block) nonce in
              Py.Return (Some (blockchain ++ [new_block], new_block))
          end
      end
  end.

End MineBlock.

End Miner.

(* ================================================================== *)
(** ** A small chain and transactions over it *)

Module Examples.

(** The genesis block, its transaction stamped 1700000000.25 and the block
    1700000000.5. *)
Definition genesis : CPCBlock.t :=
  Miner.create_genesis_block (Float.mk 170000000025 2) (Float.mk 17000000005 1).

Definition genesis_txid : string :=
  "b4fccaa0311a93aba6338d18fcd3dfc541ae0cacfef4e631a46c98113c7a99ab".

Definition script_of (address : string) : string :=
  TimeLockScript.to_string
    (TimeLockScript.mk TimeLockScript.SCRIPT_TYPE_P2PKH [address] 1 None).

(** A copyright payload as [CopyrightPayload.to_dict] lays it out. *)
Definition payload_of (work_hash copyright_type : string) (rights : list string)
    (parent_utxo : jval) (created_at : Z) : dict :=
  [("work_hash", JStr work_hash);
   ("work_title", JStr "hello");
   ("author", JStr "alice");
   ("copyright_type", JStr copyright_type);
   ("rights_scope", JList (map JStr rights));
   ("parent_utxo", parent_utxo);
   ("metadata", JDict []);
   ("created_at", JFloat (Float.of_Z created_at))].

Definition copyright_output (amount : Float.t) (address : string) (payload : dict)
  : TransactionOutput.t :=
  TransactionOutput.mk amount address (script_of address) "copyright" payload.

Definition work : string :=
  "2cf24dba5fb0a30e26e83b2ac5b9e29e1b161e5c1fa7425e73043362938b9824".

(** A block that holds, for [alice]: a sovereignty coin, a proof coin with
    the rights [print] and [distribute], and a proof coin created more than
    ninety days before the block. *)
Definition ledger_tx : Transaction.t :=
  Transaction.new []
    [copyright_output (Float.of_Z 1) "alice"
       (payload_of work "sovereignty" ["print"; "distribute"] JNull 1700000000);
     copyright_output (Float.of_Z 1) "alice"
       (payload_of work "proof" ["print"; "distribute"] JNull 1700000000);
     copyright_output (Float.of_Z 1) "alice"
       (payload_of work "proof" ["print"; "distribute"] JNull 1600000000)]
    Transaction.TYPE_FAUCET [] (Float.mk 17000000505 1).

Definition ledger_block : CPCBlock.t :=
  CPCBlock.new 1 (Float.mk 170000000605 2) [ledger_tx] (CPCBlock.hash genesis) 0.

Definition chain : list CPCBlock.t := [genesis; ledger_block].

(** The reading of [int(time.time())] in the examples. *)
Definition now : Z := 1700000100.

(** An input signed by [signer] alone. *)
Definition signed_input (txid : string) (vout : Z) (signer : string)
  : TransactionInput.t :=
  TransactionInput.new txid vout (Some "sig") (Some signer) None.

(** An input that carries no signature and names no signer. *)
Definition bare_input (txid : string) (vout : Z) : TransactionInput.t :=
  TransactionInput.new txid vout None None None.

(** A registration that spends the miner's 100 coins without a signature
    and creates 1000. *)
Definition inflating_register : Transaction.t :=
  Transaction.new [bare_input genesis_txid 0]
    [copyright_output (Float.of_Z 1000) "mallory"
       (payload_of work "sovereignty" ["print"] JNull 1700000090)]
    Transaction.TYPE_COPYRIGHT_REG [] (Float.mk 17000000905 1).

(** A registration whose input is the expired proof coin. *)
Definition register_from_expired : Transaction.t :=
  Transaction.new [bare_input (Transaction.txid ledger_tx) 2]
    [copyright_output (Float.of_Z 1) "mallory"
       (payload_of work "sovereignty" ["print"] JNull 1700000090)]
    Transaction.TYPE_COPYRIGHT_REG [] (Float.mk 17000000905 1).

(** A renewal that spends the expired proof coin, signed by its owner. *)
Definition renewal_of_expired : Transaction.t :=
  Transaction.new [signed_input (Transaction.txid ledger_tx) 2 "alice"]
    [copyright_output (Float.of_Z 1) "alice"
       (payload_of work "proof" ["print"; "distribute"] JNull 1700000090)]
    Transaction.TYPE_RENEWAL [] (Float.mk 17000000905 1).

(** A registration whose sovereignty output has an empty [work_hash]. *)
Definition register_empty_hash : Transaction.t :=
  Transaction.new [bare_input genesis_txid 0]
    [copyright_output (Float.of_Z 1) "alice"
       [("work_hash", JStr ""); ("copyright_type", JStr "sovereignty")]]
    Transaction.TYPE_COPYRIGHT_REG [] (Float.mk 17000000905 1).

(** A well-formed registration. *)
Definition register_hello : Transaction.t :=
  Transaction.new [signed_input genesis_txid 0 Miner.MINER_ADDRESS]
    [copyright_output (Float.of_Z 1) "alice"
       (payload_of work "sovereignty" ["print"] JNull 1700000090)]
    Transaction.TYPE_COPYRIGHT_REG [] (Float.mk 17000000905 1).

(** An authorization lock that spends the sovereignty coin and creates an
    instruction for [bob] and, for the same work, a proof. *)
Definition lock_with_proof : Transaction.t :=
  Transaction.new [signed_input (Transaction.txid ledger_tx) 0 "alice"]
    [copyright_output (Float.mk 4 2) "bob"
       (payload_of work "instruction" ["print"] JNull 1700000090);
     copyright_output (Float.mk 5 1) "bob"
       (payload_of work "proof" ["print"] JNull 1700000090)]
    Transaction.TYPE_AUTH_LOCK [] (Float.mk 17000000905 1).

(** A sub-license of the proof coin: the proof rebuilt for [alice], and a
    secondary coin for [bob] with the right [print]. *)
Definition sub_license_print : Transaction.t :=
  Transaction.new [signed_input (Transaction.txid ledger_tx) 1 "alice"]
    [copyright_output (Float.mk 5 1) "alice"
       (payload_of work "proof" ["print"; "distribute"] JNull 1700000090);
     copyright_output (Float.mk 1 2) "bob"
       (payload_of work "secondary" ["print"]
          (JStr (UTXO.identifier (Transaction.txid ledger_tx) 1)) 1700000090)]
    Transaction.TYPE_SUB_LICENSE [] (Float.mk 17000000905 1).

(** A signature check that accepts everything. *)
Definition accept_all (address signature message : string) : bool := true.

(** A transaction that waits for the signature of [alice]. *)
Definition unsigned_lock : Transaction.t :=
  Transaction.new
    [TransactionInput.new (Transaction.txid ledger_tx) 0 None None (Some ["alice"])]
    [] Transaction.TYPE_AUTH_LOCK [] (Float.mk 17000000905 1).

(** The clock of the mining run: validation at [now], the reward stamped
    1700000100.5, the pass for nonce [n] at 1700000101.017796 plus [n]
    microseconds, the block built one microsecond after the first pass. *)
Definition mining_clock : Miner.clock :=
  Miner.mk_clock now (Float.mk 17000001005 1)
    (fun n => Float.mk (1700000101017796 + n) 6)
    (Float.mk 1700000101017797 6).

(** A script with an address that contains the separator. *)
Definition piped_script : TimeLockScript.t :=
  TimeLockScript.mk TimeLockScript.SCRIPT_TYPE_P2PKH ["a|b"] 1 None.

Definition two_of_two : TimeLockScript.t :=
  TimeLockScript.mk TimeLockScript.SCRIPT_TYPE_MULTISIG ["alice"; "bob"] 2
    (Some 1700000000).

(** The faucet transaction for [alice], and a faucet transaction over the
    limit. *)
Definition faucet_alice : Transaction.t :=
  Miner.faucet_transaction "alice" (Float.mk 17000000505 1).

Definition faucet_eleven : Transaction.t :=
  Transaction.new []
    [TransactionOutput.mk (Float.of_Z 11) "mallory" (script_of "mallory") "fuel" []]
    Transaction.TYPE_FAUCET [] (Float.mk 17000000605 1).

(** An authorization lock that spends the sovereignty coin, creates an
    instruction of 0.25 for [bob] and rebuilds the sovereignty coin, 0.5,
    for [alice]. *)
Definition lock_rebuilding : Transaction.t :=
  Transaction.new [signed_input (Transaction.txid ledger_tx) 0 "alice"]
    [copyright_output (Float.mk 25 2) "bob"
       (payload_of work "instruction" ["print"] JNull 1700000090);
     copyright_output (Float.mk 5 1) "alice"
       (payload_of work "sovereignty" ["print"; "distribute"] JNull 1700000090)]
    Transaction.TYPE_AUTH_LOCK [] (Float.mk 17000000905 1).

(** The pending transactions of a mining run on [chain]. *)
Definition pending : list Transaction.t := [faucet_alice; faucet_eleven; lock_rebuilding].

(** The clock of that run: validation at [now], the reward stamped
    1700000100.5, the pass for nonce [n] at 1700000101.027388 plus [n]
    microseconds, the block built one microsecond after the first pass. *)
Definition packing_clock : Miner.clock :=
  Miner.mk_clock now (Float.mk 17000001005 1)
    (fun n => Float.mk (1700000101027388 + n) 6)
    (Float.mk 1700000101027389 6).

(** The block of that run and the chain after it. *)
Definition packed_block : CPCBlock.t :=
  CPCBlock.new 2 (Float.mk 1700000101027389 6)
    [faucet_alice; lock_rebuilding;
     Miner.reward_transaction (Float.mk 250 3) (Float.mk 17000001005 1)]
    (CPCBlock.hash ledger_block) 0.

Definition packed_chain : list CPCBlock.t := chain ++ [packed_block].

(** A later reading of [int(time.time())]. *)
Definition later : Z := 1700000200.

(** The activation of the instruction of [bob]. *)
Definition activate_print : Transaction.t :=
  Transaction.new [signed_input (Transaction.txid lock_rebuilding) 0 "bob"]
    [copyright_output (Float.mk 25 2) "bob"
       (payload_of work "proof" ["print"] JNull 1700000150)]
    Transaction.TYPE_AUTH_ACTIVATE [] (Float.mk 17000001505 1).

(** A chain on which the registration with the two-field payload was
    mined, and a lock of the coin it created. *)
Definition sparse_chain : list CPCBlock.t :=
  chain ++ [CPCBlock.new 2 (Float.mk 17000000955 1) [register_empty_hash]
              (CPCBlock.hash ledger_block) 0].

Definition lock_of_sparse : Transaction.t :=
  Transaction.new [signed_input (Transaction.txid register_empty_hash) 0 "alice"]
    [] Transaction.TYPE_AUTH_LOCK [] (Float.mk 17000000975 1).

(** A payload as the constructor leaves it. *)
Definition proof_payload : CopyrightPayload.t :=
  CopyrightPayload.mk (JStr work) (JStr "hello") (JStr "alice") (JStr "proof")
    (JList [JStr "print"]) JNull (JDict []) (JFloat (Float.of_Z 1700000000)).

(** An input that waits for the signatures of [alice] and [bob]. *)
Definition two_signer_input : TransactionInput.t :=
  TransactionInput.new (Transaction.txid ledger_tx) 0 None None (Some ["alice"; "bob"]).

(** A block that spends the genesis coin, and a reading of
    [int(time.time())] at which the genesis block is older than the
    three-month window and that block is not. *)
Definition spending_block : CPCBlock.t :=
  CPCBlock.new 1 (Float.mk 17000000955 1) [register_hello] (CPCBlock.hash genesis) 0.

Definition window_edge : Z := 1707776050.

(** The hash of a second work. *)
Definition second_work : string :=
  "486ea46224d1bb4fb680f34f7c9ad96a8f24ec88be73ea8e5a6c65260e9cb8a7".

(** A block that holds two proof coins of [alice]: one for [work] with the
    rights [print] and [distribute], one for [second_work] with the right
    [print] alone. *)
Definition shelf_tx : Transaction.t :=
  Transaction.new []
    [copyright_output (Float.of_Z 1) "alice"
       (payload_of work "proof" ["print"; "distribute"] JNull 1700000000);
     copyright_output (Float.of_Z 1) "alice"
       (payload_of second_work "proof" ["print"] JNull 1700000000)]
    Transaction.TYPE_FAUCET [] (Float.mk 17000000505 1).

Definition shelf_chain : list CPCBlock.t :=
  [genesis; CPCBlock.new 1 (Float.mk 170000000605 2) [shelf_tx] (CPCBlock.hash genesis) 0].

(** A sub-license that spends both proof coins, rebuilds them, and creates
    for [bob] a secondary coin of [second_work] that names the second proof
    coin as its parent and carries the right [distribute]. *)
Definition sub_license_beyond : Transaction.t :=
  Transaction.new
    [signed_input (Transaction.txid shelf_tx) 0 "alice";
     signed_input (Transaction.txid shelf_tx) 1 "alice"]
    [copyright_output (Float.mk 5 1) "alice"
       (payload_of work "proof" ["print"; "distribute"] JNull 1700000090);
     copyright_output (Float.mk 5 1) "alice"
       (payload_of second_work "proof" ["print"] JNull 1700000090);
     copyright_output (Float.mk 25 2) "bob"
       (payload_of second_work "secondary" ["distribute"]
          (JStr (UTXO.identifier (Transaction.txid shelf_tx) 1)) 1700000090)]
    Transaction.TYPE_SUB_LICENSE [] (Float.mk 17000000905 1).

(** The block that holds the activation, after the block of the mining
    run. *)
Definition activation_block : CPCBlock.t :=
  CPCBlock.new 3 (Float.mk 17000001605 1) [activate_print] (CPCBlock.hash packed_block) 0.

End Examples.

(* ================================================================== *)
(** * Properties *)

(** *** Test vectors *)

(** SHA-256 of ["abc"] (FIPS 180-4, appendix B.1) and of the empty string. *)
Example sha256_abc :
  Sha256.hexdigest "abc"
  = "ba7816bf8f01cfea414140de5dae2223b00361a396177a9cb410ff61f20015ad".
Proof. vm_compute. reflexivity. Qed.

Example sha256_empty :
  Sha256.hexdigest ""
  = "e3b0c44298fc1c149afbf4c8996fb92427ae41e4649b934ca495991b7852b855".
Proof. vm_compute. reflexivity. Qed.

(** [json.dumps] with sorted keys, escapes and floats. *)
Example dumps_sorted :
  dumps (JDict [("b", JFloat (Float.mk 399 2));
                ("a", JList [JNull; JBool true; JInt (-3); JStr "挖矿"])])
  = String.concat (String quote_char "")
      ["{"; "a"; ": [null, true, -3, "; "\u6316\u77ff"; "], "; "b"; ": 3.99}"].
Proof. vm_compute. reflexivity. Qed.

(** [int()] on strings. *)
Example int_of_str_forms :
  map Py.int_of_str
    [" +1_000 "; "-42"; "007"; "1__0"; "_1"; "1_"; ""; "-"; "12a"; "+ 5"; "0x10"]
  = [Some 1000; Some (-42); Some 7; None; None; None; None; None; None; None; None].
Proof. vm_compute. reflexivity. Qed.

(** *** Floats *)

Lemma pow10_pos (n : nat) : 0 < Float.pow10 n.
Proof. unfold Float.pow10. apply Z.pow_pos_nonneg; lia. Qed.

(** [leb] is the order of the values. *)
Lemma float_leb_value (a b : Float.t) :
  Float.leb a b = true <-> (Float.to_Q a <= Float.to_Q b)%Q.
Proof.
  unfold Float.leb, Float.to_Q, Qle. cbn [Qnum Qden].
  rewrite !Z2Pos.id by apply pow10_pos. apply Z.leb_le.
Qed.

(** *** Dictionaries *)
Section DictFacts.
Context {V : Type}.

Lemma del_item_discard (k : string) (d : Py.dict V) :
  Py.contains k d = true -> Py.del_item k d = Py.Return (Py.discard k d).
Proof.
  unfold Py.contains.
  induction d as [|[k' v'] r IH]; simpl; [discriminate|].
  destruct (String.eqb k k'); [reflexivity|].
  intros H. rewrite (IH H). reflexivity.
Qed.

Lemma discard_absent (k : string) (d : Py.dict V) :
  Py.contains k d = false -> Py.discard k d = d.
Proof.
  unfold Py.contains.
  induction d as [|[k' v'] r IH]; simpl; [reflexivity|].
  destruct (String.eqb k k'); [discriminate|].
  intros H. rewrite (IH H). reflexivity.
Qed.

Lemma lookup_set_item_same (k : string) (v : V) (d : Py.dict V) :
  Py.lookup k (Py.set_item k v d) = Some v.
Proof.
  induction d as [|[k' v'] r IH]; simpl.
  - rewrite String.eqb_refl. reflexivity.
  - destruct (String.eqb k k') eqn:E; simpl; rewrite E; [reflexivity|exact IH].
Qed.
End DictFacts.

Import BlockchainUTXOManager.

Lemma spend_discard (utxos : utxo_map) (inp : TransactionInput.t) :
  spend utxos inp =
  Py.Return (Py.discard (UTXO.identifier (TransactionInput.txid inp) (TransactionInput.vout inp)) utxos).
Proof.
  unfold spend.
  destruct (Py.contains _ utxos) eqn:E.
  - apply del_item_discard, E.
  - rewrite (discard_absent _ _ E). reflexivity.
Qed.

Lemma spend_all_total (inputs : list TransactionInput.t) :
  forall utxos, exists u, spend_all inputs utxos = Py.Return u.
Proof.
  induction inputs as [|inp rest IH]; intros utxos; simpl.
  - eexists; reflexivity.
  - rewrite spend_discard. simpl. apply IH.
Qed.

Lemma scan_tx_total (utxos : utxo_map) (tx : Transaction.t) :
  exists u, scan_tx utxos tx = Py.Return u.
Proof.
  unfold scan_tx.
  destruct (spend_all_total (Transaction.inputs tx) utxos) as [u Hu].
  rewrite Hu. simpl. eexists; reflexivity.
Qed.

Lemma scan_txs_total (txs : list Transaction.t) :
  forall utxos, exists u, scan_txs txs utxos = Py.Return u.
Proof.
  induction txs as [|tx rest IH]; intros utxos; simpl.
  - eexists; reflexivity.
  - destruct (scan_tx_total utxos tx) as [u Hu]. rewrite Hu. simpl. apply IH.
Qed.

Lemma scan_blocks_total (blocks : list CPCBlock.t) (start_time : option Z) :
  forall utxos, exists u, scan_blocks blocks start_time utxos = Py.Return u.
Proof.
  induction blocks as [|b rest IH]; intros utxos; simpl.
  - eexists; reflexivity.
  - destruct (skipped start_time b); [apply IH|].
    destruct (scan_txs_total (CPCBlock.transactions b) utxos) as [u Hu].
    rewrite Hu. simpl. apply IH.
Qed.

(** Claim C10.  [scan_blockchain] is total on every chain.  Consuming an
    input never raises: behind its membership test, [del] acts as a removal
    that leaves the map alone when the key is absent.  Every output is
    inserted under its ["txid:vout"] key.  So the scan returns a map for
    every chain and every [start_time]. *)
Theorem scan_blockchain_total :
  (forall (utxos : utxo_map) (inp : TransactionInput.t),
      spend utxos inp =
      Py.Return (Py.discard (UTXO.identifier (TransactionInput.txid inp)
                               (TransactionInput.vout inp)) utxos))
  /\ (forall (tx_txid : string) (utxos : utxo_map) (vout : Z) (output : TransactionOutput.t),
        Py.lookup (UTXO.identifier tx_txid vout) (create tx_txid utxos (vout, output)) =
        Some (UTXO.mk tx_txid vout (TransactionOutput.amount output)
                (TransactionOutput.address output) (TransactionOutput.script_pubkey output)
                (TransactionOutput.utxo_type output) (TransactionOutput.payload output)))
  /\ (forall (blockchain : list CPCBlock.t) (start_time : option Z),
        exists utxos, scan_blockchain blockchain start_time = Py.Return utxos).
Proof.
  split; [exact spend_discard|split].
  - intros. unfold create, UTXO.get_identifier. simpl. apply lookup_set_item_same.
  - intros. apply scan_blocks_total.
Qed.


(** *** Strings and decimal numerals *)

Lemma string_all_cons (p : ascii -> bool) (c : ascii) (r : string) :
  Py.string_all p (String c r) = p c && Py.string_all p r.
Proof. reflexivity. Qed.

Lemma lacks_cons (sep c : ascii) (r : string) :
  Py.lacks sep (String c r) = negb (Ascii.eqb c sep) && Py.lacks sep r.
Proof. reflexivity. Qed.

Lemma lacks_cons_inv (sep c : ascii) (r : string) :
  Py.lacks sep (String c r) = true -> Ascii.eqb c sep = false /\ Py.lacks sep r = true.
Proof.
  rewrite lacks_cons. intros H. apply andb_prop in H as [Hc Hr].
  apply negb_true_iff in Hc. auto.
Qed.

Lemma split_lacks (sep : ascii) (a : string) :
  Py.lacks sep a = true -> Py.split sep a = [a].
Proof.
  induction a as [|c r IH]; [reflexivity|].
  intros H. apply lacks_cons_inv in H as [Hc Hr].
  simpl. rewrite Hc, (IH Hr). reflexivity.
Qed.

Lemma split_append (sep : ascii) (a rest : string) :
  Py.lacks sep a = true ->
  Py.split sep (a ++ String sep rest)%string = a :: Py.split sep rest.
Proof.
  induction a as [|c r IH].
  - intros _. simpl. rewrite Ascii.eqb_refl. reflexivity.
  - intros H. apply lacks_cons_inv in H as [Hc Hr].
    simpl. rewrite Hc, (IH Hr). reflexivity.
Qed.

Lemma split_join (sep : ascii) (p : string) (parts : list string) :
  forallb (Py.lacks sep) (p :: parts) = true ->
  Py.split sep (Py.join (String sep EmptyString) (p :: parts)) = p :: parts.
Proof.
  revert p. induction parts as [|q rest IH]; intros p H; simpl in H.
  - apply andb_prop in H as [Hp _]. apply split_lacks, Hp.
  - apply andb_prop in H as [Hp Hq].
    change (Py.join (String sep "") (p :: q :: rest))
      with (p ++ String sep (Py.join (String sep "") (q :: rest)))%string.
    rewrite (split_append _ _ _ Hp). f_equal. apply IH. exact Hq.
Qed.

Lemma prefix_append (p s : string) : String.prefix p (p ++ s)%string = true.
Proof.
  induction p as [|c r IH]; simpl.
  - destruct s; reflexivity.
  - destruct (ascii_dec c c) as [_|n]; [exact IH|contradiction].
Qed.




Lemma string_of_uint_digits (d : Decimal.uint) :
  Py.string_all Py.is_digit (NilEmpty.string_of_uint d) = true.
Proof. induction d; simpl; auto. Qed.

Lemma is_digit_not (c x : ascii) :
  Py.is_digit c = true -> Py.is_digit x = false -> Ascii.eqb c x = false.
Proof.
  intros Hc Hx. destruct (Ascii.eqb_spec c x) as [->|]; [congruence|reflexivity].
Qed.

Lemma is_digit_not_space (c : ascii) : Py.is_digit c = true -> Py.is_space c = false.
Proof.
  unfold Py.is_digit, Py.is_space. intros H.
  apply andb_prop in H as [H1 H2].
  apply Nat.leb_le in H1. apply Nat.leb_le in H2.
  destruct (Nat.leb_spec 9 (nat_of_ascii c)), (Nat.leb_spec (nat_of_ascii c) 13),
    (Nat.eqb_spec (nat_of_ascii c) 32);
    simpl; try reflexivity; lia.
Qed.

Lemma digits_lack (x : ascii) (s : string) :
  Py.is_digit x = false -> Py.string_all Py.is_digit s = true -> Py.lacks x s = true.
Proof.
  intros Hx. induction s as [|c r IH]; [reflexivity|].
  rewrite string_all_cons, lacks_cons.
  intros H. apply andb_prop in H as [Hc Hr].
  rewrite (is_digit_not _ _ Hc Hx), (IH Hr). reflexivity.
Qed.

Lemma lstrip_digits (s : string) : Py.string_all Py.is_digit s = true -> Py.lstrip s = s.
Proof.
  destruct s as [|c r]; simpl; [reflexivity|].
  intros H. apply andb_prop in H as [Hc _].
  rewrite (is_digit_not_space _ Hc). reflexivity.
Qed.

Lemma rstrip_digits (s : string) : Py.string_all Py.is_digit s = true -> Py.rstrip s = s.
Proof.
  induction s as [|c r IH]; simpl; [reflexivity|].
  intros H. apply andb_prop in H as [Hc Hr].
  rewrite (IH Hr), (is_digit_not_space _ Hc). destruct r; reflexivity.
Qed.

Lemma drop_underscores_digits (s : string) (b : bool) :
  Py.string_all Py.is_digit s = true -> Py.drop_underscores s b = Some s.
Proof.
  revert b. induction s as [|c r IH]; intros b; simpl; [reflexivity|].
  intros H. apply andb_prop in H as [Hc Hr].
  rewrite (is_digit_not c "_" Hc eq_refl), (IH _ Hr). reflexivity.
Qed.

Lemma parse_digits (d : Decimal.uint) (neg : bool) :
  d <> Decimal.Nil ->
  match Py.drop_underscores (NilEmpty.string_of_uint d) false with
  | None => None
  | Some ds =>
      match NilEmpty.uint_of_string ds with
      | None => None
      | Some Decimal.Nil => None
      | Some d => Some (if neg then - Z.of_uint d else Z.of_uint d)
      end
  end = Some (if neg then - Z.of_uint d else Z.of_uint d).
Proof.
  intros Hd.
  rewrite (drop_underscores_digits _ _ (string_of_uint_digits d)), NilEmpty.usu.
  destruct d; congruence.
Qed.

Lemma int_of_str_str_of_Z (z : Z) : Py.int_of_str (Py.str_of_Z z) = Some z.
Proof.
  destruct z as [|p|p]; [reflexivity| |].
  - unfold Py.str_of_Z, Py.int_of_str, Py.strip, NilZero.string_of_int, Z.to_int.
    pose proof (Unsigned.to_uint_nonnil p) as Hnn.
    pose proof (string_of_uint_digits (Pos.to_uint p)) as Hd.
    assert (Hs : NilZero.string_of_uint (Pos.to_uint p) = NilEmpty.string_of_uint (Pos.to_uint p)).
    { unfold NilZero.string_of_uint. destruct (Pos.to_uint p); congruence. }
    rewrite Hs, (lstrip_digits _ Hd), (rstrip_digits _ Hd).
    destruct (NilEmpty.string_of_uint (Pos.to_uint p)) as [|c r] eqn:E.
    + destruct (Pos.to_uint p); simpl in E; congruence.
    + simpl in Hd. apply andb_prop in Hd as [Hc Hr].
      rewrite (is_digit_not c "-" Hc eq_refl), (is_digit_not c "+" Hc eq_refl).
      rewrite <- E. rewrite (parse_digits _ false Hnn).
      unfold Z.of_uint. rewrite Unsigned.of_to. reflexivity.
  - unfold Py.str_of_Z, Py.int_of_str, Py.strip, NilZero.string_of_int, Z.to_int.
    pose proof (Unsigned.to_uint_nonnil p) as Hnn.
    pose proof (string_of_uint_digits (Pos.to_uint p)) as Hd.
    assert (Hs : NilZero.string_of_uint (Pos.to_uint p) = NilEmpty.string_of_uint (Pos.to_uint p)).
    { unfold NilZero.string_of_uint. destruct (Pos.to_uint p); congruence. }
    rewrite Hs.
    change (Py.lstrip (String "-" (NilEmpty.string_of_uint (Pos.to_uint p))))
      with (String "-" (NilEmpty.string_of_uint (Pos.to_uint p))).
    assert (Hr : Py.rstrip (String "-" (NilEmpty.string_of_uint (Pos.to_uint p)))
                 = String "-" (NilEmpty.string_of_uint (Pos.to_uint p))).
    { simpl. rewrite (rstrip_digits _ Hd). destruct (NilEmpty.string_of_uint (Pos.to_uint p)); reflexivity. }
    rewrite Hr. cbv iota beta. rewrite Ascii.eqb_refl.
    rewrite (parse_digits _ true Hnn).
    unfold Z.of_uint. rewrite Unsigned.of_to. reflexivity.
Qed.

Lemma str_of_Z_lacks (x : ascii) (z : Z) :
  Py.is_digit x = false -> Ascii.eqb "-" x = false -> Py.lacks x (Py.str_of_Z z) = true.
Proof.
  intros Hx Hm.
  assert (Hu : forall d, Py.lacks x (NilZero.string_of_uint d) = true).
  { intros d. unfold NilZero.string_of_uint.
    destruct d; try (apply digits_lack; [exact Hx|apply string_of_uint_digits]).
    rewrite lacks_cons, (is_digit_not "0" x eq_refl Hx). reflexivity. }
  unfold Py.str_of_Z, NilZero.string_of_int.
  destruct (Z.to_int z); [apply Hu|].
  rewrite lacks_cons, Hm. apply Hu.
Qed.

(** *** The lock script *)
Import TimeLockScript.

Lemma lacks_append (sep : ascii) (a b : string) :
  Py.lacks sep (a ++ b)%string = Py.lacks sep a && Py.lacks sep b.
Proof.
  induction a as [|c r IH]; [reflexivity|].
  change (String c r ++ b)%string with (String c (r ++ b)%string).
  rewrite !lacks_cons, IH, andb_assoc. reflexivity.
Qed.

Lemma cltv_part_no_pipe (l : Z) : no_pipe (cltv_part l) = true.
Proof.
  unfold no_pipe, cltv_part. rewrite lacks_append.
  rewrite (str_of_Z_lacks "|" l eq_refl eq_refl). reflexivity.
Qed.

Lemma multisig_part_no_pipe (r n : Z) : no_pipe (multisig_part r n) = true.
Proof.
  unfold no_pipe, multisig_part. rewrite !lacks_append.
  rewrite !(str_of_Z_lacks "|" _ eq_refl eq_refl). reflexivity.
Qed.

Lemma parse_cltv (tl : option Z) (req : Z) (addrs : list string) (l : Z) :
  parse_part (tl, req, addrs) (cltv_part l) = Py.Return (Some l, req, addrs).
Proof.
  unfold parse_part, Py.startswith, cltv_part.
  rewrite prefix_append.
  change ("CHECKLOCKTIMEVERIFY:" ++ Py.str_of_Z l)%string
    with ("CHECKLOCKTIMEVERIFY" ++ String ":" (Py.str_of_Z l))%string.
  rewrite (split_append ":" "CHECKLOCKTIMEVERIFY" _ eq_refl).
  rewrite (split_lacks ":" _ (str_of_Z_lacks ":" l eq_refl eq_refl)).
  cbn [nth]. rewrite int_of_str_str_of_Z. reflexivity.
Qed.

Lemma parse_multisig (tl : option Z) (req : Z) (addrs : list string) (r n : Z) :
  parse_part (tl, req, addrs) (multisig_part r n) = Py.Return (tl, r, addrs).
Proof.
  unfold parse_part, Py.startswith, multisig_part.
  change (String.prefix "CHECKLOCKTIMEVERIFY:"
            ("MULTISIG:" ++ Py.str_of_Z r ++ ":" ++ Py.str_of_Z n)%string) with false.
  rewrite prefix_append. cbv iota.
  change ("MULTISIG:" ++ Py.str_of_Z r ++ ":" ++ Py.str_of_Z n)%string
    with ("MULTISIG" ++ String ":" (Py.str_of_Z r ++ String ":" (Py.str_of_Z n)))%string.
  rewrite (split_append ":" "MULTISIG" _ eq_refl).
  rewrite (split_append ":" _ _ (str_of_Z_lacks ":" r eq_refl eq_refl)).
  rewrite (split_lacks ":" _ (str_of_Z_lacks ":" n eq_refl eq_refl)).
  rewrite int_of_str_str_of_Z. reflexivity.
Qed.

Lemma parse_plain (tl : option Z) (req : Z) (addrs : list string) (a : string) :
  plain_address a = true ->
  parse_part (tl, req, addrs) a = Py.Return (tl, req, addrs ++ [a]).
Proof.
  unfold plain_address, parse_part. intros H.
  apply andb_prop in H as [H Hm]. apply andb_prop in H as [_ Hc].
  apply negb_true_iff in Hm, Hc. rewrite Hc, Hm. reflexivity.
Qed.

Lemma parse_plain_all (tl : option Z) (req : Z) (l : list string) :
  forallb plain_address l = true ->
  forall acc, parse_parts l (tl, req, acc) = Py.Return (tl, req, acc ++ l).
Proof.
  induction l as [|a rest IH]; intros H acc.
  - simpl. rewrite app_nil_r. reflexivity.
  - simpl in H. apply andb_prop in H as [Ha Hrest].
    cbn [parse_parts]. rewrite (parse_plain _ _ _ _ Ha). cbn [Py.bind].
    rewrite (IH Hrest), <- app_assoc. reflexivity.
Qed.

Lemma plain_no_pipe (l : list string) :
  forallb plain_address l = true -> forallb (Py.lacks "|") l = true.
Proof.
  induction l as [|a rest IH]; [reflexivity|].
  simpl. intros H. apply andb_prop in H as [Ha Hrest].
  unfold plain_address in Ha. apply andb_prop in Ha as [Ha _]. apply andb_prop in Ha as [Ha _].
  unfold no_pipe in Ha. rewrite Ha, (IH Hrest). reflexivity.
Qed.

(** Claim C8, as amended.  For a script whose type and addresses contain no
    [|], none of whose addresses starts with [CHECKLOCKTIMEVERIFY:] or
    [MULTISIG:], with at least one required signature and a time lock that
    is absent or not 0, [from_string (to_string s)] returns [s]: the same
    type, addresses, number of required signatures and time lock. *)
Theorem script_round_trip (s : TimeLockScript.t) :
  encodable s = true -> from_string (to_string s) = Py.Return s.
Proof.
  destruct s as [ty addrs req tl]. unfold encodable. cbn [script_type addresses required_sig_num time_lock].
  intros H. apply andb_prop in H as [H Htl]. apply andb_prop in H as [H Hreq].
  apply andb_prop in H as [Hty Haddrs]. apply negb_true_iff in Htl.
  apply Z.leb_le in Hreq.
  pose proof (plain_no_pipe _ Haddrs) as Hnp.
  unfold from_string, to_string. cbn [script_type addresses required_sig_num time_lock].
  destruct tl as [l|].
  - unfold Py.truthy_int. rewrite Htl. cbn [negb].
    destruct (req >? 1) eqn:Egt.
    + cbn [app].
      rewrite (split_join "|"); cycle 1.
      { cbn [forallb]. fold (cltv_part l). fold (multisig_part req (Z.of_nat (length addrs))).
        unfold no_pipe in *. rewrite Hty, cltv_part_no_pipe, multisig_part_no_pipe, Hnp. reflexivity. }
      fold (cltv_part l). fold (multisig_part req (Z.of_nat (length addrs))).
      cbn [parse_parts]. rewrite parse_cltv. cbn [Py.bind]. rewrite parse_multisig. cbn [Py.bind].
      rewrite (parse_plain_all _ _ _ Haddrs). reflexivity.
    + cbn [app].
      rewrite (split_join "|"); cycle 1.
      { cbn [forallb]. fold (cltv_part l).
        unfold no_pipe in *. rewrite Hty, cltv_part_no_pipe, Hnp. reflexivity. }
      fold (cltv_part l).
      cbn [parse_parts]. rewrite parse_cltv. cbn [Py.bind].
      rewrite (parse_plain_all _ _ _ Haddrs). cbn [Py.bind app].
      assert (req = 1) by (rewrite Z.gtb_ltb in Egt; apply Z.ltb_ge in Egt; lia).
      subst. reflexivity.
  - destruct (req >? 1) eqn:Egt.
    + cbn [app].
      rewrite (split_join "|"); cycle 1.
      { cbn [forallb]. fold (multisig_part req (Z.of_nat (length addrs))).
        unfold no_pipe in *. rewrite Hty, multisig_part_no_pipe, Hnp. reflexivity. }
      fold (multisig_part req (Z.of_nat (length addrs))).
      cbn [parse_parts]. rewrite parse_multisig. cbn [Py.bind].
      rewrite (parse_plain_all _ _ _ Haddrs). reflexivity.
    + cbn [app].
      rewrite (split_join "|"); cycle 1.
      { cbn [forallb]. unfold no_pipe in *. rewrite Hty, Hnp. reflexivity. }
      rewrite (parse_plain_all _ _ _ Haddrs). cbn [Py.bind app].
      assert (req = 1) by (rewrite Z.gtb_ltb in Egt; apply Z.ltb_ge in Egt; lia).
      subst. reflexivity.
Qed.

Import TransactionValidator.

Section ValidatorFacts.

Variable ecdsa_verify : string -> string -> string -> bool.
Variable blockchain : list CPCBlock.t.
Variable now : Z.


Lemma bind_return {A B : Type} (m : Py.exc A) (k : A -> Py.exc B) (b : B) :
  Py.bind m k = Py.Return b -> exists a, m = Py.Return a /\ k a = Py.Return b.
Proof. destruct m as [a|e]; simpl; [eauto|discriminate]. Qed.

Lemma validate_generic (tx : Transaction.t) (r : result) :
  generic_type (Transaction.tx_type tx) = true ->
  validate_transaction ecdsa_verify blockchain now tx = Py.Return r -> fst r = true ->
  exists input_amount,
    check_inputs ecdsa_verify blockchain now tx (Transaction.inputs tx) (Float.of_Z 0)
    = Py.Return (Continue input_amount)
    /\ Float.gtb (Float.sum (map TransactionOutput.amount (Transaction.outputs tx)))
         input_amount = false.
Proof.
  intros Hg H Hok. unfold generic_type in Hg.
  apply andb_prop in Hg as [Hf Hr]. apply negb_true_iff in Hf, Hr.
  unfold validate_transaction in H.
  destruct (negb (Transaction.is_fully_signed tx) && _).
  { inversion H; subst; discriminate. }
  rewrite Hf, Hr in H.
  apply bind_return in H as [s [Hs H]].
  destruct s as [a|r'].
  - exists a. split; [exact Hs|].
    destruct (Float.gtb _ a); [|reflexivity].
    inversion H; subst; discriminate.
  - inversion H; subst.
    exfalso. clear H.
    revert Hs. generalize (Float.of_Z 0).
    induction (Transaction.inputs tx) as [|inp rest IH]; intros acc Hs; simpl in Hs.
    + discriminate.
    + apply bind_return in Hs as [s [Hs1 Hs2]].
      destruct s as [a|r''].
      * eapply IH; eauto.
      * inversion Hs2; subst. clear Hs2.
        unfold check_input in Hs1.
        apply bind_return in Hs1 as [u [_ Hs1]].
        destruct u as [u|]; [|inversion Hs1; subst; discriminate].
        destruct (negb (_verify_signature _ _ _ _ _)); [inversion Hs1; subst; discriminate|].
        apply bind_return in Hs1 as [sc [_ Hs1]].
        apply bind_return in Hs1 as [et [_ Hs1]].
        destruct (negb (TimeLockScript.can_spend _ _ _ _)); inversion Hs1; subst; discriminate.
Qed.

Lemma validate_typed_part (tx : Transaction.t) (r : result) :
  generic_type (Transaction.tx_type tx) = true ->
  validate_transaction ecdsa_verify blockchain now tx = Py.Return r -> fst r = true -> typed_part blockchain now tx = Py.Return r.
Proof.
  intros Hg H Hok.
  destruct (validate_generic tx r Hg H Hok) as [a [Hs Hv]].
  unfold generic_type in Hg.
  apply andb_prop in Hg as [Hf Hr]. apply negb_true_iff in Hf, Hr.
  unfold validate_transaction in H.
  destruct (negb (Transaction.is_fully_signed tx) && _).
  { inversion H; subst; discriminate. }
  rewrite Hf, Hr, Hs in H. cbn [Py.bind] in H. rewrite Hv in H. exact H.
Qed.

Lemma typed_checks_accept (check : Transaction.t -> Py.exc result) (tx : Transaction.t)
    (r : result) :
  typed_checks blockchain now check tx = Py.Return r -> fst r = true ->
  exists m1 m2,
    check tx = Py.Return (true, m1)
    /\ _validate_address_ownership blockchain now (Transaction.tx_type tx)
         (Transaction.inputs tx) (Transaction.outputs tx) = Py.Return (true, m2).
Proof.
  unfold typed_checks. intros H Hok.
  apply bind_return in H as [[ok1 m1] [H1 H]].
  destruct ok1; [|inversion H; subst; discriminate].
  apply bind_return in H as [[ok2 m2] [H2 H]].
  destruct ok2; [|inversion H; subst; discriminate].
  eauto.
Qed.

Lemma py_eqb_str (v : jval) (s : string) : py_eqb v (JStr s) = true -> v = JStr s.
Proof.
  destruct v as [|b|n|f|t|l|d]; simpl; try discriminate.
  intros H. apply String.eqb_eq in H. congruence.
Qed.

Lemma get_is_str_get (k : string) (d : dict) (s : string) :
  get_is_str k d s = true -> get k d = JStr s.
Proof. unfold get_is_str. apply py_eqb_str. Qed.

Lemma output_is_type (ty : string) (out : TransactionOutput.t) :
  output_is ty out = true ->
  str_of (get "copyright_type" (TransactionOutput.payload out)) = ty.
Proof.
  unfold output_is. intros H. apply andb_prop in H as [_ H].
  rewrite (get_is_str_get _ _ _ H). reflexivity.
Qed.

Lemma utxo_is_type (ty : string) (u : UTXO.t) :
  utxo_is ty u = true -> str_of (get "copyright_type" (UTXO.payload u)) = ty.
Proof.
  unfold utxo_is. intros H. apply andb_prop in H as [_ H].
  rewrite (get_is_str_get _ _ _ H). reflexivity.
Qed.

Lemma is_c2_output_secondary (out : TransactionOutput.t) :
  is_c2_output out = output_is "secondary" out.
Proof.
  unfold is_c2_output, is_c1_output.
  destruct (output_is "secondary" out) eqn:Es; [|apply andb_false_r].
  destruct (output_is "proof" out) eqn:Ep; [|reflexivity].
  apply output_is_type in Es. apply output_is_type in Ep. congruence.
Qed.

Lemma find_input_found (p : UTXO.t -> bool) (inputs : list TransactionInput.t) (u : UTXO.t) :
  find_input blockchain now p inputs = Py.Return (Some u) ->
  p u = true /\ exists inp, In inp inputs /\ resolve blockchain now inp = Py.Return (Some u).
Proof.
  induction inputs as [|inp rest IH]; simpl; [discriminate|].
  intros H. apply bind_return in H as [r [Hr H]].
  destruct r as [u'|].
  - destruct (p u') eqn:Ep.
    + inversion H; subst. split; [exact Ep|]. exists inp. auto.
    + destruct (IH H) as [Hp [i [Hi Hres]]]. split; [exact Hp|]. exists i. auto.
  - destruct (IH H) as [Hp [i [Hi Hres]]]. split; [exact Hp|]. exists i. auto.
Qed.

Lemma rights_check_accept (c1_rights : list jval) (outs : list TransactionOutput.t) (m : msg) :
  rights_check c1_rights outs = Py.Return (true, m) ->
  forall out, In out outs ->
    exists c2_rights,
      rights_of (TransactionOutput.payload out) = Py.Return c2_rights
      /\ issubset c2_rights c1_rights = true.
Proof.
  induction outs as [|o rest IH]; simpl; intros H out Hin; [contradiction|].
  apply bind_return in H as [c2 [Hc2 H]].
  destruct (issubset c2 c1_rights) eqn:Es; simpl in H; [|discriminate].
  destruct Hin as [->|Hin]; [eauto|apply IH; assumption].
Qed.

Lemma sub_license_accept (tx : Transaction.t) (m : msg) :
  _validate_sub_license blockchain now tx = Py.Return (true, m) ->
  exists parent c1_rights,
    find_input blockchain now (utxo_is "proof") (Transaction.inputs tx) = Py.Return (Some parent)
    /\ rights_of (UTXO.payload parent) = Py.Return c1_rights
    /\ rights_check c1_rights (filter is_c2_output (Transaction.outputs tx)) = Py.Return (true, m).
Proof.
  unfold _validate_sub_license. intros H.
  apply bind_return in H as [found [Hf H]].
  destruct found as [u|]; [|discriminate].
  destruct (Nat.eqb (length (filter is_c1_output _)) 0); [discriminate|].
  destruct (Nat.eqb (length (filter is_c2_output _)) 0); [discriminate|].
  destruct (first_failure _ (filter is_c1_output _)); [discriminate|].
  destruct (first_failure _ (filter is_c2_output _)); [discriminate|].
  apply bind_return in H as [c1 [Hc1 H]].
  exists u, c1. auto.
Qed.

(** What the rights check of [_validate_sub_license] compares.  In an
    accepted [sub_license] transaction the first proof-typed copyright input
    is found, and every right in [payload.get("rights_scope", [])] of every
    secondary-typed output is a right in [payload.get("rights_scope", [])]
    of that input.  The other proof inputs and the [parent_utxo] of the
    outputs play no part. *)
Theorem sub_license_rights_subset (tx : Transaction.t) (m : msg) :
  Transaction.tx_type tx = Transaction.TYPE_SUB_LICENSE ->
  validate_transaction ecdsa_verify blockchain now tx = Py.Return (true, m) ->
  exists parent c1_rights,
    find_input blockchain now (utxo_is "proof") (Transaction.inputs tx)
    = Py.Return (Some parent)
    /\ rights_of (UTXO.payload parent) = Py.Return c1_rights
    /\ forall out,
         In out (Transaction.outputs tx) -> output_is "secondary" out = true ->
         exists c2_rights,
           rights_of (TransactionOutput.payload out) = Py.Return c2_rights
           /\ forall right, In right c2_rights -> elem right c1_rights = true.
Proof.
  intros Hty H.
  assert (Hg : generic_type (Transaction.tx_type tx) = true) by (rewrite Hty; reflexivity).
  apply (validate_typed_part tx _ Hg) in H; [|reflexivity].
  unfold typed_part in H. rewrite Hty in H. cbn in H.
  apply typed_checks_accept in H as [m1 [m2 [H1 _]]]; [|reflexivity].
  apply sub_license_accept in H1 as [parent [c1 [Hf [Hc1 Hrc]]]].
  exists parent, c1. repeat split; try assumption.
  intros out Hin Hsec.
  destruct (rights_check_accept _ _ _ Hrc out) as [c2 [Hc2 Hsub]].
  { apply filter_In. split; [exact Hin|]. rewrite is_c2_output_secondary. exact Hsec. }
  exists c2. split; [exact Hc2|].
  intros right Hr. unfold issubset in Hsub.
  rewrite forallb_forall in Hsub. apply Hsub, Hr.
Qed.

End ValidatorFacts.

Section ValidatorShapes.

Variable ecdsa_verify : string -> string -> string -> bool.
Variable blockchain : list CPCBlock.t.
Variable now : Z.

Lemma first_failure_none {A : Type} (check : A -> result) (xs : list A) :
  first_failure check xs = None -> forall x, In x xs -> fst (check x) = true.
Proof.
  induction xs as [|y rest IH]; simpl; intros H x Hin; [contradiction|].
  destruct (check y) as [[|] m] eqn:E; [|discriminate].
  destruct Hin as [->|Hin]; [rewrite E; reflexivity|apply IH; assumption].
Qed.

(** Claim C4, as amended.  An accepted [copyright_register] transaction has
    an input and a copyright-kind output, and each of its copyright-kind
    outputs has a [work_hash] key and the copyright type [sovereignty]. *)
Theorem register_accepted_shape (tx : Transaction.t) (m : msg) :
  Transaction.tx_type tx = Transaction.TYPE_COPYRIGHT_REG ->
  validate_transaction ecdsa_verify blockchain now tx = Py.Return (true, m) ->
  Transaction.inputs tx <> []
  /\ (exists out,
         In out (Transaction.outputs tx) /\ TransactionOutput.utxo_type out = "copyright")
  /\ forall out,
       In out (Transaction.outputs tx) ->
       TransactionOutput.utxo_type out = "copyright" ->
       Py.contains "work_hash" (TransactionOutput.payload out) = true
       /\ get "copyright_type" (TransactionOutput.payload out) = JStr "sovereignty".
Proof.
  intros Hty H. unfold validate_transaction in H.
  destruct (negb (Transaction.is_fully_signed tx) && _); [discriminate|].
  rewrite Hty in H. cbn in H. unfold _validate_copyright_register in H.
  destruct (Transaction.inputs tx) as [|inp rest] eqn:Ei; [discriminate|].
  cbn in H.
  set (cs := filter (fun out => String.eqb (TransactionOutput.utxo_type out) "copyright")
               (Transaction.outputs tx)) in *.
  destruct cs as [|c cs'] eqn:Ec; [discriminate|]. cbn [length Nat.eqb] in H.
  destruct (first_failure register_output_check (c :: cs')) eqn:Ef; [discriminate|].
  split; [discriminate|split].
  - assert (Hin : In c cs) by (rewrite Ec; left; reflexivity).
    unfold cs in Hin. apply filter_In in Hin as [Hin Hc].
    exists c. split; [exact Hin|]. apply String.eqb_eq, Hc.
  - intros out Hin Hc.
    assert (Hin' : In out (c :: cs')).
    { rewrite <- Ec. unfold cs. apply filter_In. split; [exact Hin|].
      apply String.eqb_eq, Hc. }
    pose proof (first_failure_none _ _ Ef out Hin') as Hok.
    unfold register_output_check in Hok.
    destruct (Py.contains "work_hash" _); [|discriminate]. cbn in Hok.
    destruct (Py.contains "copyright_type" _); [|discriminate]. cbn in Hok.
    destruct (get_is_str "copyright_type" _ "sovereignty") eqn:Es; [|discriminate].
    split; [reflexivity|]. apply get_is_str_get, Es.
Qed.

End ValidatorShapes.

(** *** The state-machine checks *)

Section StateMachineChecks.

Variable ecdsa_verify : string -> string -> string -> bool.
Variable blockchain : list CPCBlock.t.
Variable now : Z.

Lemma first_failure_some {A : Type} (check : A -> result) (xs : list A) (m : msg) :
  first_failure check xs = Some m -> exists x, In x xs /\ check x = (false, m).
Proof.
  induction xs as [|x rest IH]; simpl; [discriminate|].
  destruct (check x) as [[|] m'] eqn:E.
  - intros H. destruct (IH H) as [y [Hy Hc]]. exists y. split; [right; exact Hy|exact Hc].
  - intros H. inversion H; subst m'. exists x. split; [left; reflexivity|exact E].
Qed.

Lemma transition_check_selected (anchor ty : string) (out : TransactionOutput.t) :
  output_is ty out = true ->
  _validate_copyright_state_transition anchor ty = (true, NoMessage) ->
  transition_check anchor out = (true, NoMessage).
Proof.
  intros Ho Ht. unfold transition_check. rewrite (output_is_type _ _ Ho). exact Ht.
Qed.

Lemma selected_never_fail (anchor ty : string) (f : msg -> msg)
    (p : TransactionOutput.t -> bool) (outs : list TransactionOutput.t) :
  (forall out, p out = true -> output_is ty out = true) ->
  _validate_copyright_state_transition anchor ty = (true, NoMessage) ->
  first_failure (fun out => wrap f (transition_check anchor out)) (filter p outs) = None.
Proof.
  intros Hp Ht.
  destruct (first_failure _ (filter p outs)) as [m|] eqn:E; [|reflexivity].
  apply first_failure_some in E as [out [Hin Hc]].
  apply filter_In in Hin as [_ Hin].
  rewrite (transition_check_selected anchor ty out (Hp out Hin) Ht) in Hc.
  discriminate.
Qed.

Lemma selected_never_fail_plain (anchor ty : string) (outs : list TransactionOutput.t) :
  _validate_copyright_state_transition anchor ty = (true, NoMessage) ->
  first_failure (transition_check anchor) (filter (output_is ty) outs) = None.
Proof.
  intros Ht.
  destruct (first_failure _ (filter (output_is ty) outs)) as [m|] eqn:E; [|reflexivity].
  apply first_failure_some in E as [out [Hin Hc]].
  apply filter_In in Hin as [_ Hin].
  rewrite (transition_check_selected anchor ty out Hin Ht) in Hc. discriminate.
Qed.

Lemma lock_no_state_failure (tx : Transaction.t) (r : result) :
  _validate_authorization_lock blockchain now tx = Py.Return r ->
  state_machine_failure (snd r) = false.
Proof.
  unfold _validate_authorization_lock. intros H.
  apply bind_return in H as [found [Hf H]].
  destruct found as [utxo|]; [|inversion H; reflexivity].
  apply find_input_found in Hf as [Hu _]. rewrite (utxo_is_type _ _ Hu) in H.
  destruct (Nat.eqb _ 0); [inversion H; reflexivity|].
  rewrite (selected_never_fail_plain "sovereignty" "instruction") in H by reflexivity.
  rewrite (selected_never_fail "sovereignty" "sovereignty" RemintFailed) in H;
    [inversion H; reflexivity|auto|reflexivity].
Qed.

Lemma activate_no_state_failure (tx : Transaction.t) (r : result) :
  _validate_authorization_activate blockchain now tx = Py.Return r ->
  state_machine_failure (snd r) = false.
Proof.
  unfold _validate_authorization_activate. intros H.
  apply bind_return in H as [found [Hf H]].
  destruct found as [utxo|]; [|inversion H; reflexivity].
  apply find_input_found in Hf as [Hu _]. rewrite (utxo_is_type _ _ Hu) in H.
  apply bind_return in H as [payload [_ H]].
  apply bind_return in H as [expired [_ H]].
  destruct expired; [inversion H; reflexivity|].
  destruct (Nat.eqb _ 0); [inversion H; reflexivity|].
  destruct (first_failure _ _) as [m|] eqn:E; [|inversion H; reflexivity].
  inversion H; subst r. clear H. cbn [snd].
  apply first_failure_some in E as [out [Hin Hc]].
  apply filter_In in Hin as [_ Hin].
  rewrite (transition_check_selected "instruction" "proof" out Hin eq_refl) in Hc.
  destruct (negb _); inversion Hc. reflexivity.
Qed.

Lemma renewal_no_state_failure (tx : Transaction.t) (r : result) :
  _validate_renewal blockchain now tx = Py.Return r ->
  state_machine_failure (snd r) = false.
Proof.
  unfold _validate_renewal. intros H.
  apply bind_return in H as [found [Hf H]].
  destruct found as [utxo|]; [|inversion H; reflexivity].
  apply find_input_found in Hf as [Hu _]. rewrite (utxo_is_type _ _ Hu) in H.
  apply bind_return in H as [payload [_ H]].
  apply bind_return in H as [expired [_ H]].
  destruct expired; [inversion H; reflexivity|].
  destruct (Nat.eqb _ 0); [inversion H; reflexivity|].
  rewrite (selected_never_fail_plain "proof" "proof") in H by reflexivity.
  inversion H; reflexivity.
Qed.

Lemma rights_check_no_state_failure (c1_rights : list jval)
    (outs : list TransactionOutput.t) (r : result) :
  rights_check c1_rights outs = Py.Return r -> state_machine_failure (snd r) = false.
Proof.
  induction outs as [|out rest IH]; simpl; intros H.
  - inversion H; reflexivity.
  - apply bind_return in H as [c2 [_ H]].
    destruct (negb _); [inversion H; reflexivity|apply IH, H].
Qed.

Lemma sub_license_no_state_failure (tx : Transaction.t) (r : result) :
  _validate_sub_license blockchain now tx = Py.Return r ->
  state_machine_failure (snd r) = false.
Proof.
  unfold _validate_sub_license. intros H.
  apply bind_return in H as [found [Hf H]].
  destruct found as [utxo|]; [|inversion H; reflexivity].
  apply find_input_found in Hf as [Hu _]. rewrite (utxo_is_type _ _ Hu) in H.
  destruct (Nat.eqb _ 0); [inversion H; reflexivity|].
  destruct (Nat.eqb _ 0); [inversion H; reflexivity|].
  rewrite (selected_never_fail "proof" "proof" SubRebuildFailed) in H;
    [|intros out Ho; unfold is_c1_output in Ho; apply andb_prop in Ho; tauto|reflexivity].
  rewrite (selected_never_fail "proof" "secondary" SubSecondaryFailed) in H;
    [|intros out Ho; rewrite is_c2_output_secondary in Ho; exact Ho|reflexivity].
  apply bind_return in H as [c1 [_ H]].
  apply rights_check_no_state_failure in H. exact H.
Qed.

Lemma check_addresses_no_state_failure
    (check : TransactionOutput.t -> Py.exc (option msg))
    (outs : list TransactionOutput.t) (r : result) :
  (forall out m, check out = Py.Return (Some m) -> state_machine_failure m = false) ->
  check_addresses check outs = Py.Return r -> state_machine_failure (snd r) = false.
Proof.
  intros Hc. induction outs as [|out rest IH]; simpl; intros H.
  - inversion H; reflexivity.
  - apply bind_return in H as [o [Ho H]].
    destruct o as [m|]; [|apply IH, H].
    inversion H; subst r. apply (Hc out m Ho).
Qed.

Lemma address_check_no_state_failure (tx_type ty : string) (table : by_work_hash)
    (out : TransactionOutput.t) (m : msg) :
  address_check tx_type ty table out = Py.Return (Some m) ->
  state_machine_failure m = false.
Proof.
  unfold address_check.
  destruct (hashable _); [|discriminate].
  destruct (wh_lookup _ table); [|discriminate].
  destruct (negb _); [|discriminate].
  intros H. inversion H; reflexivity.
Qed.

Lemma ownership_no_state_failure (tx_type : string) (inputs : list TransactionInput.t)
    (outs : list TransactionOutput.t) (r : result) :
  _validate_address_ownership blockchain now tx_type inputs outs = Py.Return r ->
  state_machine_failure (snd r) = false.
Proof.
  unfold _validate_address_ownership.
  assert (Hsel : forall (p : TransactionOutput.t -> bool) ty table out m,
             (if p out then address_check tx_type ty table out else Py.Return None)
             = Py.Return (Some m) -> state_machine_failure m = false).
  { intros p ty table out m. destruct (p out); [|discriminate].
    apply address_check_no_state_failure. }
  destruct (String.eqb tx_type Transaction.TYPE_AUTH_LOCK).
  { intros H. apply bind_return in H as [t [_ H]].
    revert H. apply check_addresses_no_state_failure. intros out m. apply Hsel. }
  destruct (String.eqb tx_type Transaction.TYPE_RENEWAL).
  { intros H. apply bind_return in H as [t [_ H]].
    revert H. apply check_addresses_no_state_failure. intros out m.
    destruct (output_is "sovereignty" out);
      [apply address_check_no_state_failure|apply Hsel]. }
  destruct (String.eqb tx_type Transaction.TYPE_SUB_LICENSE).
  { intros H. apply bind_return in H as [t [_ H]].
    revert H. apply check_addresses_no_state_failure. intros out m. apply Hsel. }
  destruct (String.eqb tx_type Transaction.TYPE_AUTH_ACTIVATE).
  { intros H. apply bind_return in H as [t [_ H]].
    revert H. apply check_addresses_no_state_failure. intros out m. apply Hsel. }
  intros H. inversion H; reflexivity.
Qed.

Lemma typed_checks_no_state_failure (check : Transaction.t -> Py.exc result)
    (tx : Transaction.t) (r : result) :
  (forall r', check tx = Py.Return r' -> state_machine_failure (snd r') = false) ->
  typed_checks blockchain now check tx = Py.Return r ->
  state_machine_failure (snd r) = false.
Proof.
  unfold typed_checks. intros Hc H.
  apply bind_return in H as [[[|] m1] [H1 H]].
  - apply bind_return in H as [[[|] m2] [H2 H]].
    + inversion H; reflexivity.
    + inversion H; subst r. apply (ownership_no_state_failure _ _ _ _ H2).
  - inversion H; subst r. apply (Hc _ H1).
Qed.

Lemma check_inputs_no_state_failure (tx : Transaction.t)
    (inputs : list TransactionInput.t) :
  forall amount r,
    check_inputs ecdsa_verify blockchain now tx inputs amount = Py.Return (Stop r) ->
    state_machine_failure (snd r) = false.
Proof.
  induction inputs as [|inp rest IH]; intros amount r; simpl; [discriminate|].
  intros H. apply bind_return in H as [s [Hs H]].
  destruct s as [a|r']; [apply (IH _ _ H)|].
  inversion H; subst r'. clear H.
  unfold check_input in Hs.
  apply bind_return in Hs as [u [_ Hs]].
  destruct u as [utxo|]; [|inversion Hs; reflexivity].
  destruct (negb (_verify_signature _ _ _ inp tx)); [inversion Hs; reflexivity|].
  apply bind_return in Hs as [script [_ Hs]].
  apply bind_return in Hs as [et [_ Hs]].
  destruct (negb _); inversion Hs; reflexivity.
Qed.

Lemma register_no_state_failure (tx : Transaction.t) :
  state_machine_failure (snd (_validate_copyright_register tx)) = false.
Proof.
  unfold _validate_copyright_register.
  destruct (Nat.eqb _ 0); [reflexivity|].
  destruct (Nat.eqb _ 0); [reflexivity|].
  destruct (first_failure _ _) as [m|] eqn:E; [|reflexivity].
  apply first_failure_some in E as [out [_ Hc]].
  unfold register_output_check in Hc.
  destruct (negb _); [inversion Hc; reflexivity|].
  destruct (_ || _); inversion Hc; reflexivity.
Qed.

(** The state machine never turns a transaction down.  Whatever
    [validate_transaction] returns, its message is none of those with which
    a failed [_validate_copyright_state_transition] leaves the validator:
    each type-specific check calls it only on outputs it has selected by
    their copyright type, and from the type of the anchoring input to those
    types the table always has a transition. *)
Theorem state_machine_never_rejects (tx : Transaction.t) (r : result) :
  validate_transaction ecdsa_verify blockchain now tx = Py.Return r ->
  state_machine_failure (snd r) = false.
Proof.
  unfold validate_transaction. intros H.
  destruct (negb (Transaction.is_fully_signed tx) && _); [inversion H; reflexivity|].
  destruct (String.eqb _ Transaction.TYPE_FAUCET).
  { inversion H. unfold _validate_faucet_transaction.
    destruct (negb _); [reflexivity|]. destruct (Float.gtb _ _); reflexivity. }
  destruct (String.eqb _ Transaction.TYPE_COPYRIGHT_REG).
  { inversion H. apply register_no_state_failure. }
  apply bind_return in H as [s [Hs H]].
  destruct s as [amount|r'].
  - destruct (Float.gtb _ amount); [inversion H; reflexivity|].
    unfold typed_part in H.
    destruct (String.eqb _ Transaction.TYPE_AUTH_LOCK).
    { revert H. apply typed_checks_no_state_failure. apply lock_no_state_failure. }
    destruct (String.eqb _ Transaction.TYPE_AUTH_ACTIVATE).
    { revert H. apply typed_checks_no_state_failure. apply activate_no_state_failure. }
    destruct (String.eqb _ Transaction.TYPE_RENEWAL).
    { revert H. apply typed_checks_no_state_failure. apply renewal_no_state_failure. }
    destruct (String.eqb _ Transaction.TYPE_SUB_LICENSE).
    { revert H. apply typed_checks_no_state_failure. apply sub_license_no_state_failure. }
    inversion H; reflexivity.
  - inversion H; subst r'. apply (check_inputs_no_state_failure _ _ _ _ Hs).
Qed.

End StateMachineChecks.

(** *** What holds on the generic path of the validator *)

Section GenericPath.

Variable ecdsa_verify : string -> string -> string -> bool.
Variable blockchain : list CPCBlock.t.
Variable now : Z.

Lemma Forall2_in_left {A B : Type} (P : A -> B -> Prop) (xs : list A) (ys : list B) (x : A) :
  Forall2 P xs ys -> In x xs -> exists y, In y ys /\ P x y.
Proof.
  induction 1 as [|x' y' xs' ys' Hp _ IH]; intros Hin; [contradiction|].
  destruct Hin as [->|Hin].
  - exists y'. split; [left; reflexivity|exact Hp].
  - destruct (IH Hin) as [y [Hy Hpy]]. exists y. split; [right; exact Hy|exact Hpy].
Qed.

Lemma check_input_continue (tx : Transaction.t) (acc a : Float.t)
    (inp : TransactionInput.t) :
  check_input ecdsa_verify blockchain now tx acc inp = Py.Return (Continue a) ->
  exists utxo, input_passed ecdsa_verify blockchain now tx inp utxo /\ a = Float.add acc (UTXO.amount utxo).
Proof.
  unfold check_input, input_passed, _public_key_to_address. intros H.
  apply bind_return in H as [[u|] [Hr H]]; [|discriminate].
  destruct (_verify_signature _ _ _ _ _) eqn:Ev; [|discriminate]. cbn [negb] in H.
  apply bind_return in H as [sc [Hsc H]].
  apply bind_return in H as [et [Het H]].
  destruct (can_spend sc now _ et) eqn:Ec; [|discriminate]. cbn [negb] in H.
  inversion H; subst. exists u. repeat split; auto. exists sc, et. auto.
Qed.

Lemma check_inputs_continue (tx : Transaction.t) (inputs : list TransactionInput.t) :
  forall acc a,
    check_inputs ecdsa_verify blockchain now tx inputs acc = Py.Return (Continue a) ->
    exists utxos,
      Forall2 (input_passed ecdsa_verify blockchain now tx) inputs utxos
      /\ a = fold_left Float.add (map UTXO.amount utxos) acc.
Proof.
  induction inputs as [|inp rest IH]; intros acc a H; cbn [check_inputs] in H.
  - inversion H; subst. exists []. split; [constructor|reflexivity].
  - apply bind_return in H as [[a'|r] [H1 H]]; [|discriminate].
    apply check_input_continue in H1 as [u [Hp ->]].
    apply IH in H as [us [Hus ->]].
    exists (u :: us). split; [constructor; assumption|reflexivity].
Qed.

(** Expiry where the validator checks it: a transaction that is neither
    [faucet] nor [copyright_register] and has an input resolving to a
    copyright UTXO whose end time is not 0 and has passed is not accepted. *)
Theorem expired_input_rejected (tx : Transaction.t) (inp : TransactionInput.t)
    (utxo : UTXO.t) (end_time : Z) :
  generic_type (Transaction.tx_type tx) = true ->
  In inp (Transaction.inputs tx) ->
  resolve blockchain now inp = Py.Return (Some utxo) ->
  end_time_of now utxo = Py.Return (Some end_time) ->
  end_time <> 0 ->
  end_time <= now ->
  ~ (exists m, validate_transaction ecdsa_verify blockchain now tx = Py.Return (true, m)).
Proof.
  intros Hg Hin Hr He Hnz Hle [m H].
  destruct (validate_generic ecdsa_verify blockchain now tx _ Hg H eq_refl) as [a [Hc _]].
  apply check_inputs_continue in Hc as [us [Hus _]].
  destruct (Forall2_in_left _ _ _ _ Hus Hin) as [u [_ [Hr' [_ [sc [et [_ [He' Hs]]]]]]]].
  rewrite Hr in Hr'. inversion Hr'; subst u.
  rewrite He in He'. inversion He'; subst et.
  unfold can_spend, Py.truthy_int in Hs.
  apply Z.eqb_neq in Hnz. rewrite Hnz in Hs. cbn [negb andb] in Hs.
  assert (Hge : (now >=? end_time) = true) by (apply Z.geb_le; lia).
  rewrite Hge in Hs. discriminate.
Qed.

End GenericPath.

(** The end time of a copyright UTXO is [int(created_at)] plus ninety days *)
Lemma end_time_of_created_at (now : Z) (utxo : UTXO.t) (payload : CopyrightPayload.t)
    (created : Z) :
  UTXO.utxo_type utxo = "copyright" ->
  UTXO.payload utxo <> [] ->
  CopyrightPayload.from_dict now (UTXO.payload utxo) = Py.Return payload ->
  py_int (CopyrightPayload.created_at payload) = Py.Return created ->
  end_time_of now utxo = Py.Return (Some (created + AUTHORIZATION_DURATION_SECONDS)).
Proof.
  intros Ht Hp Hf Hc. unfold end_time_of. rewrite Ht. cbn [String.eqb].
  replace (String.eqb "copyright" "copyright") with true by reflexivity.
  destruct (UTXO.payload utxo) as [|kv rest] eqn:E; [contradiction|].
  cbn [andb]. rewrite Hf. cbn [Py.bind].
  unfold CopyrightPayload.get_end_time. rewrite Hc. reflexivity.
Qed.

(** [can_spend] reads an end time of 0 as no end time: [if end_time and ...]
    is false at 0. *)
Theorem can_spend_ignores_zero_end_time (script : TimeLockScript.t) (current_time : Z)
    (signers : list (option string)) :
  can_spend script current_time signers (Some 0) = can_spend script current_time signers None.
Proof. reflexivity. Qed.

(** *** The transition table *)

(** [_validate_copyright_state_transition] accepts the transitions of the
    table of the specification and no other. *)
Theorem state_transition_table (input_type output_type : string) :
  fst (_validate_copyright_state_transition input_type output_type) = true
  <-> allowed_transition input_type output_type.
Proof.
  unfold _validate_copyright_state_transition. split.
  - destruct (String.eqb_spec input_type output_type) as [<-|Hne].
    + unfold Py.mem. cbn [existsb].
      destruct (String.eqb_spec input_type "sovereignty") as [->|_]; [constructor|].
      destruct (String.eqb_spec input_type "proof") as [->|_]; [constructor|].
      discriminate.
    + cbn [Py.lookup COPYRIGHT_STATE_MACHINE].
      destruct (String.eqb_spec input_type "sovereignty") as [->|_].
      { unfold Py.mem. cbn [existsb].
        destruct (String.eqb_spec output_type "instruction") as [->|_]; [constructor|discriminate]. }
      destruct (String.eqb_spec input_type "instruction") as [->|_].
      { unfold Py.mem. cbn [existsb].
        destruct (String.eqb_spec output_type "proof") as [->|_]; [constructor|discriminate]. }
      destruct (String.eqb_spec input_type "proof") as [->|_].
      { unfold Py.mem. cbn [existsb].
        destruct (String.eqb_spec output_type "proof") as [->|_]; [constructor|].
        destruct (String.eqb_spec output_type "secondary") as [->|_]; [constructor|discriminate]. }
      destruct (String.eqb_spec input_type "secondary") as [->|_]; discriminate.
  - intros H. destruct H; reflexivity.
Qed.

(** *** Proof of work *)

Lemma proof_of_work_from_first (clock : Z -> Float.t) (last_block : CPCBlock.t)
    (transactions : list Transaction.t) (target : string) (fuel : nat) :
  forall start nonce,
    Miner.proof_of_work_from fuel clock last_block transactions target start = Some nonce ->
    start <= nonce < start + Z.of_nat fuel
    /\ Py.startswith target
         (CPCBlock.hash (Miner.candidate_block clock last_block transactions nonce)) = true
    /\ forall k, start <= k < nonce ->
         Py.startswith target
           (CPCBlock.hash (Miner.candidate_block clock last_block transactions k)) = false.
Proof.
  induction fuel as [|fuel IH]; intros start nonce H; cbn [Miner.proof_of_work_from] in H;
    [discriminate|].
  destruct (Py.startswith target _) eqn:E.
  - inversion H; subst. repeat split; try lia. exact E.
  - apply IH in H as [Hr [Hh Hf]]. repeat split; try lia; [exact Hh|].
    intros k Hk. destruct (Z.eq_dec k start) as [->|Hne]; [exact E|apply Hf; lia].
Qed.

Lemma proof_of_work_from_finds (clock : Z -> Float.t) (last_block : CPCBlock.t)
    (transactions : list Transaction.t) (target : string) (fuel : nat) :
  forall start k,
    start <= k < start + Z.of_nat fuel ->
    Py.startswith target
      (CPCBlock.hash (Miner.candidate_block clock last_block transactions k)) = true ->
    exists nonce,
      Miner.proof_of_work_from fuel clock last_block transactions target start = Some nonce.
Proof.
  induction fuel as [|fuel IH]; intros start k Hk Hh; [lia|].
  cbn [Miner.proof_of_work_from].
  destruct (Py.startswith target
              (CPCBlock.hash (Miner.candidate_block clock last_block transactions start)))
    eqn:E; [eauto|].
  apply (IH (start + 1) k); [|exact Hh].
  destruct (Z.eq_dec k start) as [->|Hne]; [congruence|lia].
Qed.

(** The nonce that [proof_of_work] returns is the first, from 0, whose
    candidate block, stamped in its own pass, meets the difficulty. *)
Theorem proof_of_work_first_nonce (clock : Z -> Float.t) (last_block : CPCBlock.t)
    (transactions : list Transaction.t) (difficulty : Z) (fuel : nat) (nonce : Z) :
  Miner.proof_of_work fuel clock last_block transactions difficulty = Some nonce ->
  0 <= nonce
  /\ Py.startswith (Py.repeat_char "0" (Z.to_nat difficulty))
       (CPCBlock.hash (Miner.candidate_block clock last_block transactions nonce)) = true
  /\ forall k, 0 <= k < nonce ->
       Py.startswith (Py.repeat_char "0" (Z.to_nat difficulty))
         (CPCBlock.hash (Miner.candidate_block clock last_block transactions k)) = false.
Proof.
  unfold Miner.proof_of_work. intros H.
  apply proof_of_work_from_first in H as [Hr [Hh Hf]]. repeat split; auto; lia.
Qed.

(** [proof_of_work] returns once its passes reach a nonce whose candidate
    meets the difficulty. *)
Theorem proof_of_work_returns (clock : Z -> Float.t) (last_block : CPCBlock.t)
    (transactions : list Transaction.t) (difficulty : Z) (fuel : nat) (k : Z) :
  0 <= k < Z.of_nat fuel ->
  Py.startswith (Py.repeat_char "0" (Z.to_nat difficulty))
    (CPCBlock.hash (Miner.candidate_block clock last_block transactions k)) = true ->
  exists nonce,
    Miner.proof_of_work fuel clock last_block transactions difficulty = Some nonce.
Proof.
  intros Hk Hh. unfold Miner.proof_of_work.
  apply (proof_of_work_from_finds _ _ _ _ _ 0 k); [lia|exact Hh].
Qed.

(** *** The frame of [add_signature] *)

Lemma update_map_same {A B : Type} (g : A -> B) (f : A -> A) (xs : list A) :
  (forall x, g (f x) = g x) -> forall i, map g (Transaction.update xs i f) = map g xs.
Proof.
  intros Hg. induction xs as [|x r IH]; intros i; [destruct i; reflexivity|].
  destruct i as [|i]; cbn [Transaction.update map]; [rewrite Hg|rewrite IH]; reflexivity.
Qed.

Lemma update_nth_other {A : Type} (f : A -> A) (xs : list A) :
  forall i j, i <> j -> nth_error (Transaction.update xs i f) j = nth_error xs j.
Proof.
  induction xs as [|x r IH]; intros i j Hne; [destruct i; reflexivity|].
  destruct i as [|i], j as [|j]; cbn [Transaction.update nth_error]; try reflexivity.
  - contradiction.
  - apply IH. congruence.
Qed.

Lemma update_nth_same {A : Type} (f : A -> A) (xs : list A) :
  forall i, nth_error (Transaction.update xs i f) i = option_map f (nth_error xs i).
Proof.
  induction xs as [|x r IH]; intros i; [destruct i; reflexivity|].
  destruct i as [|i]; cbn [Transaction.update nth_error option_map]; [reflexivity|apply IH].
Qed.

(** The frame of [add_signature] at a valid index: outputs, type, metadata,
    timestamp, the required signers and every other input are untouched;
    the indexed input gets the signature; the txid is recomputed. *)
Theorem add_signature_frame (tx : Transaction.t) (input_index : Z)
    (signer_address signature : string) :
  0 <= input_index < Z.of_nat (length (Transaction.inputs tx)) ->
  exists signed,
    Transaction.add_signature tx input_index signer_address signature = Py.Return signed
    /\ Transaction.outputs signed = Transaction.outputs tx
    /\ Transaction.tx_type signed = Transaction.tx_type tx
    /\ Transaction.metadata signed = Transaction.metadata tx
    /\ Transaction.timestamp signed = Transaction.timestamp tx
    /\ map TransactionInput.required_signers (Transaction.inputs signed)
       = map TransactionInput.required_signers (Transaction.inputs tx)
    /\ (forall j, j <> Z.to_nat input_index ->
          nth_error (Transaction.inputs signed) j = nth_error (Transaction.inputs tx) j)
    /\ nth_error (Transaction.inputs signed) (Z.to_nat input_index)
       = option_map (fun inp => TransactionInput.add_signature inp signer_address signature)
           (nth_error (Transaction.inputs tx) (Z.to_nat input_index))
    /\ Transaction.txid signed = Transaction.calculate_txid signed.
Proof.
  intros [Hlo Hhi]. unfold Transaction.add_signature, Transaction.index.
  apply Z.ltb_lt in Hhi. apply Z.leb_le in Hlo. rewrite Hhi, Hlo. cbn [andb].
  eexists. split; [reflexivity|].
  cbn [Transaction.outputs Transaction.tx_type Transaction.metadata Transaction.timestamp
       Transaction.inputs Transaction.txid].
  repeat split.
  - apply update_map_same. reflexivity.
  - intros j Hj. apply update_nth_other. congruence.
  - apply update_nth_same.
Qed.

(** *** More on dictionaries *)

Section DictLaws.
Context {V : Type}.

Lemma lookup_set_item_other (k k' : string) (v : V) (d : Py.dict V) :
  k <> k' -> Py.lookup k (Py.set_item k' v d) = Py.lookup k d.
Proof.
  intros Hne. induction d as [|[k0 v0] r IH]; simpl.
  - destruct (String.eqb_spec k k'); [contradiction|reflexivity].
  - destruct (String.eqb_spec k' k0) as [->|Hk]; simpl.
    + destruct (String.eqb_spec k k0); [contradiction|reflexivity].
    + rewrite IH. reflexivity.
Qed.

Lemma contains_set_item (k k' : string) (v : V) (d : Py.dict V) :
  Py.contains k (Py.set_item k' v d) = String.eqb k k' || Py.contains k d.
Proof.
  unfold Py.contains.
  destruct (String.eqb_spec k k') as [->|Hne].
  - rewrite lookup_set_item_same. reflexivity.
  - rewrite lookup_set_item_other by exact Hne. reflexivity.
Qed.

Lemma lookup_discard_other (k k' : string) (d : Py.dict V) :
  k <> k' -> Py.lookup k (Py.discard k' d) = Py.lookup k d.
Proof.
  intros Hne. induction d as [|[k0 v0] r IH]; simpl; [reflexivity|].
  destruct (String.eqb_spec k' k0) as [->|Hk]; simpl.
  - destruct (String.eqb_spec k k0); [contradiction|reflexivity].
  - rewrite IH. reflexivity.
Qed.

Lemma lookup_none_keys (k : string) (d : Py.dict V) :
  Py.lookup k d = None <-> ~ In k (map fst d).
Proof.
  induction d as [|[k0 v0] r IH]; simpl.
  - split; [auto|reflexivity].
  - destruct (String.eqb_spec k k0) as [->|Hne].
    + split; [discriminate|]. intros H. exfalso. apply H. left. reflexivity.
    + rewrite IH. split.
      * intros H [E|Hin]; [congruence|contradiction].
      * intros H Hin. apply H. right. exact Hin.
Qed.

Lemma lookup_in (k : string) (v : V) (d : Py.dict V) :
  Py.lookup k d = Some v -> In (k, v) d.
Proof.
  induction d as [|[k0 v0] r IH]; simpl; [discriminate|].
  destruct (String.eqb_spec k k0) as [->|Hne].
  - intros E. inversion E. left. reflexivity.
  - intros E. right. apply IH, E.
Qed.

Lemma lookup_discard_same (k : string) (d : Py.dict V) :
  NoDup (map fst d) -> Py.lookup k (Py.discard k d) = None.
Proof.
  induction d as [|[k0 v0] r IH]; simpl; intros Hnd; [reflexivity|].
  inversion Hnd as [|? ? Hni Hnd']; subst.
  destruct (String.eqb_spec k k0) as [->|Hne].
  - apply lookup_none_keys. exact Hni.
  - simpl. destruct (String.eqb_spec k k0); [contradiction|]. apply IH, Hnd'.
Qed.

Lemma keys_discard (k : string) (d : Py.dict V) :
  forall x, In x (map fst (Py.discard k d)) -> In x (map fst d).
Proof.
  induction d as [|[k0 v0] r IH]; simpl; intros x Hin; [exact Hin|].
  destruct (String.eqb k k0); simpl in *; [right; exact Hin|].
  destruct Hin as [->|Hin]; [left; reflexivity|right; apply IH, Hin].
Qed.

Lemma NoDup_discard (k : string) (d : Py.dict V) :
  NoDup (map fst d) -> NoDup (map fst (Py.discard k d)).
Proof.
  induction d as [|[k0 v0] r IH]; simpl; intros Hnd; [constructor|].
  inversion Hnd as [|? ? Hni Hnd']; subst.
  destruct (String.eqb k k0); simpl; [exact Hnd'|].
  constructor; [|apply IH, Hnd'].
  intros Hin. apply Hni. eapply keys_discard, Hin.
Qed.

Lemma keys_set_item (k : string) (v : V) (d : Py.dict V) :
  forall x, In x (map fst (Py.set_item k v d)) <-> x = k \/ In x (map fst d).
Proof.
  induction d as [|[k0 v0] r IH]; simpl; intros x.
  - split; [intros [<-|[]]; auto|intros [->|[]]; auto].
  - destruct (String.eqb_spec k k0) as [->|Hne]; simpl.
    + split; [intros [H|H]; auto|intros [H|[H|H]]; auto].
    + rewrite IH. split; [intros [H|[H|H]]; auto|intros [H|[H|H]]; auto].
Qed.

Lemma NoDup_set_item (k : string) (v : V) (d : Py.dict V) :
  NoDup (map fst d) -> NoDup (map fst (Py.set_item k v d)).
Proof.
  induction d as [|[k0 v0] r IH]; simpl; intros Hnd.
  - constructor; [intros []|constructor].
  - inversion Hnd as [|? ? Hni Hnd']; subst.
    destruct (String.eqb_spec k k0) as [->|Hne]; simpl.
    + constructor; assumption.
    + constructor; [|apply IH, Hnd'].
      intros Hin. apply keys_set_item in Hin as [E|Hin]; [congruence|contradiction].
Qed.

Lemma in_set_item (k : string) (v : V) (d : Py.dict V) (k' : string) (v' : V) :
  In (k', v') (Py.set_item k v d) -> (k' = k /\ v' = v) \/ In (k', v') d.
Proof.
  induction d as [|[k0 v0] r IH]; simpl.
  - intros [E|[]]. inversion E; auto.
  - destruct (String.eqb_spec k k0) as [->|Hne]; simpl.
    + intros [E|Hin]; [inversion E; auto|auto].
    + intros [E|Hin]; [auto|]. destruct (IH Hin); auto.
Qed.

Lemma in_discard (k : string) (d : Py.dict V) (kv : string * V) :
  In kv (Py.discard k d) -> In kv d.
Proof.
  induction d as [|[k0 v0] r IH]; simpl; [auto|].
  destruct (String.eqb k k0); simpl; [auto|].
  intros [E|Hin]; [auto|right; apply IH, Hin].
Qed.

End DictLaws.

Lemma mem_in (x : string) (xs : list string) : Py.mem x xs = true <-> In x xs.
Proof.
  unfold Py.mem. rewrite existsb_exists. split.
  - intros [y [Hy E]]. apply String.eqb_eq in E. subst. exact Hy.
  - intros H. exists x. split; [exact H|apply String.eqb_refl].
Qed.

Lemma enumerate_from_in {A : Type} (xs : list A) :
  forall s i x,
    In (i, x) (Transaction.enumerate_from s xs)
    <-> s <= i /\ nth_error xs (Z.to_nat (i - s)) = Some x.
Proof.
  induction xs as [|y r IH]; intros s i x; simpl.
  - split; [intros []|]. intros [_ H]. destruct (Z.to_nat (i - s)); discriminate.
  - rewrite IH. split.
    + intros [E|[Hle Hn]].
      * inversion E; subst. split; [lia|]. replace (i - i) with 0 by lia. reflexivity.
      * split; [lia|].
        replace (Z.to_nat (i - s)) with (S (Z.to_nat (i - (s + 1)))) by lia. exact Hn.
    + intros [Hle Hn]. destruct (Z.eq_dec i s) as [->|Hne].
      * left. replace (s - s) with 0 in Hn by lia. simpl in Hn. congruence.
      * right. split; [lia|].
        replace (Z.to_nat (i - s)) with (S (Z.to_nat (i - (s + 1)))) in Hn by lia.
        exact Hn.
Qed.

Lemma enumerate_from_NoDup {A : Type} (xs : list A) :
  forall s, NoDup (map fst (Transaction.enumerate_from s xs)).
Proof.
  induction xs as [|x r IH]; intros s; simpl; constructor; [|apply IH].
  intros Hin. apply in_map_iff in Hin as [[i y] [Hi Hin]]. simpl in Hi. subst i.
  apply enumerate_from_in in Hin. lia.
Qed.

(** *** Signing *)

Lemma input_fully_signed_iff (inp : TransactionInput.t) :
  TransactionInput.is_fully_signed inp = true
  <-> TransactionInput.get_unsigned_signers inp = [].
Proof.
  unfold TransactionInput.is_fully_signed, TransactionInput.get_unsigned_signers.
  induction (TransactionInput.required_signers inp) as [|s r IH]; simpl.
  - split; reflexivity.
  - destruct (Py.contains s (TransactionInput.signatures inp)); simpl.
    + exact IH.
    + split; discriminate.
Qed.

Lemma unsigned_from (inputs : list TransactionInput.t) :
  forall i,
    forallb TransactionInput.is_fully_signed (filter Transaction.needs_signers inputs) = true
    <-> flat_map
          (fun p : Z * TransactionInput.t =>
             match p with
             | (i, inp) =>
                 if Transaction.needs_signers inp then
                   match TransactionInput.get_unsigned_signers inp with
                   | [] => []
                   | unsigned_addrs => [(i, unsigned_addrs)]
                   end
                 else []
             end)
          (Transaction.enumerate_from i inputs) = [].
Proof.
  induction inputs as [|inp rest IH]; intros i; simpl.
  - split; reflexivity.
  - destruct (Transaction.needs_signers inp); simpl.
    + destruct (TransactionInput.get_unsigned_signers inp) as [|a l] eqn:E.
      * apply input_fully_signed_iff in E. rewrite E. simpl. apply IH.
      * assert (Hf : TransactionInput.is_fully_signed inp = false).
        { destruct (TransactionInput.is_fully_signed inp) eqn:F; [|reflexivity].
          apply input_fully_signed_iff in F. congruence. }
        rewrite Hf. simpl. split; discriminate.
    + apply IH.
Qed.

(** [is_fully_signed] and [get_unsigned_signers] agree, on an input and on
    a transaction: an input is fully signed exactly when it has no unsigned
    signer, and a transaction is fully signed exactly when
    [get_unsigned_signers] reports no input. *)
Theorem fully_signed_iff_no_unsigned :
  (forall inp : TransactionInput.t,
     TransactionInput.is_fully_signed inp = true
     <-> TransactionInput.get_unsigned_signers inp = [])
  /\ (forall tx : Transaction.t,
        Transaction.is_fully_signed tx = true <-> Transaction.get_unsigned_signers tx = []).
Proof.
  split.
  - intros inp. apply input_fully_signed_iff.
  - intros tx. unfold Transaction.is_fully_signed, Transaction.get_unsigned_signers.
    apply unsigned_from.
Qed.

Lemma unsigned_entries (inputs : list TransactionInput.t) :
  forall s i addrs,
    In (i, addrs)
      (flat_map
         (fun p : Z * TransactionInput.t =>
            match p with
            | (i, inp) =>
                if Transaction.needs_signers inp then
                  match TransactionInput.get_unsigned_signers inp with
                  | [] => []
                  | unsigned_addrs => [(i, unsigned_addrs)]
                  end
                else []
            end)
         (Transaction.enumerate_from s inputs)) ->
    exists inp,
      s <= i
      /\ nth_error inputs (Z.to_nat (i - s)) = Some inp
      /\ addrs = TransactionInput.get_unsigned_signers inp
      /\ addrs <> [].
Proof.
  intros s i addrs H. apply in_flat_map in H as [[j inp] [Hin H]].
  apply enumerate_from_in in Hin as [Hle Hn].
  destruct (Transaction.needs_signers inp); [|contradiction].
  destruct (TransactionInput.get_unsigned_signers inp) as [|a l] eqn:E; [contradiction|].
  destruct H as [H|[]]. inversion H; subst j addrs.
  exists inp. rewrite E. repeat split; auto. discriminate.
Qed.

(** Step 0 of [validate_transaction]: a transaction that is not fully
    signed is rejected, whatever its type, the chain and the clock, with the
    list of [get_unsigned_signers]; the list is not empty, and each of its
    entries names an input by its index together with the required signers
    of that input that have no entry in its signature table. *)
Theorem unsigned_transaction_rejected (ecdsa_verify : string -> string -> string -> bool)
    (blockchain : list CPCBlock.t) (now : Z) (tx : Transaction.t) :
  Transaction.is_fully_signed tx = false ->
  validate_transaction ecdsa_verify blockchain now tx
  = Py.Return (false, NotFullySigned (Transaction.get_unsigned_signers tx))
  /\ Transaction.get_unsigned_signers tx <> []
  /\ forall i addrs,
       In (i, addrs) (Transaction.get_unsigned_signers tx) ->
       exists inp,
         0 <= i
         /\ nth_error (Transaction.inputs tx) (Z.to_nat i) = Some inp
         /\ addrs <> []
         /\ forall signer,
              In signer addrs
              <-> In signer (TransactionInput.required_signers inp)
                  /\ Py.lookup signer (TransactionInput.signatures inp) = None.
Proof.
  intros Hf.
  assert (Hne : Transaction.get_unsigned_signers tx <> []).
  { intros E. unfold Transaction.get_unsigned_signers in E.
    apply unsigned_from in E. unfold Transaction.is_fully_signed in Hf. congruence. }
  split; [|split; [exact Hne|]].
  - unfold validate_transaction. rewrite Hf. cbn [negb andb].
    destruct (Transaction.get_unsigned_signers tx); [contradiction|reflexivity].
  - intros i addrs Hin. unfold Transaction.get_unsigned_signers in Hin.
    apply unsigned_entries in Hin as [inp [Hle [Hn [Ha Hnn]]]].
    replace (i - 0) with i in Hn by lia.
    exists inp. split; [exact Hle|]. split; [exact Hn|]. split; [exact Hnn|].
    subst addrs. unfold TransactionInput.get_unsigned_signers.
    intros signer. rewrite filter_In. unfold Py.contains.
    destruct (Py.lookup signer (TransactionInput.signatures inp)); cbn [negb].
    + split; [intros [_ H]; discriminate|intros [_ H]; discriminate].
    + split; intros [H _]; auto.
Qed.

(** [TransactionInput.add_signature]: the signer is taken off the unsigned
    signers and nobody else is; the table then holds the signature for the
    signer, and the entries of the other signers are what they were. *)
Theorem add_signature_unsigned_signers (inp : TransactionInput.t)
    (address signature : string) :
  TransactionInput.get_unsigned_signers (TransactionInput.add_signature inp address signature)
  = filter (fun signer => negb (String.eqb signer address))
      (TransactionInput.get_unsigned_signers inp)
  /\ Py.lookup address
       (TransactionInput.signatures (TransactionInput.add_signature inp address signature))
     = Some signature
  /\ forall other,
       other <> address ->
       Py.lookup other
         (TransactionInput.signatures (TransactionInput.add_signature inp address signature))
       = Py.lookup other (TransactionInput.signatures inp).
Proof.
  split; [|split].
  - unfold TransactionInput.get_unsigned_signers, TransactionInput.add_signature.
    cbn [TransactionInput.signatures TransactionInput.required_signers].
    induction (TransactionInput.required_signers inp) as [|s r IH]; [reflexivity|].
    cbn [filter]. rewrite contains_set_item, IH.
    destruct (String.eqb s address) eqn:E; cbn [orb negb].
    + destruct (Py.contains s (TransactionInput.signatures inp)); cbn [negb filter];
        [reflexivity|]. rewrite E. reflexivity.
    + destruct (Py.contains s (TransactionInput.signatures inp)); cbn [negb filter];
        [reflexivity|]. rewrite E. reflexivity.
  - apply lookup_set_item_same.
  - intros other Hne. apply lookup_set_item_other, Hne.
Qed.

(** Once every required signer of an input has added a signature, in any
    order and whoever else signed, the input is fully signed. *)
Theorem signed_by_all_is_fully_signed (inp : TransactionInput.t)
    (signed : list (string * string)) :
  (forall signer, In signer (TransactionInput.required_signers inp) ->
                  In signer (map fst signed)) ->
  TransactionInput.is_fully_signed
    (fold_left (fun i p => TransactionInput.add_signature i (fst p) (snd p)) signed inp)
  = true.
Proof.
  intros Hall.
  assert (Hgen : forall l i,
             TransactionInput.required_signers
               (fold_left (fun i p => TransactionInput.add_signature i (fst p) (snd p)) l i)
             = TransactionInput.required_signers i
             /\ forall signer,
                  Py.contains signer
                    (TransactionInput.signatures
                       (fold_left (fun i p => TransactionInput.add_signature i (fst p) (snd p))
                          l i))
                  = existsb (String.eqb signer) (map fst l)
                    || Py.contains signer (TransactionInput.signatures i)).
  { induction l as [|[a s] l IH]; intros i; cbn [fold_left map existsb fst snd].
    - split; reflexivity.
    - destruct (IH (TransactionInput.add_signature i a s)) as [Hr Hc].
      split; [exact Hr|]. intros signer. rewrite Hc.
      unfold TransactionInput.add_signature at 1. cbn [TransactionInput.signatures].
      rewrite contains_set_item.
      destruct (String.eqb signer a), (existsb (String.eqb signer) (map fst l));
        reflexivity. }
  destruct (Hgen signed inp) as [Hr Hc].
  unfold TransactionInput.is_fully_signed. rewrite Hr.
  apply forallb_forall. intros signer Hs. rewrite Hc.
  apply orb_true_iff. left. apply existsb_exists. exists signer.
  split; [apply Hall, Hs|apply String.eqb_refl].
Qed.

(** [Transaction.add_signature] outside the indices of the inputs: at an
    index from the number of inputs on it changes nothing and reports
    nothing; at a negative index it signs the input counted from the end, as
    Python's indexing does, and recomputes the txid; below minus the number of
    inputs it raises [IndexError]. *)
Theorem add_signature_index_bounds (tx : Transaction.t) (input_index : Z)
    (signer_address signature : string) :
  (Z.of_nat (length (Transaction.inputs tx)) <= input_index ->
   Transaction.add_signature tx input_index signer_address signature = Py.Return tx)
  /\ (input_index < - Z.of_nat (length (Transaction.inputs tx)) ->
      Transaction.add_signature tx input_index signer_address signature
      = Py.Raise Py.IndexError)
  /\ (- Z.of_nat (length (Transaction.inputs tx)) <= input_index < 0 ->
      exists signed,
        Transaction.add_signature tx input_index signer_address signature = Py.Return signed
        /\ nth_error (Transaction.inputs signed)
             (Z.to_nat (Z.of_nat (length (Transaction.inputs tx)) + input_index))
           = option_map
               (fun inp => TransactionInput.add_signature inp signer_address signature)
               (nth_error (Transaction.inputs tx)
                  (Z.to_nat (Z.of_nat (length (Transaction.inputs tx)) + input_index)))
        /\ (forall j,
              j <> Z.to_nat (Z.of_nat (length (Transaction.inputs tx)) + input_index) ->
              nth_error (Transaction.inputs signed) j = nth_error (Transaction.inputs tx) j)
        /\ Transaction.txid signed = Transaction.calculate_txid signed).
Proof.
  unfold Transaction.add_signature, Transaction.index.
  set (n := Z.of_nat (length (Transaction.inputs tx))).
  split; [|split].
  - intros H. apply Z.ltb_ge in H. rewrite H. reflexivity.
  - intros H.
    assert (H1 : (input_index <? n) = true) by (apply Z.ltb_lt; lia).
    assert (H2 : (0 <=? input_index) = false) by (apply Z.leb_gt; lia).
    assert (H3 : (- n <=? input_index) = false) by (apply Z.leb_gt; lia).
    rewrite H1, H2, H3. cbn [andb]. rewrite andb_false_r. reflexivity.
  - intros [Hlo Hhi].
    assert (H1 : (input_index <? n) = true) by (apply Z.ltb_lt; lia).
    assert (H2 : (0 <=? input_index) = false) by (apply Z.leb_gt; lia).
    assert (H3 : (- n <=? input_index) = true) by (apply Z.leb_le; lia).
    assert (H4 : (input_index <? 0) = true) by (apply Z.ltb_lt; lia).
    rewrite H1, H2, H3, H4. cbn [andb].
    eexists. split; [reflexivity|].
    cbn [Transaction.inputs Transaction.txid]. split; [|split].
    + apply update_nth_same.
    + intros j Hj. apply update_nth_other. congruence.
    + reflexivity.
Qed.

(** *** Identifiers *)

Lemma append_colon_inj (t1 t2 s1 s2 : string) :
  Py.lacks ":" s1 = true -> Py.lacks ":" s2 = true ->
  (t1 ++ String ":" s1)%string = (t2 ++ String ":" s2)%string -> t1 = t2 /\ s1 = s2.
Proof.
  intros H1 H2. revert t2.
  induction t1 as [|c r IH]; intros t2 E; destruct t2 as [|c' r']; simpl in E.
  - inversion E. auto.
  - inversion E as [[Hc Hs]]. subst s1.
    exfalso. clear -H1.
    induction r' as [|x y IHy]; simpl in H1.
    + rewrite lacks_cons in H1. discriminate.
    + apply lacks_cons_inv in H1 as [_ H1]. auto.
  - inversion E as [[Hc Hs]]. subst s2.
    exfalso. clear -H2.
    induction r as [|x y IHy]; simpl in H2.
    + rewrite lacks_cons in H2. discriminate.
    + apply lacks_cons_inv in H2 as [_ H2]. auto.
  - inversion E as [[Hc Hs]]. destruct (IH _ Hs) as [-> ->]. auto.
Qed.

Lemma str_of_Z_inj (a b : Z) : Py.str_of_Z a = Py.str_of_Z b -> a = b.
Proof.
  intros E. pose proof (int_of_str_str_of_Z a) as Ha.
  rewrite E, int_of_str_str_of_Z in Ha. congruence.
Qed.

(** Two outpoints with the same ["txid:vout"] key are the same outpoint. *)
Lemma identifier_inj (t1 t2 : string) (v1 v2 : Z) :
  UTXO.identifier t1 v1 = UTXO.identifier t2 v2 -> t1 = t2 /\ v1 = v2.
Proof.
  unfold UTXO.identifier. intros E.
  apply append_colon_inj in E as [Ht Hv];
    try (apply str_of_Z_lacks; reflexivity).
  split; [exact Ht|apply str_of_Z_inj, Hv].
Qed.

(** *** The effect of a transaction on the UTXO map *)

Lemma spend_all_discards (inputs : list TransactionInput.t) :
  forall utxos,
    exists u,
      spend_all inputs utxos = Py.Return u
      /\ (NoDup (map fst utxos) -> NoDup (map fst u))
      /\ (forall kv, In kv u -> In kv utxos)
      /\ (forall k,
            (forall inp, In inp inputs ->
               k <> UTXO.identifier (TransactionInput.txid inp) (TransactionInput.vout inp)) ->
            Py.lookup k u = Py.lookup k utxos)
      /\ (NoDup (map fst utxos) ->
          forall inp, In inp inputs ->
            Py.lookup (UTXO.identifier (TransactionInput.txid inp) (TransactionInput.vout inp)) u
            = None).
Proof.
  induction inputs as [|inp rest IH]; intros utxos; cbn [spend_all].
  - exists utxos. repeat split; auto. intros _ inp [].
  - rewrite spend_discard. cbn [Py.bind].
    destruct (IH (Py.discard (UTXO.identifier (TransactionInput.txid inp)
                                (TransactionInput.vout inp)) utxos))
      as [u [Hu [Hnd [Hin [Hother Hgone]]]]].
    exists u. split; [exact Hu|]. split; [|split; [|split]].
    + intros H. apply Hnd, NoDup_discard, H.
    + intros kv H. eapply in_discard, Hin, H.
    + intros k Hk. rewrite Hother.
      * apply lookup_discard_other. apply Hk. left. reflexivity.
      * intros i Hi. apply Hk. right. exact Hi.
    + intros Hn i [<-|Hi].
      * destruct (Py.lookup (UTXO.identifier (TransactionInput.txid inp)
                               (TransactionInput.vout inp)) u) as [v|] eqn:E; [|reflexivity].
        exfalso.
        assert (Hk : Py.lookup (UTXO.identifier (TransactionInput.txid inp)
                                  (TransactionInput.vout inp))
                       (Py.discard (UTXO.identifier (TransactionInput.txid inp)
                                      (TransactionInput.vout inp)) utxos) = None)
          by (apply lookup_discard_same, Hn).
        apply lookup_none_keys in Hk. apply Hk.
        apply lookup_in, Hin in E.
        apply in_map_iff.
        exists (UTXO.identifier (TransactionInput.txid inp) (TransactionInput.vout inp), v).
        split; [reflexivity|exact E].
      * apply Hgone; [apply NoDup_discard, Hn|exact Hi].
Qed.

Lemma create_all (tx_txid : string) (outs : list (Z * TransactionOutput.t)) :
  forall utxos,
    (NoDup (map fst utxos) ->
     NoDup (map fst (fold_left (create tx_txid) outs utxos)))
    /\ (forall k u, In (k, u) (fold_left (create tx_txid) outs utxos) ->
          In (k, u) utxos
          \/ exists i out, In (i, out) outs /\ k = UTXO.identifier tx_txid i
                           /\ u = utxo_of_output tx_txid i out)
    /\ (forall k,
          (forall i out, In (i, out) outs -> k <> UTXO.identifier tx_txid i) ->
          Py.lookup k (fold_left (create tx_txid) outs utxos) = Py.lookup k utxos)
    /\ (NoDup (map fst outs) ->
        forall i out, In (i, out) outs ->
          Py.lookup (UTXO.identifier tx_txid i) (fold_left (create tx_txid) outs utxos)
          = Some (utxo_of_output tx_txid i out)).
Proof.
  induction outs as [|[j o] rest IH]; intros utxos; cbn [fold_left].
  - repeat split; auto; intros; contradiction.
  - destruct (IH (create tx_txid utxos (j, o))) as [Hnd [Hin [Hother Hnew]]].
    split; [|split; [|split]].
    + intros H. apply Hnd. unfold create. apply NoDup_set_item, H.
    + intros k u H. apply Hin in H as [H|[i [out [Hi [Hk Hu]]]]].
      * unfold create in H. apply in_set_item in H as [[Hk Hu]|H]; [|auto].
        right. exists j, o. split; [left; reflexivity|]. split; assumption.
      * right. exists i, out. split; [right; exact Hi|]. split; assumption.
    + intros k Hk. rewrite Hother.
      * unfold create. apply lookup_set_item_other. apply (Hk j o). left. reflexivity.
      * intros i out Hi. apply (Hk i out). right. exact Hi.
    + intros Hn i out [E|Hi].
      * inversion E; subst i out. inversion Hn as [|? ? Hni Hn']; subst.
        rewrite Hother.
        -- unfold create. apply lookup_set_item_same.
        -- intros i out Hi E'. apply identifier_inj in E' as [_ <-].
           apply Hni. simpl. apply in_map_iff. exists (j, out). auto.
      * inversion Hn as [|? ? Hni Hn']; subst. apply Hnew; assumption.
Qed.

(** What one transaction does to a UTXO map with distinct keys, as
    [scan_blockchain] applies it: every output of the transaction is then
    found under the key of its outpoint; every outpoint that an input names
    is gone, unless it is one of the transaction's own outputs; every other
    key is as it was; the keys stay distinct. *)
Theorem transaction_effect_on_utxo_map (utxos : utxo_map) (tx : Transaction.t) :
  NoDup (map fst utxos) ->
  exists utxos',
    scan_tx utxos tx = Py.Return utxos'
    /\ NoDup (map fst utxos')
    /\ (forall i out,
          0 <= i -> nth_error (Transaction.outputs tx) (Z.to_nat i) = Some out ->
          Py.lookup (UTXO.identifier (Transaction.txid tx) i) utxos'
          = Some (utxo_of_output (Transaction.txid tx) i out))
    /\ (forall inp,
          In inp (Transaction.inputs tx) ->
          TransactionInput.txid inp <> Transaction.txid tx
          \/ ~ (0 <= TransactionInput.vout inp
                  < Z.of_nat (length (Transaction.outputs tx))) ->
          Py.lookup (UTXO.identifier (TransactionInput.txid inp) (TransactionInput.vout inp))
            utxos' = None)
    /\ (forall k,
          (forall inp, In inp (Transaction.inputs tx) ->
             k <> UTXO.identifier (TransactionInput.txid inp) (TransactionInput.vout inp)) ->
          (forall i, 0 <= i < Z.of_nat (length (Transaction.outputs tx)) ->
             k <> UTXO.identifier (Transaction.txid tx) i) ->
          Py.lookup k utxos' = Py.lookup k utxos).
Proof.
  intros Hnd. unfold scan_tx.
  destruct (spend_all_discards (Transaction.inputs tx) utxos)
    as [u [Hu [Hnd' [_ [Hother Hgone]]]]].
  rewrite Hu. cbn [Py.bind].
  destruct (create_all (Transaction.txid tx)
              (Transaction.enumerate_from 0 (Transaction.outputs tx)) u)
    as [Hcn [_ [Hcother Hcnew]]].
  assert (Hrange : forall i out,
             In (i, out) (Transaction.enumerate_from 0 (Transaction.outputs tx)) ->
             0 <= i < Z.of_nat (length (Transaction.outputs tx))).
  { intros i out Hi. apply enumerate_from_in in Hi as [Hle Hn].
    assert (Hlt : (Z.to_nat (i - 0) < length (Transaction.outputs tx))%nat)
      by (apply nth_error_Some; congruence).
    lia. }
  eexists. split; [reflexivity|]. split; [auto|]. split; [|split].
  - intros i out Hi Hn. apply Hcnew; [apply enumerate_from_NoDup|].
    apply enumerate_from_in. split; [exact Hi|].
    replace (i - 0) with i by lia. exact Hn.
  - intros inp Hin Hfresh. rewrite Hcother; [apply Hgone; assumption|].
    intros i out Hi E. apply identifier_inj in E as [Et Ev].
    apply Hrange in Hi. destruct Hfresh as [Hf|Hf]; [congruence|]. apply Hf. lia.
  - intros k Hki Hko. rewrite Hcother; [apply Hother, Hki|].
    intros i out Hi. apply Hko. eapply Hrange, Hi.
Qed.

Lemma scan_tx_entries (utxos : utxo_map) (tx : Transaction.t) (utxos' : utxo_map) :
  scan_tx utxos tx = Py.Return utxos' ->
  (NoDup (map fst utxos) -> NoDup (map fst utxos'))
  /\ forall k u, In (k, u) utxos' ->
       In (k, u) utxos
       \/ (k = UTXO.get_identifier u
           /\ 0 <= UTXO.vout u
           /\ exists out,
                nth_error (Transaction.outputs tx) (Z.to_nat (UTXO.vout u)) = Some out
                /\ u = utxo_of_output (Transaction.txid tx) (UTXO.vout u) out).
Proof.
  unfold scan_tx.
  destruct (spend_all_discards (Transaction.inputs tx) utxos)
    as [u0 [Hu [Hnd [Hin _]]]].
  rewrite Hu. cbn [Py.bind]. intros E. inversion E; subst utxos'. clear E.
  destruct (create_all (Transaction.txid tx)
              (Transaction.enumerate_from 0 (Transaction.outputs tx)) u0)
    as [Hcn [Hcin _]].
  split; [auto|].
  intros k u H. apply Hcin in H as [H|[i [out [Hi [Hk Hv]]]]]; [left; auto|].
  right. apply enumerate_from_in in Hi as [Hle Hn].
  replace (i - 0) with i in Hn by lia.
  subst u k. cbn [utxo_of_output UTXO.vout UTXO.get_identifier UTXO.txid].
  split; [reflexivity|]. split; [exact Hle|]. exists out. auto.
Qed.

Lemma scan_txs_entries (txs : list Transaction.t) :
  forall utxos utxos',
    scan_txs txs utxos = Py.Return utxos' ->
    (NoDup (map fst utxos) -> NoDup (map fst utxos'))
    /\ forall k u, In (k, u) utxos' ->
         In (k, u) utxos
         \/ (k = UTXO.get_identifier u
             /\ 0 <= UTXO.vout u
             /\ exists tx out,
                  In tx txs
                  /\ nth_error (Transaction.outputs tx) (Z.to_nat (UTXO.vout u)) = Some out
                  /\ u = utxo_of_output (Transaction.txid tx) (UTXO.vout u) out).
Proof.
  induction txs as [|tx rest IH]; intros utxos utxos' H; cbn [scan_txs] in H.
  - inversion H; subst. split; auto.
  - apply bind_return in H as [u1 [H1 H]].
    apply scan_tx_entries in H1 as [Hn1 He1].
    apply IH in H as [Hn He].
    split; [auto|].
    intros k u Hin. apply He in Hin as [Hin|[Hk [Hv [tx' [out [Ht [Hno Hu]]]]]]].
    + apply He1 in Hin as [Hin|[Hk [Hv [out [Hno Hu]]]]]; [left; auto|].
      right. split; [exact Hk|]. split; [exact Hv|]. exists tx, out.
      split; [left; reflexivity|]. auto.
    + right. split; [exact Hk|]. split; [exact Hv|]. exists tx', out.
      split; [right; exact Ht|]. auto.
Qed.

Lemma scan_blocks_entries (blocks : list CPCBlock.t) (start_time : option Z) :
  forall utxos utxos',
    scan_blocks blocks start_time utxos = Py.Return utxos' ->
    (NoDup (map fst utxos) -> NoDup (map fst utxos'))
    /\ forall k u, In (k, u) utxos' ->
         In (k, u) utxos
         \/ (k = UTXO.get_identifier u /\ output_of_chain blocks start_time u).
Proof.
  induction blocks as [|b rest IH]; intros utxos utxos' H; cbn [scan_blocks] in H.
  - inversion H; subst. split; auto.
  - destruct (skipped start_time b) eqn:Es.
    + apply IH in H as [Hn He]. split; [exact Hn|].
      intros k u Hin. apply He in Hin as [Hin|[Hk [bl [tx [out [Hb Hrest]]]]]]; [auto|].
      right. split; [exact Hk|]. exists bl, tx, out. split; [right; exact Hb|exact Hrest].
    + apply bind_return in H as [u1 [H1 H]].
      apply scan_txs_entries in H1 as [Hn1 He1].
      apply IH in H as [Hn He]. split; [auto|].
      intros k u Hin. apply He in Hin as [Hin|[Hk [bl [tx [out [Hb Hrest]]]]]].
      * apply He1 in Hin as [Hin|[Hk [Hv [tx [out [Ht [Hno Hu]]]]]]]; [auto|].
        right. split; [exact Hk|]. exists b, tx, out.
        split; [left; reflexivity|]. auto.
      * right. split; [exact Hk|]. exists bl, tx, out. split; [right; exact Hb|exact Hrest].
Qed.

(** The invariant of the map that [scan_blockchain] returns, for every
    chain and every [start_time]: no key occurs twice, every key is the
    identifier of the UTXO stored under it, and every UTXO is an output of a
    transaction in a block that the scan did not skip, with the txid of that
    transaction and its index among the outputs. *)
Theorem scanned_map_invariant (blockchain : list CPCBlock.t) (start_time : option Z) :
  exists utxos,
    scan_blockchain blockchain start_time = Py.Return utxos
    /\ NoDup (map fst utxos)
    /\ forall k u, In (k, u) utxos ->
         k = UTXO.get_identifier u /\ output_of_chain blockchain start_time u.
Proof.
  unfold scan_blockchain.
  destruct (scan_blocks_total blockchain start_time []) as [utxos Hs].
  exists utxos. split; [exact Hs|].
  apply scan_blocks_entries in Hs as [Hn He].
  split; [apply Hn; constructor|].
  intros k u Hin. destruct (He k u Hin) as [[]|H]. exact H.
Qed.

(** What [get_utxo] returns is the coin that was asked for: it has the txid
    and the index of the query, and it is the output with that index of a
    transaction with that txid in a block of the chain. *)
Theorem get_utxo_returns_requested (blockchain : list CPCBlock.t) (now : Z)
    (txid : string) (vout scan_months : Z) (u : UTXO.t) :
  get_utxo blockchain now txid vout scan_months = Py.Return (Some u) ->
  UTXO.txid u = txid
  /\ UTXO.vout u = vout
  /\ exists block tx out,
       In block blockchain
       /\ In tx (CPCBlock.transactions block)
       /\ Transaction.txid tx = txid
       /\ 0 <= vout
       /\ nth_error (Transaction.outputs tx) (Z.to_nat vout) = Some out
       /\ u = utxo_of_output txid vout out.
Proof.
  unfold get_utxo, scan_blockchain. intros H.
  apply bind_return in H as [utxos [Hs H]]. inversion H as [Hl]. clear H.
  apply lookup_in in Hl.
  apply scan_blocks_entries in Hs as [_ He].
  destruct (He _ _ Hl) as [[]|[Hk [bl [tx [out [Hb [_ [Ht [Hv [Hn Hu]]]]]]]]]].
  apply identifier_inj in Hk as [Ht' Hv'].
  assert (Etx : Transaction.txid tx = txid).
  { rewrite Ht'. rewrite Hu. reflexivity. }
  split; [auto|]. split; [auto|].
  exists bl, tx, out. rewrite <- Hv' in *. rewrite Etx in Hu. repeat split; auto.
Qed.

Lemma scan_blocks_app (blocks more : list CPCBlock.t) (start_time : option Z) :
  forall utxos,
    scan_blocks (blocks ++ more) start_time utxos
    = (u <- scan_blocks blocks start_time utxos ;; scan_blocks more start_time u).
Proof.
  induction blocks as [|b rest IH]; intros utxos; cbn [app scan_blocks]; [reflexivity|].
  destruct (skipped start_time b); [apply IH|].
  destruct (scan_txs (CPCBlock.transactions b) utxos) as [u|e]; cbn [Py.bind];
    [apply IH|reflexivity].
Qed.

Lemma scan_txs_app (txs more : list Transaction.t) :
  forall utxos,
    scan_txs (txs ++ more) utxos = (u <- scan_txs txs utxos ;; scan_txs more u).
Proof.
  induction txs as [|tx rest IH]; intros utxos; cbn [app scan_txs]; [reflexivity|].
  destruct (scan_tx utxos tx) as [u|e]; cbn [Py.bind]; [apply IH|reflexivity].
Qed.

(** A key that no transaction of the list creates and that is absent stays
    absent. *)
Lemma scan_txs_keeps_absent (txid : string) (vout : Z) (txs : list Transaction.t) :
  (forall tx, In tx txs -> Transaction.txid tx <> txid) ->
  forall utxos utxos',
    scan_txs txs utxos = Py.Return utxos' ->
    Py.lookup (UTXO.identifier txid vout) utxos = None ->
    Py.lookup (UTXO.identifier txid vout) utxos' = None.
Proof.
  induction txs as [|tx rest IH]; intros Hfresh utxos utxos' H Habs; cbn [scan_txs] in H.
  - inversion H; subst. exact Habs.
  - apply bind_return in H as [u1 [H1 H]].
    apply (IH (fun t Ht => Hfresh t (or_intror Ht)) _ _ H).
    unfold scan_tx in H1.
    destruct (spend_all_discards (Transaction.inputs tx) utxos) as [u0 [Hu [_ [Hin _]]]].
    rewrite Hu in H1. cbn [Py.bind] in H1. inversion H1; subst u1. clear H1.
    destruct (create_all (Transaction.txid tx)
                (Transaction.enumerate_from 0 (Transaction.outputs tx)) u0)
      as [_ [_ [Hother _]]].
    rewrite Hother.
    + destruct (Py.lookup (UTXO.identifier txid vout) u0) as [v|] eqn:E; [|reflexivity].
      apply lookup_in, Hin in E. exfalso.
      apply lookup_none_keys in Habs. apply Habs.
      apply in_map_iff. exists (UTXO.identifier txid vout, v). auto.
    + intros i out _ E. apply identifier_inj in E as [E _].
      apply (Hfresh tx); [left; reflexivity|congruence].
Qed.

Lemma scan_tx_spent_absent (utxos utxos' : utxo_map) (tx : Transaction.t)
    (inp : TransactionInput.t) :
  NoDup (map fst utxos) ->
  scan_tx utxos tx = Py.Return utxos' ->
  In inp (Transaction.inputs tx) ->
  TransactionInput.txid inp <> Transaction.txid tx ->
  Py.lookup (UTXO.identifier (TransactionInput.txid inp) (TransactionInput.vout inp)) utxos'
  = None.
Proof.
  intros Hnd H Hin Hne. unfold scan_tx in H.
  destruct (spend_all_discards (Transaction.inputs tx) utxos) as [u0 [Hu [_ [_ [_ Hgone]]]]].
  rewrite Hu in H. cbn [Py.bind] in H. inversion H; subst utxos'. clear H.
  destruct (create_all (Transaction.txid tx)
              (Transaction.enumerate_from 0 (Transaction.outputs tx)) u0)
    as [_ [_ [Hother _]]].
  rewrite Hother; [apply Hgone; assumption|].
  intros i out _ E. apply identifier_inj in E as [E _]. contradiction.
Qed.

Lemma spent_outpoint_absent (blockchain : list CPCBlock.t) (block : CPCBlock.t)
    (start_time : option Z) (tx : Transaction.t) (inp : TransactionInput.t) :
  skipped start_time block = false ->
  In tx (CPCBlock.transactions block) ->
  In inp (Transaction.inputs tx) ->
  (forall tx', In tx' (CPCBlock.transactions block) ->
     Transaction.txid tx' <> TransactionInput.txid inp) ->
  exists utxos,
    scan_blockchain (blockchain ++ [block]) start_time = Py.Return utxos
    /\ Py.lookup (UTXO.identifier (TransactionInput.txid inp) (TransactionInput.vout inp))
         utxos = None.
Proof.
  intros Hsk Htx Hinp Hfresh. unfold scan_blockchain.
  rewrite scan_blocks_app.
  destruct (scan_blocks_total blockchain start_time []) as [u0 Hu0].
  rewrite Hu0. cbn [Py.bind scan_blocks]. rewrite Hsk.
  apply scan_blocks_entries in Hu0 as [Hnd _].
  specialize (Hnd (NoDup_nil _)).
  destruct (in_split _ _ Htx) as [before [after Htxs]].
  rewrite Htxs in Hfresh |- *.
  rewrite scan_txs_app.
  destruct (scan_txs_total before u0) as [u1 Hu1]. rewrite Hu1. cbn [Py.bind scan_txs].
  apply scan_txs_entries in Hu1 as [Hnd1 _]. specialize (Hnd1 Hnd).
  destruct (scan_tx_total u1 tx) as [u2 Hu2].
  rewrite Hu2. cbn [Py.bind].
  destruct (scan_txs_total after u2) as [u3 Hu3]. rewrite Hu3. cbn [Py.bind].
  exists u3. split; [reflexivity|].
  apply (scan_txs_keeps_absent _ _ after) with (utxos := u2); [|exact Hu3|].
  - intros t Ht. apply Hfresh. apply in_or_app. right. right. exact Ht.
  - apply (scan_tx_spent_absent u1 u2 tx inp Hnd1 Hu2 Hinp).
    intros E. symmetry in E. revert E.
    apply Hfresh. apply in_or_app. right. left. reflexivity.
Qed.

(** An entry that no transaction of the list spends or creates again stays
    as it is. *)
Lemma scan_txs_keeps_entry (txid : string) (vout : Z) (txs : list Transaction.t) :
  (forall tx, In tx txs ->
     Transaction.txid tx <> txid
     /\ forall inp, In inp (Transaction.inputs tx) ->
          ~ (TransactionInput.txid inp = txid /\ TransactionInput.vout inp = vout)) ->
  forall utxos utxos',
    scan_txs txs utxos = Py.Return utxos' ->
    Py.lookup (UTXO.identifier txid vout) utxos'
    = Py.lookup (UTXO.identifier txid vout) utxos.
Proof.
  induction txs as [|tx rest IH]; intros Hfree utxos utxos' H; cbn [scan_txs] in H.
  - inversion H; subst. reflexivity.
  - apply bind_return in H as [u1 [H1 H]].
    rewrite (IH (fun t Ht => Hfree t (or_intror Ht)) _ _ H).
    destruct (Hfree tx (or_introl eq_refl)) as [Hne Hin].
    unfold scan_tx in H1.
    destruct (spend_all_discards (Transaction.inputs tx) utxos) as [u0 [Hu [_ [_ [Hother _]]]]].
    rewrite Hu in H1. cbn [Py.bind] in H1. inversion H1; subst u1. clear H1.
    destruct (create_all (Transaction.txid tx)
                (Transaction.enumerate_from 0 (Transaction.outputs tx)) u0)
      as [_ [_ [Hcother _]]].
    rewrite Hcother.
    + apply Hother. intros inp Hi E. apply identifier_inj in E as [Et Ev].
      apply (Hin inp Hi). auto.
    + intros i out _ E. apply identifier_inj in E as [E _]. congruence.
Qed.

(** A new output is found once its block is appended.  On the chain with
    a block at its end that the scan reads, output [i] of a transaction of
    that block resolves to a UTXO with the fields of that output, as long as
    no later transaction of the block names it as an input or has the same
    txid. *)
Theorem new_output_resolvable (blockchain : list CPCBlock.t) (block : CPCBlock.t)
    (now scan_months : Z) (before after : list Transaction.t) (tx : Transaction.t)
    (i : Z) (out : TransactionOutput.t) :
  skipped (Some (window_start now scan_months)) block = false ->
  CPCBlock.transactions block = before ++ tx :: after ->
  0 <= i ->
  nth_error (Transaction.outputs tx) (Z.to_nat i) = Some out ->
  (forall tx', In tx' after ->
     Transaction.txid tx' <> Transaction.txid tx
     /\ forall inp, In inp (Transaction.inputs tx') ->
          ~ (TransactionInput.txid inp = Transaction.txid tx
             /\ TransactionInput.vout inp = i)) ->
  get_utxo (blockchain ++ [block]) now (Transaction.txid tx) i scan_months
  = Py.Return (Some (utxo_of_output (Transaction.txid tx) i out)).
Proof.
  intros Hsk Htxs Hi Hn Hfree. unfold get_utxo, scan_blockchain.
  rewrite scan_blocks_app.
  destruct (scan_blocks_total blockchain (Some (window_start now scan_months)) [])
    as [u0 Hu0].
  rewrite Hu0. cbn [Py.bind scan_blocks]. rewrite Hsk, Htxs, scan_txs_app.
  destruct (scan_txs_total before u0) as [u1 Hu1]. rewrite Hu1. cbn [Py.bind scan_txs].
  destruct (scan_tx_total u1 tx) as [u2 Hu2]. rewrite Hu2. cbn [Py.bind].
  destruct (scan_txs_total after u2) as [u3 Hu3]. rewrite Hu3. cbn [Py.bind].
  rewrite (scan_txs_keeps_entry _ _ after Hfree _ _ Hu3).
  unfold scan_tx in Hu2.
  destruct (spend_all_total (Transaction.inputs tx) u1) as [u Hu].
  rewrite Hu in Hu2. cbn [Py.bind] in Hu2. inversion Hu2; subst u2.
  destruct (create_all (Transaction.txid tx)
              (Transaction.enumerate_from 0 (Transaction.outputs tx)) u)
    as [_ [_ [_ Hnew]]].
  rewrite (Hnew (enumerate_from_NoDup _ _) i out); [reflexivity|].
  apply enumerate_from_in. split; [exact Hi|].
  replace (i - 0) with i by lia. exact Hn.
Qed.

(** [verify_copyright_proof] over the UTXOs of the scan: it returns a UTXO
    of the scan that belongs to the address, is of kind copyright and has
    the copyright type [proof] and the work hash asked for; it returns
    [None] only when the scan holds no such UTXO.  The expiry of the proof
    plays no part. *)
Theorem verify_copyright_proof_finds (blockchain : list CPCBlock.t) (now : Z)
    (address work_hash : string) (scan_months : Z) :
  exists utxos,
    scan_blockchain blockchain (Some (window_start now scan_months)) = Py.Return utxos
    /\ ((exists utxo,
           verify_copyright_proof blockchain now address work_hash scan_months
           = Py.Return (Some utxo)
           /\ In utxo (Py.values utxos)
           /\ UTXO.address utxo = address
           /\ UTXO.utxo_type utxo = "copyright"
           /\ get "copyright_type" (UTXO.payload utxo) = JStr "proof"
           /\ get "work_hash" (UTXO.payload utxo) = JStr work_hash)
        \/ (verify_copyright_proof blockchain now address work_hash scan_months
            = Py.Return None
            /\ ~ (exists utxo,
                    In utxo (Py.values utxos)
                    /\ UTXO.address utxo = address
                    /\ UTXO.utxo_type utxo = "copyright"
                    /\ get "copyright_type" (UTXO.payload utxo) = JStr "proof"
                    /\ get "work_hash" (UTXO.payload utxo) = JStr work_hash))).
Proof.
  unfold verify_copyright_proof, get_copyright_utxos, get_utxos_by_address, scan_blockchain.
  destruct (scan_blocks_total blockchain (Some (window_start now scan_months)) [])
    as [utxos Hs].
  exists utxos. split; [exact Hs|]. rewrite Hs. cbn [Py.bind].
  match goal with |- context [find ?p ?l] => destruct (find p l) as [u|] eqn:Ef end.
  - left. exists u. split; [reflexivity|].
    apply find_some in Ef as [Hin Hp].
    apply filter_In in Hin as [Hin Hc]. apply filter_In in Hin as [Hin Ha].
    apply String.eqb_eq in Hc, Ha.
    destruct (UTXO.payload u) as [|kv rest] eqn:Ep; [discriminate|].
    apply andb_prop in Hp as [Hp1 Hp2].
    repeat split; auto; apply get_is_str_get; assumption.
  - right. split; [reflexivity|].
    intros [u [Hin [Ha [Hc [Hp Hw]]]]].
    assert (Hin' : In u (filter (fun utxo => String.eqb (UTXO.utxo_type utxo) "copyright")
                           (filter (fun utxo => String.eqb (UTXO.address utxo) address)
                              (Py.values utxos)))).
    { apply filter_In. split; [apply filter_In; split; [exact Hin|]|].
      - apply String.eqb_eq, Ha.
      - apply String.eqb_eq, Hc. }
    pose proof (find_none _ _ Ef u Hin') as Hn. cbv beta in Hn.
    destruct (UTXO.payload u) as [|kv rest] eqn:Ep; [discriminate|].
    unfold get_is_str in Hn. rewrite Hp, Hw in Hn. cbn [py_eqb] in Hn.
    rewrite !String.eqb_refl in Hn. discriminate.
Qed.

(** *** The scan window *)

Section DictSplit.
Context {V : Type}.

Lemma discard_app_disjoint (k : string) (L W : Py.dict V) :
  (forall x, In x (map fst L) -> ~ In x (map fst W)) ->
  Py.discard k (L ++ W) = Py.discard k L ++ Py.discard k W.
Proof.
  induction L as [|[k0 v0] r IH]; simpl; intros Hd; [reflexivity|].
  destruct (String.eqb_spec k k0) as [->|Hne].
  - rewrite (discard_absent k0 W); [reflexivity|].
    unfold Py.contains.
    destruct (Py.lookup k0 W) eqn:E; [|reflexivity].
    exfalso. apply (Hd k0); [left; reflexivity|].
    apply lookup_in in E. apply (in_map fst) in E. exact E.
  - simpl. rewrite IH; [reflexivity|].
    intros x Hx. apply Hd. right. exact Hx.
Qed.

Lemma set_item_app_absent (k : string) (v : V) (L W : Py.dict V) :
  ~ In k (map fst L) -> Py.set_item k v (L ++ W) = L ++ Py.set_item k v W.
Proof.
  induction L as [|[k0 v0] r IH]; simpl; intros Hni; [reflexivity|].
  destruct (String.eqb_spec k k0) as [->|Hne].
  - exfalso. apply Hni. left. reflexivity.
  - rewrite IH; [reflexivity|]. intros Hin. apply Hni. right. exact Hin.
Qed.

Lemma keys_discard_other (k x : string) (d : Py.dict V) :
  x <> k -> In x (map fst d) -> In x (map fst (Py.discard k d)).
Proof.
  intros Hne. induction d as [|[k0 v0] r IH]; simpl; [auto|].
  destruct (String.eqb_spec k k0) as [->|Hk]; simpl.
  - intros [E|Hin]; [congruence|exact Hin].
  - intros [E|Hin]; [left; exact E|right; apply IH, Hin].
Qed.

Lemma discard_removes_key (k : string) (d : Py.dict V) :
  NoDup (map fst d) -> ~ In k (map fst (Py.discard k d)).
Proof.
  intros Hnd. apply lookup_none_keys. apply lookup_discard_same. exact Hnd.
Qed.

End DictSplit.

(** What the inputs [inputs] leave of a map: [spend_all] without its
    exception type. *)
Lemma spend_all_fold (inputs : list TransactionInput.t) :
  forall utxos,
    spend_all inputs utxos
    = Py.Return
        (fold_left
           (fun u inp =>
              Py.discard (UTXO.identifier (TransactionInput.txid inp)
                            (TransactionInput.vout inp)) u)
           inputs utxos).
Proof.
  induction inputs as [|inp rest IH]; intros utxos; simpl; [reflexivity|].
  rewrite spend_discard. simpl. apply IH.
Qed.

Lemma spent_fold_app (inputs : list TransactionInput.t) :
  forall L W : utxo_map,
    (forall x, In x (map fst L) -> ~ In x (map fst W)) ->
    let spent := fold_left
                   (fun u inp =>
                      Py.discard (UTXO.identifier (TransactionInput.txid inp)
                                    (TransactionInput.vout inp)) u) inputs in
    spent (L ++ W) = spent L ++ spent W
    /\ (forall x, In x (map fst (spent L)) -> In x (map fst L))
    /\ (forall x, In x (map fst (spent W)) -> In x (map fst W)).
Proof.
  induction inputs as [|inp rest IH]; intros L W Hd; simpl.
  - auto.
  - rewrite discard_app_disjoint by exact Hd.
    destruct (IH (Py.discard (UTXO.identifier (TransactionInput.txid inp)
                                (TransactionInput.vout inp)) L)
                 (Py.discard (UTXO.identifier (TransactionInput.txid inp)
                                (TransactionInput.vout inp)) W)) as [E [HL HW]].
    + intros x Hx Hw. apply (Hd x); eapply keys_discard; eassumption.
    + simpl in E, HL, HW. split; [exact E|split].
      * intros x Hx. eapply keys_discard, HL, Hx.
      * intros x Hx. eapply keys_discard, HW, Hx.
Qed.

Lemma created_fold_app (tx_txid : string) (outs : list (Z * TransactionOutput.t)) :
  forall L W : utxo_map,
    (forall i, ~ In (UTXO.identifier tx_txid i) (map fst L)) ->
    fold_left (create tx_txid) outs (L ++ W) = L ++ fold_left (create tx_txid) outs W.
Proof.
  induction outs as [|[i out] rest IH]; intros L W Hf; simpl; [reflexivity|].
  unfold UTXO.get_identifier. simpl.
  rewrite set_item_app_absent by apply Hf.
  apply IH, Hf.
Qed.

Lemma created_fold_keys (tx_txid : string) (outs : list (Z * TransactionOutput.t)) :
  forall (W : utxo_map) x,
    In x (map fst (fold_left (create tx_txid) outs W)) ->
    In x (map fst W) \/ exists i, x = UTXO.identifier tx_txid i.
Proof.
  induction outs as [|[i out] rest IH]; intros W x; simpl; [auto|].
  intros Hx. apply IH in Hx as [Hx|Hx]; [|right; exact Hx].
  unfold UTXO.get_identifier in Hx. simpl in Hx.
  apply keys_set_item in Hx as [->|Hx]; [right; eexists; reflexivity|left; exact Hx].
Qed.

(** A transaction acts on a map [L ++ W] part by part, when it creates no
    key of [L]: its inputs are discarded from both parts, its outputs go to
    [W]. *)
Lemma scan_tx_split (tx : Transaction.t) (L W : utxo_map) :
  (forall x, In x (map fst L) -> ~ In x (map fst W)) ->
  (forall i, ~ In (UTXO.identifier (Transaction.txid tx) i) (map fst L)) ->
  let L' := fold_left
              (fun u inp =>
                 Py.discard (UTXO.identifier (TransactionInput.txid inp)
                               (TransactionInput.vout inp)) u)
              (Transaction.inputs tx) L in
  exists W',
    scan_tx W tx = Py.Return W'
    /\ scan_tx (L ++ W) tx = Py.Return (L' ++ W')
    /\ (forall x, In x (map fst L') -> In x (map fst L))
    /\ (forall x, In x (map fst L') -> ~ In x (map fst W')).
Proof.
  intros Hd Hf L'.
  destruct (spent_fold_app (Transaction.inputs tx) L W Hd) as [E [HL HW]].
  simpl in E, HL, HW. fold L' in E, HL.
  unfold scan_tx. rewrite !spend_all_fold. simpl. rewrite E.
  eexists. split; [reflexivity|split; [|split]].
  - rewrite created_fold_app; [reflexivity|].
    intros i Hin. apply (Hf i), HL, Hin.
  - exact HL.
  - intros x Hx Hw. apply created_fold_keys in Hw as [Hw|[i ->]].
    + apply (Hd x); [apply HL, Hx|apply HW, Hw].
    + apply (Hf i), HL, Hx.
Qed.

Lemma scan_txs_split (txs : list Transaction.t) :
  forall L W : utxo_map,
    (forall x, In x (map fst L) -> ~ In x (map fst W)) ->
    (forall tx i, In tx txs ->
       ~ In (UTXO.identifier (Transaction.txid tx) i) (map fst L)) ->
    exists W',
      scan_txs txs W = Py.Return W'
      /\ scan_txs txs (L ++ W)
         = Py.Return
             (fold_left
                (fun u inp =>
                   Py.discard (UTXO.identifier (TransactionInput.txid inp)
                                 (TransactionInput.vout inp)) u)
                (flat_map Transaction.inputs txs) L ++ W')
      /\ (forall x,
            In x (map fst
                    (fold_left
                       (fun u inp =>
                          Py.discard (UTXO.identifier (TransactionInput.txid inp)
                                        (TransactionInput.vout inp)) u)
                       (flat_map Transaction.inputs txs) L)) ->
            In x (map fst L) /\ ~ In x (map fst W')).
Proof.
  induction txs as [|tx rest IH]; intros L W Hd Hf; simpl.
  - eexists. split; [reflexivity|split; [reflexivity|]].
    intros x Hx. split; [exact Hx|apply Hd, Hx].
  - destruct (scan_tx_split tx L W Hd) as [W1 [E1 [E2 [HL Hd1]]]].
    { intros i. apply Hf. left. reflexivity. }
    rewrite E1, E2. simpl.
    rewrite fold_left_app.
    destruct (IH _ W1 Hd1) as [W' [E3 [E4 Hk]]].
    { intros tx' i Hin Hk. apply (Hf tx' i); [right; exact Hin|apply HL, Hk]. }
    exists W'. split; [exact E3|split; [exact E4|]].
    intros x Hx. destruct (Hk x Hx) as [H1 H2]. split; [apply HL, H1|exact H2].
Qed.

Lemma scan_blocks_flat (blocks : list CPCBlock.t) :
  forall utxos,
    scan_blocks blocks None utxos
    = scan_txs (flat_map CPCBlock.transactions blocks) utxos.
Proof.
  induction blocks as [|b rest IH]; intros utxos; simpl; [reflexivity|].
  rewrite scan_txs_app.
  destruct (scan_txs (CPCBlock.transactions b) utxos); simpl; [apply IH|reflexivity].
Qed.

Lemma scan_blocks_all_skipped (start_time : option Z) (blocks : list CPCBlock.t) :
  Forall (fun b => skipped start_time b = true) blocks ->
  forall utxos, scan_blocks blocks start_time utxos = Py.Return utxos.
Proof.
  induction 1 as [|b rest Hb _ IH]; intros utxos; simpl; [reflexivity|].
  rewrite Hb. apply IH.
Qed.

Lemma scan_blocks_none_skipped (start_time : option Z) (blocks : list CPCBlock.t) :
  Forall (fun b => skipped start_time b = false) blocks ->
  forall utxos, scan_blocks blocks start_time utxos = scan_blocks blocks None utxos.
Proof.
  induction 1 as [|b rest Hb _ IH]; intros utxos; simpl; [reflexivity|].
  rewrite Hb.
  destruct (scan_txs (CPCBlock.transactions b) utxos); simpl; [apply IH|reflexivity].
Qed.

(** The keys that a list of inputs leaves of a map without duplicate keys:
    none exactly when every key is named by an input. *)
Lemma spent_fold_empty (inputs : list TransactionInput.t) :
  forall L : utxo_map,
    NoDup (map fst L) ->
    fold_left
      (fun u inp =>
         Py.discard (UTXO.identifier (TransactionInput.txid inp)
                       (TransactionInput.vout inp)) u) inputs L = []
    <-> forall k, In k (map fst L) ->
          exists inp, In inp inputs
                      /\ k = UTXO.identifier (TransactionInput.txid inp)
                               (TransactionInput.vout inp).
Proof.
  induction inputs as [|inp rest IH]; intros L Hnd; simpl.
  - split.
    + intros -> k [].
    + destruct L as [|[k v] r]; [reflexivity|].
      intros H. destruct (H k) as [inp [[] _]]. left. reflexivity.
  - rewrite IH by (apply NoDup_discard, Hnd). split.
    + intros H k Hk.
      destruct (string_dec k (UTXO.identifier (TransactionInput.txid inp)
                                (TransactionInput.vout inp))) as [E|Hne].
      * exists inp. split; [left; reflexivity|exact E].
      * destruct (H k) as [inp' [Hin E]]; [apply keys_discard_other; assumption|].
        exists inp'. split; [right; exact Hin|exact E].
    + intros H k Hk.
      destruct (H k) as [inp' [[<-|Hin] E]]; [eapply keys_discard, Hk| |].
      * subst k. exfalso. revert Hk. apply discard_removes_key, Hnd.
      * exists inp'. split; assumption.
Qed.

(** Claim C6, as amended.  Take a chain whose blocks older than the start
    of the three-month window come first, and in which no transaction of
    the later blocks carries the txid of an output that the older blocks
    leave unspent.  Then [get_utxo], [get_utxos_by_address] and
    [get_balance] agree with the same queries over a scan from genesis, for
    all arguments, exactly when every output that the older blocks leave
    unspent is spent by an input of a transaction in a later block. *)
Theorem scan_window_spent_leftover (old recent : list CPCBlock.t) (now : Z)
  (leftover : utxo_map)
  (Hold : Forall (fun b => skipped (Some (window_start now 3)) b = true) old)
  (Hrecent : Forall (fun b => skipped (Some (window_start now 3)) b = false) recent)
  (Hleft : scan_blockchain old None = Py.Return leftover)
  (Hfresh : forall block tx u,
      In block recent -> In tx (CPCBlock.transactions block) ->
      In u (Py.values leftover) -> Transaction.txid tx <> UTXO.txid u) :
  (forall u, In u (Py.values leftover) ->
     exists block tx inp,
       In block recent /\ In tx (CPCBlock.transactions block)
       /\ In inp (Transaction.inputs tx)
       /\ TransactionInput.txid inp = UTXO.txid u
       /\ TransactionInput.vout inp = UTXO.vout u)
  <->
  (forall (txid address : string) (vout : Z),
     get_utxo (old ++ recent) now txid vout 3 = get_utxo_full (old ++ recent) txid vout
     /\ get_utxos_by_address (old ++ recent) now address 3
        = get_utxos_by_address_full (old ++ recent) address
     /\ get_balance (old ++ recent) now address 3
        = get_balance_full (old ++ recent) address).
Proof.
  unfold scan_blockchain in Hleft.
  destruct (scan_blocks_entries old None [] leftover Hleft) as [Hnd Hent].
  specialize (Hnd (NoDup_nil _)).
  assert (Hkey : forall k u, In (k, u) leftover -> k = UTXO.get_identifier u).
  { intros k u Hin. destruct (Hent k u Hin) as [[]|[E _]]. exact E. }
  clear Hent.
  destruct (scan_txs_split (flat_map CPCBlock.transactions recent) leftover [])
    as [W [EW [EF Hk]]].
  { intros x _ []. }
  { intros tx i Htx Hin.
    apply in_flat_map in Htx as [block [Hb Htx]].
    apply in_map_iff in Hin as [[k u] [Ek Hin]]. simpl in Ek. subst k.
    pose proof (Hkey _ _ Hin) as E. unfold UTXO.get_identifier in E.
    apply identifier_inj in E as [E _].
    apply (Hfresh block tx u Hb Htx); [|exact E].
    apply in_map_iff. exists (UTXO.identifier (Transaction.txid tx) i, u).
    split; [reflexivity|exact Hin]. }
  rewrite app_nil_r in EF.
  pose proof (spent_fold_empty
                (flat_map Transaction.inputs (flat_map CPCBlock.transactions recent))
                leftover Hnd) as Hempty.
  match type of EF with
  | _ = Py.Return (?l ++ _) => remember l as L eqn:EL
  end.
  clear EL.
  assert (Efull : scan_blockchain (old ++ recent) None = Py.Return (L ++ W)).
  { unfold scan_blockchain. rewrite scan_blocks_app, Hleft. simpl.
    rewrite scan_blocks_flat. exact EF. }
  assert (Ewin : scan_blockchain (old ++ recent) (Some (window_start now 3))
                 = Py.Return W).
  { unfold scan_blockchain. rewrite scan_blocks_app.
    rewrite (scan_blocks_all_skipped _ _ Hold). simpl.
    rewrite (scan_blocks_none_skipped _ _ Hrecent), scan_blocks_flat. exact EW. }
  unfold get_balance, get_balance_full, get_utxos_by_address, get_utxos_by_address_full,
    get_utxo, get_utxo_full.
  rewrite Efull, Ewin. simpl.
  split.
  - intros Hspent.
    assert (E : L = []).
    { apply Hempty. intros k Hin.
      apply in_map_iff in Hin as [[k' u] [Ek Hin]]. simpl in Ek. subst k'.
      destruct (Hspent u) as [block [tx [inp [Hb [Htx [Hinp [Et Ev]]]]]]].
      { apply in_map_iff. exists (k, u). split; [reflexivity|exact Hin]. }
      exists inp. split.
      - apply in_flat_map. exists tx. split; [|exact Hinp].
        apply in_flat_map. exists block. split; assumption.
      - rewrite Et, Ev. apply (Hkey _ _ Hin). }
    rewrite E. simpl. auto.
  - intros Hsame.
    assert (E : L = []).
    { destruct L as [|[k u] r]; [reflexivity|].
      exfalso.
      destruct (Hk k) as [HinL HniW]; [left; reflexivity|].
      apply in_map_iff in HinL as [[k' u'] [Ek Hin]]. simpl in Ek. subst k'.
      pose proof (Hkey _ _ Hin) as E. unfold UTXO.get_identifier in E.
      destruct (Hsame (UTXO.txid u') "" (UTXO.vout u')) as [Hget _].
      rewrite <- E in Hget. simpl in Hget. rewrite String.eqb_refl in Hget.
      apply HniW. inversion Hget as [Hl].
      apply lookup_in in Hl. apply (in_map fst) in Hl. exact Hl. }
    intros u Hu.
    apply in_map_iff in Hu as [[k u'] [Eu Hin]]. simpl in Eu. subst u'.
    destruct (proj1 Hempty E k) as [inp [Hinp Ek]].
    { apply (in_map fst) in Hin. exact Hin. }
    apply in_flat_map in Hinp as [tx [Htx Hinp]].
    apply in_flat_map in Htx as [block [Hb Htx]].
    exists block, tx, inp.
    split; [exact Hb|split; [exact Htx|split; [exact Hinp|]]].
    rewrite (Hkey _ _ Hin) in Ek. unfold UTXO.get_identifier in Ek.
    apply identifier_inj in Ek as [Et Ev]. split; congruence.
Qed.

(** *** What the validator guarantees on the generic path *)

Section Authorisation.

Variable ecdsa_verify : string -> string -> string -> bool.
Variable blockchain : list CPCBlock.t.
Variable now : Z.

Lemma accepted_inputs_passed (tx : Transaction.t) (m : msg) (inp : TransactionInput.t) :
  generic_type (Transaction.tx_type tx) = true ->
  validate_transaction ecdsa_verify blockchain now tx = Py.Return (true, m) ->
  In inp (Transaction.inputs tx) ->
  exists utxo, input_passed ecdsa_verify blockchain now tx inp utxo.
Proof.
  intros Hg H Hin.
  destruct (validate_generic ecdsa_verify blockchain now tx _ Hg H eq_refl) as [a [Hc _]].
  apply check_inputs_continue in Hc as [us [Hus _]].
  destruct (Forall2_in_left _ _ _ _ Hus Hin) as [u [_ Hp]]. eauto.
Qed.

(** The script of a spent coin is honoured.  For every input of an accepted
    transaction that is neither [faucet] nor [copyright_register], the
    script of the coin parses; it asks for at most one signature, so that a
    coin whose script asks for two or more is never spent; when it asks for
    one, the [public_key] of the input is one of the addresses of the
    script; and a time lock other than 0 has been reached. *)
Theorem accepted_spend_honours_script (tx : Transaction.t) (m : msg)
    (inp : TransactionInput.t) :
  generic_type (Transaction.tx_type tx) = true ->
  validate_transaction ecdsa_verify blockchain now tx = Py.Return (true, m) ->
  In inp (Transaction.inputs tx) ->
  exists utxo script,
    resolve blockchain now inp = Py.Return (Some utxo)
    /\ from_string (UTXO.script_pubkey utxo) = Py.Return script
    /\ required_sig_num script <= 1
    /\ (1 <= required_sig_num script ->
        exists public_key,
          TransactionInput.public_key inp = Some public_key
          /\ In public_key (addresses script))
    /\ (forall l, time_lock script = Some l -> l <> 0 -> l <= now).
Proof.
  intros Hg H Hin.
  destruct (accepted_inputs_passed tx m inp Hg H Hin)
    as [utxo [Hr [_ [script [et [Hs [_ Hc]]]]]]].
  exists utxo, script. split; [exact Hr|]. split; [exact Hs|].
  unfold can_spend, _public_key_to_address in Hc.
  destruct (Py.truthy_int et && _); [discriminate|].
  destruct (Py.truthy_int (time_lock script)
            && match time_lock script with Some l => now <? l | None => false end) eqn:El;
    [discriminate|].
  cbn [filter] in Hc.
  destruct (signer_in (TransactionInput.public_key inp) (addresses script)) eqn:Esig;
    cbn [length] in Hc; apply Z.geb_le in Hc.
  - split; [lia|]. split.
    + intros _. unfold signer_in in Esig.
      destruct (TransactionInput.public_key inp) as [pk|]; [|discriminate].
      exists pk. split; [reflexivity|]. apply mem_in, Esig.
    + intros l Hl Hnz. rewrite Hl in El. unfold Py.truthy_int in El.
      apply Z.eqb_neq in Hnz. rewrite Hnz in El. cbn [negb andb] in El.
      apply Z.ltb_ge in El. exact El.
  - split; [lia|]. split; [intros; lia|].
    intros l Hl Hnz. rewrite Hl in El. unfold Py.truthy_int in El.
    apply Z.eqb_neq in Hnz. rewrite Hnz in El. cbn [negb andb] in El.
    apply Z.ltb_ge in El. exact El.
Qed.

(** The signatures of an accepted input, for a transaction that is neither
    [faucet] nor [copyright_register].  Either the input carries a signature
    table, every signature in it verifies for its signer over the txid, and
    every required signer has one; or the table is empty, [public_key] is
    the address of the coin, and [signature] verifies for it.  In the first
    case nothing compares a signer with the address of the coin. *)
Theorem accepted_input_signatures_verify (tx : Transaction.t) (m : msg)
    (inp : TransactionInput.t) :
  generic_type (Transaction.tx_type tx) = true ->
  validate_transaction ecdsa_verify blockchain now tx = Py.Return (true, m) ->
  In inp (Transaction.inputs tx) ->
  (TransactionInput.signatures inp <> []
   /\ (forall signer signature,
         In (signer, signature) (TransactionInput.signatures inp) ->
         ecdsa_verify signer signature (Transaction.txid tx) = true)
   /\ (forall signer,
         In signer (TransactionInput.required_signers inp) ->
         exists signature,
           Py.lookup signer (TransactionInput.signatures inp) = Some signature
           /\ ecdsa_verify signer signature (Transaction.txid tx) = true))
  \/ (TransactionInput.signatures inp = []
      /\ exists utxo signature,
           resolve blockchain now inp = Py.Return (Some utxo)
           /\ TransactionInput.public_key inp = Some (UTXO.address utxo)
           /\ TransactionInput.signature inp = Some signature
           /\ ecdsa_verify (UTXO.address utxo) signature (Transaction.txid tx) = true).
Proof.
  intros Hg H Hin.
  destruct (accepted_inputs_passed tx m inp Hg H Hin) as [utxo [Hr [Hv _]]].
  unfold _verify_signature, _verify_single_signature, _public_key_to_address in Hv.
  rewrite Hr in Hv.
  destruct (TransactionInput.signatures inp) as [|kv rest] eqn:Es.
  - right. split; [reflexivity|].
    destruct (TransactionInput.public_key inp) as [[|c pk]|]; try discriminate.
    destruct (TransactionInput.signature inp) as [[|c' sg]|]; try discriminate.
    destruct (String.eqb_spec (String c pk) (UTXO.address utxo)) as [E|_];
      [|discriminate].
    cbn [negb] in Hv. exists utxo, (String c' sg). rewrite <- E. auto.
  - left. apply andb_prop in Hv as [Hall Hfull].
    rewrite forallb_forall in Hall.
    split; [discriminate|]. split.
    + intros signer signature Hs. apply (Hall (signer, signature)), Hs.
    + intros signer Hs.
      unfold TransactionInput.is_fully_signed in Hfull.
      rewrite forallb_forall in Hfull. specialize (Hfull signer Hs).
      rewrite Es in Hfull. unfold Py.contains in Hfull.
      destruct (Py.lookup signer (kv :: rest)) as [sg|] eqn:El; [|discriminate].
      exists sg. split; [reflexivity|].
      apply (Hall (signer, sg)). apply lookup_in, El.
Qed.

(** A coin of kind copyright whose payload is not empty and lacks one of
    [work_hash], [work_title], [author] and [copyright_type] cannot be spent
    by a transaction that is neither [faucet] nor [copyright_register]:
    reading its end time raises [KeyError], and the validation does not
    return an acceptance. *)
Theorem incomplete_payload_unspendable (tx : Transaction.t) (inp : TransactionInput.t)
    (utxo : UTXO.t) (field : string) :
  generic_type (Transaction.tx_type tx) = true ->
  In inp (Transaction.inputs tx) ->
  resolve blockchain now inp = Py.Return (Some utxo) ->
  UTXO.utxo_type utxo = "copyright" ->
  UTXO.payload utxo <> [] ->
  In field ["work_hash"; "work_title"; "author"; "copyright_type"] ->
  Py.contains field (UTXO.payload utxo) = false ->
  CopyrightPayload.from_dict now (UTXO.payload utxo) = Py.Raise Py.KeyError
  /\ ~ (exists m, validate_transaction ecdsa_verify blockchain now tx = Py.Return (true, m)).
Proof.
  intros Hg Hin Hr Hty Hp Hf Hc.
  assert (Hraise : CopyrightPayload.from_dict now (UTXO.payload utxo) = Py.Raise Py.KeyError).
  { unfold CopyrightPayload.from_dict, CopyrightPayload.item. unfold Py.contains in Hc.
    destruct (Py.lookup "work_hash" (UTXO.payload utxo)) eqn:E1; [|reflexivity].
    destruct (Py.lookup "work_title" (UTXO.payload utxo)) eqn:E2; [|reflexivity].
    destruct (Py.lookup "author" (UTXO.payload utxo)) eqn:E3; [|reflexivity].
    destruct (Py.lookup "copyright_type" (UTXO.payload utxo)) eqn:E4; [|reflexivity].
    exfalso. cbn [In] in Hf.
    destruct Hf as [<-|[<-|[<-|[<-|[]]]]].
    - rewrite E1 in Hc. discriminate.
    - rewrite E2 in Hc. discriminate.
    - rewrite E3 in Hc. discriminate.
    - rewrite E4 in Hc. discriminate. }
  split; [exact Hraise|].
  intros [m H].
  destruct (accepted_inputs_passed tx m inp Hg H Hin)
    as [u [Hr' [_ [sc [et [_ [He _]]]]]]].
  rewrite Hr in Hr'. inversion Hr'; subst u.
  unfold end_time_of in He. rewrite Hty in He.
  replace (String.eqb "copyright" "copyright") with true in He by reflexivity.
  destruct (UTXO.payload utxo) as [|kv rest] eqn:Ep; [contradiction|].
  cbn [andb] in He. rewrite Hraise in He. discriminate.
Qed.

(** An accepted [authorization_activate] transaction: its first
    instruction-typed input has not expired, it has a proof-typed output, and
    every proof-typed output carries the work hash of that instruction. *)
Theorem activate_inherits_work_hash (tx : Transaction.t) (m : msg) :
  Transaction.tx_type tx = Transaction.TYPE_AUTH_ACTIVATE ->
  validate_transaction ecdsa_verify blockchain now tx = Py.Return (true, m) ->
  exists instruction payload end_time,
    find_input blockchain now (utxo_is "instruction") (Transaction.inputs tx)
    = Py.Return (Some instruction)
    /\ CopyrightPayload.from_dict now (UTXO.payload instruction) = Py.Return payload
    /\ CopyrightPayload.get_end_time payload = Py.Return end_time
    /\ now < end_time
    /\ (exists out, In out (Transaction.outputs tx) /\ output_is "proof" out = true)
    /\ forall out,
         In out (Transaction.outputs tx) -> output_is "proof" out = true ->
         py_eqb (get "work_hash" (TransactionOutput.payload out))
           (get "work_hash" (UTXO.payload instruction)) = true.
Proof.
  intros Hty H.
  assert (Hg : generic_type (Transaction.tx_type tx) = true) by (rewrite Hty; reflexivity).
  apply (validate_typed_part ecdsa_verify blockchain now tx _ Hg) in H; [|reflexivity].
  unfold typed_part in H. rewrite Hty in H. cbn in H.
  apply typed_checks_accept in H as [m1 [m2 [H1 _]]]; [|reflexivity].
  unfold _validate_authorization_activate in H1.
  apply bind_return in H1 as [[u|] [Hf H1]]; [|discriminate].
  apply bind_return in H1 as [p [Hp H1]].
  unfold CopyrightPayload.is_expired in H1.
  apply bind_return in H1 as [expired [He H1]].
  apply bind_return in He as [e [He Hx]]. inversion Hx as [Hx']. clear Hx.
  destruct expired; [discriminate|].
  set (proofs := filter (output_is "proof") (Transaction.outputs tx)) in *.
  destruct proofs as [|o os] eqn:Eo; [discriminate|]. cbn [length Nat.eqb] in H1.
  destruct (first_failure _ (o :: os)) eqn:Ef; [discriminate|].
  exists u, p, e. split; [exact Hf|]. split; [exact Hp|]. split; [exact He|].
  split; [|split].
  - rewrite Z.geb_leb in Hx'. apply Z.leb_gt in Hx'. exact Hx'.
  - exists o. apply filter_In. fold proofs. rewrite Eo. left. reflexivity.
  - intros out Hin Ho.
    assert (Hin' : In out (o :: os)).
    { rewrite <- Eo. apply filter_In. auto. }
    pose proof (first_failure_none _ _ Ef out Hin') as Hok. cbv beta in Hok.
    destruct (transition_check _ out) as [[|] mm]; [|discriminate].
    destruct (py_eqb (get "work_hash" (TransactionOutput.payload out))
                (get "work_hash" (UTXO.payload u))); [reflexivity|discriminate].
Qed.

End Authorisation.

Lemma scan_blocks_keeps_absent (txid : string) (vout : Z) (start_time : option Z)
    (blocks : list CPCBlock.t) :
  (forall block tx, In block blocks -> In tx (CPCBlock.transactions block) ->
     Transaction.txid tx <> txid) ->
  forall utxos utxos',
    scan_blocks blocks start_time utxos = Py.Return utxos' ->
    Py.lookup (UTXO.identifier txid vout) utxos = None ->
    Py.lookup (UTXO.identifier txid vout) utxos' = None.
Proof.
  induction blocks as [|b rest IH]; intros Hfresh utxos utxos' Hs Hl; simpl in Hs.
  - inversion Hs; subst. exact Hl.
  - assert (Hrest : forall block tx, In block rest ->
                      In tx (CPCBlock.transactions block) -> Transaction.txid tx <> txid)
      by (intros block tx Hb; apply Hfresh; right; exact Hb).
    destruct (skipped start_time b); [apply (IH Hrest _ _ Hs Hl)|].
    destruct (scan_txs (CPCBlock.transactions b) utxos) as [u|e] eqn:Eu; [|discriminate].
    simpl in Hs. apply (IH Hrest _ _ Hs).
    apply (scan_txs_keeps_absent txid vout (CPCBlock.transactions b)) with (utxos := utxos);
      [|exact Eu|exact Hl].
    intros tx Htx. apply (Hfresh b tx); [left; reflexivity|exact Htx].
Qed.

(** A spent coin stays spent.  Once a block that the scan reads holds a
    transaction with an input [inp], the coin of [inp] does not resolve on
    any chain that continues with blocks [later], and no transaction that is
    neither [faucet] nor [copyright_register] and names the same outpoint is
    accepted there, as long as no transaction of that block or of [later]
    carries the txid that [inp] names.  (A transaction that carries it
    creates the outpoint anew: the txid is a field of the transaction.) *)
Theorem spent_coin_stays_unresolvable (blockchain later : list CPCBlock.t)
    (block : CPCBlock.t) (now : Z) (tx : Transaction.t) (inp : TransactionInput.t) :
  skipped (Some (window_start now 3)) block = false ->
  In tx (CPCBlock.transactions block) ->
  In inp (Transaction.inputs tx) ->
  (forall block' tx', In block' (block :: later) ->
     In tx' (CPCBlock.transactions block') ->
     Transaction.txid tx' <> TransactionInput.txid inp) ->
  resolve (blockchain ++ block :: later) now inp = Py.Return None
  /\ forall ecdsa_verify tx2 inp2,
       generic_type (Transaction.tx_type tx2) = true ->
       In inp2 (Transaction.inputs tx2) ->
       TransactionInput.txid inp2 = TransactionInput.txid inp ->
       TransactionInput.vout inp2 = TransactionInput.vout inp ->
       ~ (exists m,
            validate_transaction ecdsa_verify (blockchain ++ block :: later) now tx2
            = Py.Return (true, m)).
Proof.
  intros Hsk Htx Hinp Hfresh.
  destruct (spent_outpoint_absent blockchain block (Some (window_start now 3)) tx inp
              Hsk Htx Hinp) as [utxos [Hs Hl]].
  { intros tx' Htx'. apply (Hfresh block tx'); [left; reflexivity|exact Htx']. }
  assert (Hres : resolve (blockchain ++ block :: later) now inp = Py.Return None).
  { unfold resolve, get_utxo, scan_blockchain.
    change (block :: later) with ([block] ++ later). rewrite app_assoc.
    rewrite scan_blocks_app. unfold scan_blockchain in Hs. rewrite Hs. cbn [Py.bind].
    destruct (scan_blocks_total later (Some (window_start now 3)) utxos) as [u Hu].
    rewrite Hu. cbn [Py.bind].
    rewrite (scan_blocks_keeps_absent (TransactionInput.txid inp)
               (TransactionInput.vout inp) (Some (window_start now 3)) later)
      with (utxos := utxos) (utxos' := u);
      [reflexivity| |exact Hu|exact Hl].
    intros block' tx' Hb. apply Hfresh. right. exact Hb. }
  split; [exact Hres|].
  intros v tx2 inp2 Hg Hin2 Ht Hv [m H].
  destruct (accepted_inputs_passed v _ now tx2 m inp2 Hg H Hin2) as [u [Hr _]].
  unfold resolve in Hr, Hres. rewrite Ht, Hv, Hres in Hr. discriminate.
Qed.


(** *** Address ownership *)








Section AddressOwnership.

Variable ecdsa_verify : string -> string -> string -> bool.
Variable blockchain : list CPCBlock.t.
Variable now : Z.


Lemma utxo_is_exclusive (ty ty' : string) (u : UTXO.t) :
  utxo_is ty u = true -> utxo_is ty' u = true -> ty = ty'.
Proof.
  intros H H'. apply utxo_is_type in H. apply utxo_is_type in H'. congruence.
Qed.









End AddressOwnership.

(** *** The copyright payload *)

(** Round trip of the payload through its dict: [from_dict] gives back a
    payload whose rights scope is truthy and whose metadata is truthy or the
    empty dict, as the constructor leaves them; the clock plays no part. *)
Theorem payload_round_trip (now : Z) (p : CopyrightPayload.t) :
  truthy (CopyrightPayload.rights_scope p) = true ->
  truthy (CopyrightPayload.metadata p) = true \/ CopyrightPayload.metadata p = JDict [] ->
  CopyrightPayload.from_dict now (CopyrightPayload.to_dict p) = Py.Return p.
Proof.
  intros Hr Hm. destruct p as [wh wt au ct rs pu md ca].
  cbn [CopyrightPayload.rights_scope CopyrightPayload.metadata] in *.
  unfold CopyrightPayload.from_dict, CopyrightPayload.to_dict, CopyrightPayload.item, get, get_default.
  cbn. rewrite Hr.
  destruct Hm as [Hm| ->]; [rewrite Hm|]; reflexivity.
Qed.

(** A payload dict without [created_at] is stamped with the clock at every
    read: its end time is ninety days after the reading, so that it has not
    expired whenever it is read. *)
Theorem payload_without_created_at_never_expires (now : Z) (data : dict)
    (p : CopyrightPayload.t) :
  Py.contains "created_at" data = false ->
  CopyrightPayload.from_dict now data = Py.Return p ->
  CopyrightPayload.get_end_time p = Py.Return (now + AUTHORIZATION_DURATION_SECONDS)
  /\ CopyrightPayload.is_expired p now = Py.Return false.
Proof.
  unfold Py.contains, CopyrightPayload.from_dict. intros Hc H.
  apply bind_return in H as [wh [_ H]].
  apply bind_return in H as [wt [_ H]].
  apply bind_return in H as [au [_ H]].
  apply bind_return in H as [ct [_ H]].
  destruct (Py.lookup "created_at" data) eqn:E; [discriminate|].
  unfold get_default in H. rewrite E in H.
  inversion H; subst p. clear H.
  unfold CopyrightPayload.is_expired, CopyrightPayload.get_end_time.
  cbn [CopyrightPayload.created_at py_int Py.bind].
  split; [reflexivity|]. f_equal. rewrite Z.geb_leb. apply Z.leb_gt.
  unfold AUTHORIZATION_DURATION_SECONDS. lia.
Qed.

(** *** The miner *)

Section MinerFacts.

Variable ecdsa_verify : string -> string -> string -> bool.

Lemma select_valid (blockchain : list CPCBlock.t) (now : Z) (pending : list Transaction.t) :
  forall valid fees,
    fst (Miner.select ecdsa_verify blockchain now pending valid fees)
    = valid ++ filter (Miner.is_valid ecdsa_verify blockchain now) pending.
Proof.
  induction pending as [|tx rest IH]; intros valid fees; cbn [Miner.select filter].
  - rewrite app_nil_r. reflexivity.
  - unfold Miner.is_valid at 1.
    destruct (validate_transaction ecdsa_verify blockchain now tx) as [[[|] m]|e];
      try apply IH.
    destruct (Transaction.inputs tx) as [|i l].
    + rewrite IH, <- app_assoc. reflexivity.
    + destruct (Miner.fee_inputs blockchain now (i :: l) (Float.of_Z 0));
        rewrite IH, <- app_assoc; reflexivity.
Qed.

Lemma rev_cons_last {A : Type} (l : list A) (x : A) (r : list A) :
  rev l = x :: r -> l = rev r ++ [x].
Proof.
  intros H. rewrite <- (rev_involutive l), H. reflexivity.
Qed.

(** The block that [mine_block] appends, when [proof_of_work] returns: the
    chain grows by that one block; its index and previous hash continue the
    last block; it is stamped with the clock read after the proof of work and
    its hash is the hash of its content; its transactions are the pending
    ones that the validator accepts on the chain as it was before the block,
    in their order, followed by one more, the reward transaction: of type
    [faucet], without input, stamped with the clock read before the proof of
    work, with a single output, a fuel coin to [MINER_ADDRESS].  Each
    pending transaction is judged against that chain alone, so two accepted
    ones that spend the same coin are both in the block. *)
Theorem mined_block_contents (fuel : nat) (c : Miner.clock) (blockchain : list CPCBlock.t)
    (pending : list Transaction.t) (blockchain' : list CPCBlock.t) (new_block : CPCBlock.t) :
  Miner.mine_block ecdsa_verify fuel c blockchain pending
  = Py.Return (Some (blockchain', new_block)) ->
  blockchain' = blockchain ++ [new_block]
  /\ (exists earlier last_block,
        blockchain = earlier ++ [last_block]
        /\ CPCBlock.index new_block = CPCBlock.index last_block + 1
        /\ CPCBlock.previous_hash new_block = CPCBlock.hash last_block)
  /\ CPCBlock.timestamp new_block = Miner.block_time c
  /\ CPCBlock.hash new_block = CPCBlock.calculate_hash new_block
  /\ exists reward_tx reward_output,
       CPCBlock.transactions new_block
       = filter (Miner.is_valid ecdsa_verify blockchain (Miner.validation_time c)) pending
         ++ [reward_tx]
       /\ Transaction.tx_type reward_tx = Transaction.TYPE_FAUCET
       /\ Transaction.inputs reward_tx = []
       /\ Transaction.timestamp reward_tx = Miner.reward_time c
       /\ Transaction.outputs reward_tx = [reward_output]
       /\ TransactionOutput.address reward_output = Miner.MINER_ADDRESS
       /\ TransactionOutput.utxo_type reward_output = "fuel".
Proof.
  unfold Miner.mine_block. intros H.
  pose proof (select_valid blockchain (Miner.validation_time c) pending []
                (Float.of_Z 0)) as Hsel.
  destruct (Miner.select ecdsa_verify blockchain (Miner.validation_time c) pending []
              (Float.of_Z 0)) as [valid fees].
  cbn [fst app] in Hsel.
  destruct (rev blockchain) as [|last_block r] eqn:Er; [discriminate|].
  destruct (Miner.proof_of_work fuel (Miner.pow_time c) last_block _ 4) as [nonce|];
    [|discriminate].
  inversion H; subst blockchain' new_block. clear H.
  split; [reflexivity|]. split; [|split; [|split]].
  - exists (rev r), last_block. split; [apply rev_cons_last, Er|]. split; reflexivity.
  - reflexivity.
  - reflexivity.
  - eexists. eexists. cbn [CPCBlock.new CPCBlock.transactions]. rewrite Hsel.
    split; [reflexivity|]. repeat split; reflexivity.
Qed.

(** The reward of a mined block is a coin of the miner: on the chain that
    [mine_block] returns, output 0 of the last transaction of the new block,
    the reward transaction, resolves to the fuel coin of [MINER_ADDRESS]
    built from that output, as long as the scan window holds the block. *)
Theorem mined_reward_resolvable (fuel : nat) (c : Miner.clock)
    (blockchain : list CPCBlock.t) (pending : list Transaction.t)
    (blockchain' : list CPCBlock.t) (new_block : CPCBlock.t) (now scan_months : Z) :
  Miner.mine_block ecdsa_verify fuel c blockchain pending
  = Py.Return (Some (blockchain', new_block)) ->
  skipped (Some (window_start now scan_months)) new_block = false ->
  exists packed reward_tx reward_output utxo,
    CPCBlock.transactions new_block = packed ++ [reward_tx]
    /\ Transaction.outputs reward_tx = [reward_output]
    /\ get_utxo blockchain' now (Transaction.txid reward_tx) 0 scan_months
       = Py.Return (Some utxo)
    /\ utxo = utxo_of_output (Transaction.txid reward_tx) 0 reward_output
    /\ UTXO.address utxo = Miner.MINER_ADDRESS
    /\ UTXO.utxo_type utxo = "fuel".
Proof.
  unfold Miner.mine_block. intros H Hsk.
  destruct (Miner.select ecdsa_verify blockchain (Miner.validation_time c) pending []
              (Float.of_Z 0)) as [valid fees].
  destruct (rev blockchain) as [|last_block r] eqn:Er; [discriminate|].
  destruct (Miner.proof_of_work fuel (Miner.pow_time c) last_block _ 4) as [nonce|];
    [|discriminate].
  inversion H; subst blockchain' new_block. clear H.
  exists valid. eexists. eexists. eexists.
  cbn [CPCBlock.new CPCBlock.transactions] in *.
  split; [reflexivity|]. split; [reflexivity|].
  split; [|split; [reflexivity|split; reflexivity]].
  unfold get_utxo, scan_blockchain. rewrite scan_blocks_app.
  destruct (scan_blocks_total blockchain (Some (window_start now scan_months)) [])
    as [u0 Hu0].
  rewrite Hu0. cbn [Py.bind scan_blocks]. rewrite Hsk.
  cbn [CPCBlock.new CPCBlock.transactions]. rewrite scan_txs_app.
  destruct (scan_txs_total valid u0) as [u1 Hu1]. rewrite Hu1.
  cbn [Py.bind scan_txs scan_tx Miner.reward_transaction Transaction.new Transaction.inputs
       Transaction.outputs Transaction.txid spend_all Transaction.enumerate_from fold_left
       create].
  f_equal. apply lookup_set_item_same.
Qed.

End MinerFacts.

(** *** [to_dict] and [from_dict] *)

Lemma each_map {A B C : Type} (f : B -> Read.parsed C) (g : A -> B) (h : A -> C) (xs : list A) :
  (forall x, In x xs -> f (g x) = Read.Parsed (h x)) ->
  Read.each f (map g xs) = Read.Parsed (map h xs).
Proof.
  induction xs as [|x r IH]; intros H; cbn [map Read.each]; [reflexivity|].
  rewrite (H x (or_introl eq_refl)). cbn [Read.bind].
  rewrite IH by (intros y Hy; apply H; right; exact Hy). reflexivity.
Qed.

Lemma input_round_trip (inp : TransactionInput.t) :
  TransactionInput.from_dict (Read.items (TransactionInput.to_dict inp)) = Read.Parsed inp.
Proof.
  destruct inp as [t v sg pk sigs rs].
  unfold TransactionInput.from_dict, TransactionInput.to_dict, Read.items, Read.item, get, Py.contains.
  cbn [Py.lookup String.eqb Ascii.eqb Bool.eqb TransactionInput.txid TransactionInput.vout
       TransactionInput.signature TransactionInput.public_key TransactionInput.signatures
       TransactionInput.required_signers Read.bind Read.str Read.int].
  assert (Ho : forall o, Read.opt_str (TransactionInput.opt_str o) = Read.Parsed o)
    by (intros [s|]; reflexivity).
  rewrite !Ho. cbn [Read.bind Read.opt_str_list Read.str_dict].
  rewrite (each_map Read.str JStr (fun s => s)) by reflexivity.
  rewrite map_id. cbn [Read.bind].
  rewrite (each_map _ (fun kv : string * string => (fst kv, JStr (snd kv))) (fun kv => kv)).
  - rewrite map_id. reflexivity.
  - intros [k s] _. reflexivity.
Qed.

Lemma output_round_trip (out : TransactionOutput.t) :
  TransactionOutput.from_dict (Read.items (TransactionOutput.to_dict out)) = Read.Parsed out.
Proof.
  destruct out as [a ad sc ty p].
  unfold TransactionOutput.from_dict, TransactionOutput.to_dict, Read.items, Read.item, get_default.
  cbn [Py.lookup String.eqb Ascii.eqb Bool.eqb TransactionOutput.amount
       TransactionOutput.address TransactionOutput.script_pubkey TransactionOutput.utxo_type
       TransactionOutput.payload Read.bind Read.str Read.float].
  unfold Read.dict_or_empty. destruct p; reflexivity.
Qed.

Lemma dicts_map {A : Type} (f : dict -> Read.parsed A) (g : A -> jval) (xs : list A) :
  (forall x, In x xs -> exists d, g x = JDict d /\ f d = Read.Parsed x) ->
  Read.dicts f (JList (map g xs)) = Read.Parsed xs.
Proof.
  intros H. unfold Read.dicts.
  rewrite (each_map _ g (fun x => x)); [rewrite map_id; reflexivity|].
  intros x Hx. destruct (H x Hx) as [d [-> Hd]]. exact Hd.
Qed.

Lemma transaction_round_trip_aux (tx : Transaction.t) :
  Transaction.from_dict (Read.items (Transaction.to_dict tx)) = Read.Parsed tx.
Proof.
  destruct tx as [ins outs ty md ts id].
  unfold Transaction.from_dict, Transaction.to_dict, Read.items, Read.item, get_default.
  cbn [Py.lookup String.eqb Ascii.eqb Bool.eqb Transaction.inputs Transaction.outputs
       Transaction.tx_type Transaction.metadata Transaction.timestamp Transaction.txid
       Read.bind].
  rewrite (dicts_map TransactionInput.from_dict TransactionInput.to_dict).
  2:{ intros x _. eexists. split; [reflexivity|]. apply (input_round_trip x). }
  cbn [Read.bind].
  rewrite (dicts_map TransactionOutput.from_dict TransactionOutput.to_dict).
  2:{ intros x _. eexists. split; [reflexivity|]. apply (output_round_trip x). }
  cbn [Read.bind Read.str Read.float]. unfold Read.dict_or_empty.
  destruct md; reflexivity.
Qed.

(** Round trip of a transaction through its dict: [from_dict] gives back
    the transaction that [to_dict] wrote, with its signature tables, its
    timestamp and its txid.  The txid is the one of the dict, whether or not
    it is the hash of the content: [from_dict] does not compute it again. *)
Theorem transaction_dict_round_trip (tx : Transaction.t) :
  exists data,
    Transaction.to_dict tx = JDict data
    /\ Transaction.from_dict data = Read.Parsed tx
    /\ (forall restored,
          Transaction.from_dict data = Read.Parsed restored ->
          Transaction.txid restored = Transaction.txid tx
          /\ Transaction.calculate_txid restored = Transaction.calculate_txid tx).
Proof.
  exists (Read.items (Transaction.to_dict tx)).
  split; [reflexivity|].
  pose proof (transaction_round_trip_aux tx) as H.
  split; [exact H|].
  intros restored Hr. rewrite H in Hr. inversion Hr; subst restored. split; reflexivity.
Qed.

(** Round trip of a block through its dict: [from_dict] gives back the
    block that [to_dict] wrote, with its transactions and the hash of the
    dict; the hash is not computed again. *)
Theorem block_dict_round_trip (block : CPCBlock.t) :
  exists data,
    CPCBlock.to_dict block = JDict data
    /\ CPCBlock.from_dict data = Read.Parsed block.
Proof.
  exists (Read.items (CPCBlock.to_dict block)). split; [reflexivity|].
  destruct block as [i ts txs ph n h].
  unfold CPCBlock.from_dict, CPCBlock.to_dict, Read.items, Read.item, get_default.
  cbn [Py.lookup String.eqb Ascii.eqb Bool.eqb CPCBlock.index CPCBlock.timestamp
       CPCBlock.transactions CPCBlock.previous_hash CPCBlock.nonce CPCBlock.hash Read.bind].
  rewrite (dicts_map Transaction.from_dict Transaction.to_dict).
  2:{ intros x _. eexists. split; [reflexivity|]. apply (transaction_round_trip_aux x). }
  reflexivity.
Qed.

(** *** The example chain *)

Import Examples.

Lemma genesis_txid_computed :
  map Transaction.txid (CPCBlock.transactions genesis) = [genesis_txid].
Proof. vm_compute. reflexivity. Qed.

(** Claim C6, counterexample.  Thirty-eight months after the genesis block
    the windowed queries no longer see its output: [get_utxo] returns
    [None] and the miner's balance is 0, where the scan from genesis finds
    the output and a balance of 100. *)
Lemma scan_window_drops_old_blocks :
  get_utxo [genesis] 1800000000 genesis_txid 0 3 = Py.Return None
  /\ (exists utxo, get_utxo_full [genesis] genesis_txid 0 = Py.Return (Some utxo))
  /\ get_balance [genesis] 1800000000 Miner.MINER_ADDRESS 3 = Py.Return (Float.of_Z 0)
  /\ get_balance_full [genesis] Miner.MINER_ADDRESS = Py.Return (Float.of_Z 100).
Proof.
  repeat split; try (vm_compute; reflexivity).
  eexists. vm_compute. reflexivity.
Qed.

(** Claim C6, witness.  Ninety days on, the genesis block is older than
    the window and the block that spends its coin is not: the scan skips
    the genesis block, and the queries agree with the scan from genesis. *)
Lemma scan_window_spent_leftover_witness :
  skipped (Some (window_start window_edge 3)) genesis = true
  /\ (forall (txid address : string) (vout : Z),
        get_utxo ([genesis] ++ [spending_block]) window_edge txid vout 3
        = get_utxo_full ([genesis] ++ [spending_block]) txid vout
        /\ get_utxos_by_address ([genesis] ++ [spending_block]) window_edge address 3
           = get_utxos_by_address_full ([genesis] ++ [spending_block]) address
        /\ get_balance ([genesis] ++ [spending_block]) window_edge address 3
           = get_balance_full ([genesis] ++ [spending_block]) address).
Proof.
  split; [reflexivity|].
  evar (leftover : utxo_map).
  assert (Hleft : scan_blockchain [genesis] None = Py.Return leftover)
    by (unfold leftover; vm_compute; reflexivity).
  apply (proj1 (scan_window_spent_leftover [genesis] [spending_block] window_edge
                  leftover
                  ltac:(constructor; [vm_compute; reflexivity|constructor])
                  ltac:(constructor; [vm_compute; reflexivity|constructor])
                  Hleft
                  ltac:(unfold leftover; simpl; intros block tx u [<-|[]] [<-|[]] [<-|[]];
                        vm_compute; discriminate))).
  unfold leftover. simpl. intros u [<-|[]].
  exists spending_block, register_hello, (signed_input genesis_txid 0 Miner.MINER_ADDRESS).
  repeat split; left; reflexivity.
Defined.

(** Claim C8, counterexample.  The script with the one address [a|b]
    comes back with the two addresses [a] and [b]. *)
Lemma script_round_trip_fails_on_pipe :
  encodable piped_script = false
  /\ from_string (to_string piped_script)
     = Py.Return (TimeLockScript.mk SCRIPT_TYPE_P2PKH ["a"; "b"] 1 None)
  /\ from_string (to_string piped_script) <> Py.Return piped_script.
Proof.
  repeat split; try (vm_compute; reflexivity).
  vm_compute. discriminate.
Qed.

(** Claim C8, witness: a two-of-two script with a time lock. *)
Lemma script_round_trip_witness :
  from_string (to_string two_of_two) = Py.Return two_of_two.
Proof. apply (script_round_trip two_of_two). reflexivity. Defined.

(** The sub-license of the example chain, accepted. *)
Lemma sub_license_rights_subset_witness :
  exists parent c1_rights,
    find_input chain now (utxo_is "proof") (Transaction.inputs sub_license_print)
    = Py.Return (Some parent)
    /\ rights_of (UTXO.payload parent) = Py.Return c1_rights
    /\ forall out,
         In out (Transaction.outputs sub_license_print) ->
         output_is "secondary" out = true ->
         exists c2_rights,
           rights_of (TransactionOutput.payload out) = Py.Return c2_rights
           /\ forall right, In right c2_rights -> elem right c1_rights = true.
Proof.
  apply (sub_license_rights_subset accept_all chain now sub_license_print Success).
  - reflexivity.
  - vm_compute. reflexivity.
Defined.

(** Claim C9, failing input.  Once the signatures of [alice] verify, the
    validator accepts a sub-license that spends two proof coins and creates
    a secondary coin that names the second proof coin as its parent, carries
    its [work_hash], and holds the right [distribute], where that parent
    holds [print] alone: the rights were compared with those of the first
    proof input. *)
Theorem sub_license_accepts_right_beyond_parent :
  (forall ecdsa_verify,
      ecdsa_verify "alice" "sig" (Transaction.txid sub_license_beyond) = true ->
      validate_transaction ecdsa_verify shelf_chain now sub_license_beyond
      = Py.Return (true, Success))
  /\ (exists inp parent out,
        In inp (Transaction.inputs sub_license_beyond)
        /\ resolve shelf_chain now inp = Py.Return (Some parent)
        /\ utxo_is "proof" parent = true
        /\ In out (Transaction.outputs sub_license_beyond)
        /\ output_is "secondary" out = true
        /\ get "parent_utxo" (TransactionOutput.payload out)
           = JStr (UTXO.get_identifier parent)
        /\ get "work_hash" (TransactionOutput.payload out)
           = get "work_hash" (UTXO.payload parent)
        /\ rights_of (TransactionOutput.payload out) = Py.Return [JStr "distribute"]
        /\ rights_of (UTXO.payload parent) = Py.Return [JStr "print"]).
Proof.
  split.
  - intros v Hv. vm_compute in Hv. vm_compute. rewrite Hv. reflexivity.
  - eexists. eexists. eexists.
    split; [right; left; reflexivity|].
    split; [vm_compute; reflexivity|].
    split; [vm_compute; reflexivity|].
    split; [right; right; left; reflexivity|].
    repeat split; vm_compute; reflexivity.
Qed.

(** Claim C5, failing input.  Once the signature of [alice] verifies, the
    validator accepts an [authorization_lock] whose sovereignty input and
    proof output carry the same [work_hash], and sovereignty to proof is no
    transition of the table. *)
Lemma lock_accepts_sovereignty_to_proof :
  (forall ecdsa_verify,
      ecdsa_verify "alice" "sig" (Transaction.txid lock_with_proof) = true ->
      validate_transaction ecdsa_verify chain now lock_with_proof
      = Py.Return (true, Success))
  /\ (exists inp utxo out,
        In inp (Transaction.inputs lock_with_proof)
        /\ resolve chain now inp = Py.Return (Some utxo)
        /\ utxo_is "sovereignty" utxo = true
        /\ In out (Transaction.outputs lock_with_proof)
        /\ output_is "proof" out = true
        /\ get "work_hash" (UTXO.payload utxo)
           = get "work_hash" (TransactionOutput.payload out))
  /\ ~ allowed_transition "sovereignty" "proof".
Proof.
  split; [|split].
  - intros v Hv. vm_compute in Hv. vm_compute. rewrite Hv. reflexivity.
  - eexists. eexists. eexists.
    split; [left; reflexivity|].
    split; [vm_compute; reflexivity|].
    split; [vm_compute; reflexivity|].
    split; [right; left; reflexivity|].
    split; vm_compute; reflexivity.
  - intros H. inversion H.
Qed.

(** Claim C4, counterexample.  The validator accepts a
    [copyright_register] transaction that has no copyright-kind output with
    a non-empty [work_hash]. *)
Lemma register_accepts_empty_work_hash :
  (forall ecdsa_verify,
      validate_transaction ecdsa_verify chain now register_empty_hash
      = Py.Return (true, RegisterOk))
  /\ Transaction.tx_type register_empty_hash = Transaction.TYPE_COPYRIGHT_REG
  /\ ~ (exists out,
          In out (Transaction.outputs register_empty_hash)
          /\ TransactionOutput.utxo_type out = "copyright"
          /\ truthy (get "work_hash" (TransactionOutput.payload out)) = true
          /\ get "copyright_type" (TransactionOutput.payload out) = JStr "sovereignty").
Proof.
  split; [|split].
  - intros v. vm_compute. reflexivity.
  - reflexivity.
  - intros [out [Hin [_ [Ht _]]]].
    destruct Hin as [<-|[]]. vm_compute in Ht. discriminate.
Qed.

(** Claim C4, witness: a well-formed registration. *)
Lemma register_accepted_shape_witness :
  Transaction.inputs register_hello <> []
  /\ (exists out,
         In out (Transaction.outputs register_hello)
         /\ TransactionOutput.utxo_type out = "copyright")
  /\ forall out,
       In out (Transaction.outputs register_hello) ->
       TransactionOutput.utxo_type out = "copyright" ->
       Py.contains "work_hash" (TransactionOutput.payload out) = true
       /\ get "copyright_type" (TransactionOutput.payload out) = JStr "sovereignty".
Proof.
  apply (register_accepted_shape accept_all chain now register_hello RegisterOk).
  - reflexivity.
  - vm_compute. reflexivity.
Defined.

(** Claim C2, at the failing input.  The validator accepts, whatever the
    signature check, a [copyright_register] transaction whose one input
    resolves to the miner's 100 coins and whose outputs sum to 1000. *)
Theorem register_skips_value_check :
  (forall ecdsa_verify,
      validate_transaction ecdsa_verify chain now inflating_register
      = Py.Return (true, RegisterOk))
  /\ map (resolve chain now) (Transaction.inputs inflating_register)
     = [Py.Return
          (Some (UTXO.mk genesis_txid 0 (Float.of_Z 100) Miner.MINER_ADDRESS
                   Miner.miner_script "fuel" []))]
  /\ Float.sum (map TransactionOutput.amount (Transaction.outputs inflating_register))
     = Float.of_Z 1000
  /\ Float.ltb (Float.of_Z 100) (Float.of_Z 1000) = true.
Proof.
  split; [intros v|]; repeat split; vm_compute; reflexivity.
Qed.

(** Claim C3, at the failing input.  The validator accepts, whatever the
    signature check, a [copyright_register] transaction whose input resolves
    to a copyright UTXO created more than ninety days before [now]. *)
Theorem register_spends_expired_coin :
  (forall ecdsa_verify,
      validate_transaction ecdsa_verify chain now register_from_expired
      = Py.Return (true, RegisterOk))
  /\ exists inp utxo payload,
       In inp (Transaction.inputs register_from_expired)
       /\ resolve chain now inp = Py.Return (Some utxo)
       /\ UTXO.utxo_type utxo = "copyright"
       /\ CopyrightPayload.from_dict now (UTXO.payload utxo) = Py.Return payload
       /\ CopyrightPayload.created_at payload = JFloat (Float.of_Z 1600000000)
       /\ CopyrightPayload.is_expired payload now = Py.Return true
       /\ 1600000000 + AUTHORIZATION_DURATION_SECONDS <= now.
Proof.
  split; [intros v; vm_compute; reflexivity|].
  eexists. eexists. eexists.
  split; [left; reflexivity|].
  split; [vm_compute; reflexivity|].
  split; [reflexivity|].
  split; [vm_compute; reflexivity|].
  split; [reflexivity|].
  split; [vm_compute; reflexivity|].
  vm_compute. discriminate.
Qed.

(** Claim C7, at the failing input.  [add_signature] on input 0 of a
    transaction replaces its txid by another one. *)
Theorem add_signature_changes_txid :
  Transaction.txid unsigned_lock
  = "34e0e9b628076077929b6874d94bba01b1363b3b6746dffe9b08492f48169b9e"
  /\ exists signed,
       Transaction.add_signature unsigned_lock 0 "alice" "sig" = Py.Return signed
       /\ Transaction.txid signed
          = "f351de7b780e4848dc428a7b893481701aa18e2fd351e9a267f8580112254564"
       /\ Transaction.txid signed <> Transaction.txid unsigned_lock.
Proof.
  split; [vm_compute; reflexivity|].
  eexists. split; [vm_compute; reflexivity|].
  split; [reflexivity|]. vm_compute. discriminate.
Qed.

(** Claim C1, at the failing input.  On the genesis chain, with the clock
    advancing by a microsecond between the pass of [proof_of_work] that
    succeeds and the construction of the block, [mine_block] appends a block
    with the nonce that [proof_of_work] returned and a hash that does not
    begin with four zeros. *)
Theorem mined_block_misses_target :
  forall ecdsa_verify,
    exists blockchain new_block,
      Miner.mine_block ecdsa_verify 1 mining_clock [genesis] []
      = Py.Return (Some (blockchain, new_block))
      /\ Miner.proof_of_work 1 (Miner.pow_time mining_clock) genesis
           (CPCBlock.transactions new_block) 4 = Some (CPCBlock.nonce new_block)
      /\ CPCBlock.hash
           (CPCBlock.new 1 (Miner.pow_time mining_clock 0)
              (CPCBlock.transactions new_block) (CPCBlock.hash genesis) 0)
         = "00005a9c1fda030ee90432dc9566db0d5d84f10c9391a05168bce4de992343c0"
      /\ CPCBlock.hash new_block
         = "1d3addeac91e8d23959384b104775202c6fb510e979f15ac9e881734b431a222"
      /\ CPCBlock.calculate_hash new_block = CPCBlock.hash new_block
      /\ Py.startswith "0000" (CPCBlock.hash new_block) = false.
Proof.
  intros v. eexists. eexists.
  split; [vm_compute; reflexivity|].
  repeat split; vm_compute; reflexivity.
Qed.

(** The renewal of the expired proof coin is not accepted. *)
Lemma expired_input_rejected_witness :
  ~ (exists m,
        validate_transaction Examples.accept_all Examples.chain Examples.now
          Examples.renewal_of_expired = Py.Return (true, m)).
Proof.
  apply (expired_input_rejected Examples.accept_all Examples.chain Examples.now
           Examples.renewal_of_expired
           (Examples.signed_input (Transaction.txid Examples.ledger_tx) 2 "alice")
           (UTXO.mk (Transaction.txid Examples.ledger_tx) 2 (Float.of_Z 1) "alice"
              (Examples.script_of "alice") "copyright"
              (Examples.payload_of Examples.work "proof" ["print"; "distribute"] JNull
                 1600000000))
           1607776000).
  - reflexivity.
  - left. reflexivity.
  - vm_compute. reflexivity.
  - vm_compute. reflexivity.
  - discriminate.
  - vm_compute. discriminate.
Defined.

(** The mining run of the example: nonce 0 is found in the first pass. *)
Lemma proof_of_work_first_nonce_witness :
  0 <= 0
  /\ Py.startswith (Py.repeat_char "0" (Z.to_nat 4))
       (CPCBlock.hash
          (Miner.candidate_block (Miner.pow_time Examples.mining_clock) Examples.genesis
             [Miner.reward_transaction (Float.of_Z 0)
                (Miner.reward_time Examples.mining_clock)] 0)) = true
  /\ forall k, 0 <= k < 0 ->
       Py.startswith (Py.repeat_char "0" (Z.to_nat 4))
         (CPCBlock.hash
            (Miner.candidate_block (Miner.pow_time Examples.mining_clock) Examples.genesis
               [Miner.reward_transaction (Float.of_Z 0)
                  (Miner.reward_time Examples.mining_clock)] k)) = false.
Proof.
  apply (proof_of_work_first_nonce (Miner.pow_time Examples.mining_clock) Examples.genesis
           [Miner.reward_transaction (Float.of_Z 0)
              (Miner.reward_time Examples.mining_clock)] 4 1 0).
  vm_compute. reflexivity.
Defined.

(** One pass of fuel is enough there. *)
Lemma proof_of_work_returns_witness :
  exists nonce,
    Miner.proof_of_work 1 (Miner.pow_time Examples.mining_clock) Examples.genesis
      [Miner.reward_transaction (Float.of_Z 0) (Miner.reward_time Examples.mining_clock)] 4
    = Some nonce.
Proof.
  apply (proof_of_work_returns (Miner.pow_time Examples.mining_clock) Examples.genesis
           [Miner.reward_transaction (Float.of_Z 0)
              (Miner.reward_time Examples.mining_clock)] 4 1 0).
  - lia.
  - vm_compute. reflexivity.
Defined.

(** The frame of [add_signature] on the transaction that waits for [alice]. *)
Lemma add_signature_frame_witness :
  exists signed,
    Transaction.add_signature Examples.unsigned_lock 0 "alice" "sig" = Py.Return signed
    /\ Transaction.outputs signed = Transaction.outputs Examples.unsigned_lock
    /\ Transaction.tx_type signed = Transaction.tx_type Examples.unsigned_lock
    /\ Transaction.metadata signed = Transaction.metadata Examples.unsigned_lock
    /\ Transaction.timestamp signed = Transaction.timestamp Examples.unsigned_lock
    /\ map TransactionInput.required_signers (Transaction.inputs signed)
       = map TransactionInput.required_signers (Transaction.inputs Examples.unsigned_lock)
    /\ (forall j, j <> Z.to_nat 0 ->
          nth_error (Transaction.inputs signed) j
          = nth_error (Transaction.inputs Examples.unsigned_lock) j)
    /\ nth_error (Transaction.inputs signed) (Z.to_nat 0)
       = option_map (fun inp => TransactionInput.add_signature inp "alice" "sig")
           (nth_error (Transaction.inputs Examples.unsigned_lock) (Z.to_nat 0))
    /\ Transaction.txid signed = Transaction.calculate_txid signed.
Proof.
  apply (add_signature_frame Examples.unsigned_lock 0 "alice" "sig").
  vm_compute. split; [discriminate|reflexivity].
Defined.

(** *** The examples of the further properties *)

(** The mining run on the example chain: the faucet transaction over the
    limit is left out, the lock pays a fee of 0.25, and the clock reading
    1700000101.027388 makes nonce 0 pass. *)
Lemma packed_block_mined :
  Miner.mine_block accept_all 1 packing_clock chain pending
  = Py.Return (Some (packed_chain, packed_block))
  /\ map (Miner.is_valid accept_all chain now) pending = [true; false; true]
  /\ CPCBlock.hash
       (Miner.candidate_block (Miner.pow_time packing_clock) ledger_block
          (CPCBlock.transactions packed_block) 0)
     = "0000769ff28945f51b0b71c297e436f63b4d8cc13f4b71842f145b1766a6599b".
Proof. repeat split; vm_compute; reflexivity. Qed.

(** The transaction that waits for [alice] is rejected at step 0. *)
Lemma unsigned_transaction_rejected_witness :
  validate_transaction accept_all chain now unsigned_lock
  = Py.Return (false, NotFullySigned (Transaction.get_unsigned_signers unsigned_lock))
  /\ Transaction.get_unsigned_signers unsigned_lock <> []
  /\ forall i addrs,
       In (i, addrs) (Transaction.get_unsigned_signers unsigned_lock) ->
       exists inp,
         0 <= i
         /\ nth_error (Transaction.inputs unsigned_lock) (Z.to_nat i) = Some inp
         /\ addrs <> []
         /\ forall signer,
              In signer addrs
              <-> In signer (TransactionInput.required_signers inp)
                  /\ Py.lookup signer (TransactionInput.signatures inp) = None.
Proof.
  apply (unsigned_transaction_rejected accept_all chain now unsigned_lock).
  vm_compute. reflexivity.
Defined.

(** [bob], then [alice], sign the input that waits for both. *)
Lemma signed_by_all_is_fully_signed_witness :
  TransactionInput.is_fully_signed
    (fold_left (fun i p => TransactionInput.add_signature i (fst p) (snd p))
       [("bob", "sig-bob"); ("alice", "sig-alice")] two_signer_input)
  = true.
Proof.
  apply (signed_by_all_is_fully_signed two_signer_input
           [("bob", "sig-bob"); ("alice", "sig-alice")]).
  intros signer H. simpl in H. simpl.
  destruct H as [H|[H|[]]]; auto.
Defined.

(** The input of the accepted lock. *)
Lemma accepted_spend_honours_script_witness :
  exists utxo script,
    resolve chain now (signed_input (Transaction.txid ledger_tx) 0 "alice")
    = Py.Return (Some utxo)
    /\ from_string (UTXO.script_pubkey utxo) = Py.Return script
    /\ required_sig_num script <= 1
    /\ (1 <= required_sig_num script ->
        exists public_key,
          TransactionInput.public_key (signed_input (Transaction.txid ledger_tx) 0 "alice")
          = Some public_key
          /\ In public_key (addresses script))
    /\ (forall l, time_lock script = Some l -> l <> 0 -> l <= now).
Proof.
  apply (accepted_spend_honours_script accept_all chain now lock_rebuilding Success).
  - reflexivity.
  - vm_compute. reflexivity.
  - left. reflexivity.
Defined.

Lemma accepted_input_signatures_verify_witness :
  (TransactionInput.signatures (signed_input (Transaction.txid ledger_tx) 0 "alice") <> []
   /\ (forall signer signature,
         In (signer, signature)
           (TransactionInput.signatures (signed_input (Transaction.txid ledger_tx) 0 "alice")) ->
         accept_all signer signature (Transaction.txid lock_rebuilding) = true)
   /\ (forall signer,
         In signer
           (TransactionInput.required_signers
              (signed_input (Transaction.txid ledger_tx) 0 "alice")) ->
         exists signature,
           Py.lookup signer
             (TransactionInput.signatures (signed_input (Transaction.txid ledger_tx) 0 "alice"))
           = Some signature
           /\ accept_all signer signature (Transaction.txid lock_rebuilding) = true))
  \/ (TransactionInput.signatures (signed_input (Transaction.txid ledger_tx) 0 "alice") = []
      /\ exists utxo signature,
           resolve chain now (signed_input (Transaction.txid ledger_tx) 0 "alice")
           = Py.Return (Some utxo)
           /\ TransactionInput.public_key (signed_input (Transaction.txid ledger_tx) 0 "alice")
              = Some (UTXO.address utxo)
           /\ TransactionInput.signature (signed_input (Transaction.txid ledger_tx) 0 "alice")
              = Some signature
           /\ accept_all (UTXO.address utxo) signature (Transaction.txid lock_rebuilding)
              = true).
Proof.
  apply (accepted_input_signatures_verify accept_all chain now lock_rebuilding Success).
  - reflexivity.
  - vm_compute. reflexivity.
  - left. reflexivity.
Defined.

(** The registration [register_hello] on the map that holds the genesis
    coin. *)
Lemma transaction_effect_on_utxo_map_witness :
  exists utxos',
    scan_tx
      [(UTXO.identifier genesis_txid 0,
        UTXO.mk genesis_txid 0 (Float.of_Z 100) Miner.MINER_ADDRESS Miner.miner_script
          "fuel" [])]
      register_hello = Py.Return utxos'
    /\ NoDup (map fst utxos')
    /\ (forall i out,
          0 <= i -> nth_error (Transaction.outputs register_hello) (Z.to_nat i) = Some out ->
          Py.lookup (UTXO.identifier (Transaction.txid register_hello) i) utxos'
          = Some (utxo_of_output (Transaction.txid register_hello) i out))
    /\ (forall inp,
          In inp (Transaction.inputs register_hello) ->
          TransactionInput.txid inp <> Transaction.txid register_hello
          \/ ~ (0 <= TransactionInput.vout inp
                  < Z.of_nat (length (Transaction.outputs register_hello))) ->
          Py.lookup (UTXO.identifier (TransactionInput.txid inp) (TransactionInput.vout inp))
            utxos' = None)
    /\ (forall k,
          (forall inp, In inp (Transaction.inputs register_hello) ->
             k <> UTXO.identifier (TransactionInput.txid inp) (TransactionInput.vout inp)) ->
          (forall i, 0 <= i < Z.of_nat (length (Transaction.outputs register_hello)) ->
             k <> UTXO.identifier (Transaction.txid register_hello) i) ->
          Py.lookup k utxos'
          = Py.lookup k
              [(UTXO.identifier genesis_txid 0,
                UTXO.mk genesis_txid 0 (Float.of_Z 100) Miner.MINER_ADDRESS
                  Miner.miner_script "fuel" [])]).
Proof.
  apply (transaction_effect_on_utxo_map
           [(UTXO.identifier genesis_txid 0,
             UTXO.mk genesis_txid 0 (Float.of_Z 100) Miner.MINER_ADDRESS Miner.miner_script
               "fuel" [])]
           register_hello).
  simpl. constructor; [intros []|constructor].
Defined.

(** The genesis coin, resolved on the example chain. *)
Lemma get_utxo_returns_requested_witness :
  UTXO.txid
    (UTXO.mk genesis_txid 0 (Float.of_Z 100) Miner.MINER_ADDRESS Miner.miner_script "fuel" [])
  = genesis_txid
  /\ UTXO.vout
       (UTXO.mk genesis_txid 0 (Float.of_Z 100) Miner.MINER_ADDRESS Miner.miner_script
          "fuel" [])
     = 0
  /\ exists block tx out,
       In block chain
       /\ In tx (CPCBlock.transactions block)
       /\ Transaction.txid tx = genesis_txid
       /\ 0 <= 0
       /\ nth_error (Transaction.outputs tx) (Z.to_nat 0) = Some out
       /\ UTXO.mk genesis_txid 0 (Float.of_Z 100) Miner.MINER_ADDRESS Miner.miner_script
            "fuel" []
          = utxo_of_output genesis_txid 0 out.
Proof.
  apply (get_utxo_returns_requested chain now genesis_txid 0 3).
  vm_compute. reflexivity.
Defined.

(** After the mined block and the block of the activation, the sovereignty
    coin that the lock spent. *)
Lemma spent_coin_stays_unresolvable_witness :
  resolve (chain ++ packed_block :: [activation_block]) later
    (signed_input (Transaction.txid ledger_tx) 0 "alice")
  = Py.Return None
  /\ forall ecdsa_verify tx2 inp2,
       generic_type (Transaction.tx_type tx2) = true ->
       In inp2 (Transaction.inputs tx2) ->
       TransactionInput.txid inp2
       = TransactionInput.txid (signed_input (Transaction.txid ledger_tx) 0 "alice") ->
       TransactionInput.vout inp2
       = TransactionInput.vout (signed_input (Transaction.txid ledger_tx) 0 "alice") ->
       ~ (exists m,
            validate_transaction ecdsa_verify (chain ++ packed_block :: [activation_block])
              later tx2
            = Py.Return (true, m)).
Proof.
  apply (spent_coin_stays_unresolvable chain [activation_block] packed_block later
           lock_rebuilding (signed_input (Transaction.txid ledger_tx) 0 "alice")).
  - vm_compute. reflexivity.
  - right. left. reflexivity.
  - left. reflexivity.
  - intros block' tx' Hb H.
    destruct Hb as [Hb|[Hb|[]]]; subst block'; simpl in H.
    + destruct H as [H|[H|[H|[]]]]; subst tx'; vm_compute; discriminate.
    + destruct H as [H|[]]; subst tx'; vm_compute; discriminate.
Defined.


(** The mining run. *)
Lemma mined_block_contents_witness :
  packed_chain = chain ++ [packed_block]
  /\ (exists earlier last_block,
        chain = earlier ++ [last_block]
        /\ CPCBlock.index packed_block = CPCBlock.index last_block + 1
        /\ CPCBlock.previous_hash packed_block = CPCBlock.hash last_block)
  /\ CPCBlock.timestamp packed_block = Miner.block_time packing_clock
  /\ CPCBlock.hash packed_block = CPCBlock.calculate_hash packed_block
  /\ exists reward_tx reward_output,
       CPCBlock.transactions packed_block
       = filter (Miner.is_valid accept_all chain (Miner.validation_time packing_clock))
           pending
         ++ [reward_tx]
       /\ Transaction.tx_type reward_tx = Transaction.TYPE_FAUCET
       /\ Transaction.inputs reward_tx = []
       /\ Transaction.timestamp reward_tx = Miner.reward_time packing_clock
       /\ Transaction.outputs reward_tx = [reward_output]
       /\ TransactionOutput.address reward_output = Miner.MINER_ADDRESS
       /\ TransactionOutput.utxo_type reward_output = "fuel".
Proof.
  apply (mined_block_contents accept_all 1 packing_clock chain pending packed_chain
           packed_block).
  vm_compute. reflexivity.
Defined.

Lemma mined_reward_resolvable_witness :
  exists packed reward_tx reward_output utxo,
    CPCBlock.transactions packed_block = packed ++ [reward_tx]
    /\ Transaction.outputs reward_tx = [reward_output]
    /\ get_utxo packed_chain later (Transaction.txid reward_tx) 0 3
       = Py.Return (Some utxo)
    /\ utxo = utxo_of_output (Transaction.txid reward_tx) 0 reward_output
    /\ UTXO.address utxo = Miner.MINER_ADDRESS
    /\ UTXO.utxo_type utxo = "fuel".
Proof.
  apply (mined_reward_resolvable accept_all 1 packing_clock chain pending packed_chain
           packed_block later 3).
  - vm_compute. reflexivity.
  - vm_compute. reflexivity.
Defined.


Lemma payload_round_trip_witness :
  CopyrightPayload.from_dict now (CopyrightPayload.to_dict proof_payload)
  = Py.Return proof_payload.
Proof.
  apply (payload_round_trip now proof_payload).
  - reflexivity.
  - right. reflexivity.
Defined.

(** The payload with the two fields of [register_empty_hash], completed by
    a title and an author. *)
Lemma payload_without_created_at_never_expires_witness :
  CopyrightPayload.get_end_time
    (CopyrightPayload.mk (JStr work) (JStr "hello") (JStr "alice") (JStr "sovereignty")
       CopyrightPayload.default_rights_scope JNull (JDict []) (JInt now))
  = Py.Return (now + AUTHORIZATION_DURATION_SECONDS)
  /\ CopyrightPayload.is_expired
       (CopyrightPayload.mk (JStr work) (JStr "hello") (JStr "alice") (JStr "sovereignty")
          CopyrightPayload.default_rights_scope JNull (JDict []) (JInt now))
       now
     = Py.Return false.
Proof.
  apply (payload_without_created_at_never_expires now
           [("work_hash", JStr work); ("work_title", JStr "hello");
            ("author", JStr "alice"); ("copyright_type", JStr "sovereignty")]).
  - reflexivity.
  - reflexivity.
Defined.

(** The coin of [register_empty_hash] has no [work_title]. *)
Lemma incomplete_payload_unspendable_witness :
  CopyrightPayload.from_dict now
    (UTXO.payload
       (UTXO.mk (Transaction.txid register_empty_hash) 0 (Float.of_Z 1) "alice"
          (script_of "alice") "copyright"
          [("work_hash", JStr ""); ("copyright_type", JStr "sovereignty")]))
  = Py.Raise Py.KeyError
  /\ ~ (exists m,
          validate_transaction accept_all sparse_chain now lock_of_sparse
          = Py.Return (true, m)).
Proof.
  apply (incomplete_payload_unspendable accept_all sparse_chain now lock_of_sparse
           (signed_input (Transaction.txid register_empty_hash) 0 "alice")
           (UTXO.mk (Transaction.txid register_empty_hash) 0 (Float.of_Z 1) "alice"
              (script_of "alice") "copyright"
              [("work_hash", JStr ""); ("copyright_type", JStr "sovereignty")])
           "work_title").
  - reflexivity.
  - left. reflexivity.
  - vm_compute. reflexivity.
  - reflexivity.
  - discriminate.
  - right. left. reflexivity.
  - reflexivity.
Defined.

(** The activation of the instruction that the mined lock created. *)
Lemma activate_inherits_work_hash_witness :
  exists instruction payload end_time,
    find_input packed_chain later (utxo_is "instruction") (Transaction.inputs activate_print)
    = Py.Return (Some instruction)
    /\ CopyrightPayload.from_dict later (UTXO.payload instruction) = Py.Return payload
    /\ CopyrightPayload.get_end_time payload = Py.Return end_time
    /\ later < end_time
    /\ (exists out,
          In out (Transaction.outputs activate_print) /\ output_is "proof" out = true)
    /\ forall out,
         In out (Transaction.outputs activate_print) -> output_is "proof" out = true ->
         py_eqb (get "work_hash" (TransactionOutput.payload out))
           (get "work_hash" (UTXO.payload instruction)) = true.
Proof.
  apply (activate_inherits_work_hash accept_all packed_chain later activate_print Success).
  - reflexivity.
  - vm_compute. reflexivity.
Defined.

(** The instruction that the mined lock created for [bob]. *)
Lemma new_output_resolvable_witness :
  get_utxo (chain ++ [packed_block]) later (Transaction.txid lock_rebuilding) 0 3
  = Py.Return
      (Some (utxo_of_output (Transaction.txid lock_rebuilding) 0
               (copyright_output (Float.mk 25 2) "bob"
                  (payload_of work "instruction" ["print"] JNull 1700000090)))).
Proof.
  apply (new_output_resolvable chain packed_block later 3 [faucet_alice]
           [Miner.reward_transaction (Float.mk 250 3) (Float.mk 17000001005 1)]
           lock_rebuilding 0).
  - vm_compute. reflexivity.
  - reflexivity.
  - lia.
  - reflexivity.
  - intros tx' H. simpl in H. destruct H as [H|[]]. subst tx'.
    split; [vm_compute; discriminate|]. intros inp [].
Defined.

(** The lock with the proof output: accepted, so no message of the state
    machine. *)
Lemma state_machine_never_rejects_witness :
  validate_transaction accept_all chain now lock_with_proof = Py.Return (true, Success)
  /\ state_machine_failure (snd (true, Success)) = false.
Proof.
  split; [vm_compute; reflexivity|].
  apply (state_machine_never_rejects accept_all chain now lock_with_proof).
  vm_compute. reflexivity.
Defined.
